(** * ETL Neotel: a shallow embedding of [main.py] and its verified properties

    The development follows the layout of the script: auxiliary functions
    (business date, download watcher), transformation helpers, the retry
    policies, the Selenium stages and the process entry point.  Browser,
    file-system and clock are modelled as explicit oracles; exceptions are
    values of an error monad. *)

From Stdlib Require Import ZArith QArith Qminmax Qpower Lia List Ascii String.
From Stdlib Require Import Floats.SpecFloat.
From stdpp Require Import base strings gmap sets list.

Local Open Scope Z_scope.

(* ===================================================================== *)
(** * Exceptions and the error monad                                      *)
(* ===================================================================== *)

(** The exception classes the script raises, catches or lets through, in
    two layers as in Python: [excepcion] lists subclasses of [Exception],
    and [exn] adds [SystemExit], a [BaseException] that [except Exception]
    does not catch.  [TimeoutException] and [NoSuchElementException] derive
    from [WebDriverException]; the builtin [TimeoutError] and
    [FileNotFoundError] derive from [OSError], of which [EnvironmentError]
    is an alias. *)
Inductive excepcion : Type :=
  | EnvironmentError
  | FileNotFoundError
  | TimeoutError
  | WebDriverException
  | TimeoutException
  | NoSuchElementException
  | ValueError
  | TypeError
  | OverflowError
  | ZeroDivisionError
  | IndexError
  | RetryError
  | PlainException.

Inductive exn : Type :=
  | Exc (e : excepcion)
  | SystemExit (code : Z).
Coercion Exc : excepcion >-> exn.

Definition is_OSError (e : excepcion) : bool :=
  match e with
  | EnvironmentError | FileNotFoundError | TimeoutError => true
  | _ => false
  end.

Definition is_TimeoutError (e : excepcion) : bool :=
  match e with TimeoutError => true | _ => false end.

Definition is_WebDriverException (e : excepcion) : bool :=
  match e with
  | WebDriverException | TimeoutException | NoSuchElementException => true
  | _ => false
  end.

Definition is_TimeoutException (e : excepcion) : bool :=
  match e with TimeoutException => true | _ => false end.

Definition is_NoSuchElementException (e : excepcion) : bool :=
  match e with NoSuchElementException => true | _ => false end.

Inductive result (A : Type) : Type :=
  | Ok (a : A)
  | Raise (e : exn).
Arguments Ok {A} a.
Arguments Raise {A} e.

Definition rbind {A B} (r : result A) (k : A → result B) : result B :=
  match r with Ok a => k a | Raise e => Raise e end.

(** [try: r  except <clase>: h], without state. *)
Definition rcatch {A} (r : result A) (clase : excepcion → bool)
    (h : result A) : result A :=
  match r with
  | Raise (Exc e) => if clase e then h else r
  | _ => r
  end.

(* ===================================================================== *)
(** * Business date: [calcular_fecha_ayer]                                *)
(* ===================================================================== *)

Module Fecha.

(** ** Python's [datetime] arithmetic (proleptic Gregorian ordinals) *)

Record datetime := mkDatetime {
  year : Z; month : Z; day : Z;
  hour : Z; minute : Z; second : Z; microsecond : Z
}.

Definition _is_leap (y : Z) : bool :=
  (y mod 4 =? 0) && (negb (y mod 100 =? 0) || (y mod 400 =? 0)).

Definition _days_before_year (y : Z) : Z :=
  let y := y - 1 in y * 365 + y / 4 - y / 100 + y / 400.

(** [_DAYS_IN_MONTH] and [_DAYS_BEFORE_MONTH], indexed from 1. *)
Definition _DAYS_IN_MONTH (m : Z) : Z :=
  match m with
  | 1 => 31 | 2 => 28 | 3 => 31 | 4 => 30 | 5 => 31 | 6 => 30
  | 7 => 31 | 8 => 31 | 9 => 30 | 10 => 31 | 11 => 30 | 12 => 31
  | _ => -1
  end.

Definition _DAYS_BEFORE_MONTH (m : Z) : Z :=
  match m with
  | 1 => 0 | 2 => 31 | 3 => 59 | 4 => 90 | 5 => 120 | 6 => 151
  | 7 => 181 | 8 => 212 | 9 => 243 | 10 => 273 | 11 => 304 | 12 => 334
  | _ => -1
  end.

Definition _days_in_month (y m : Z) : Z :=
  if (m =? 2) && _is_leap y then 29 else _DAYS_IN_MONTH m.

Definition b2z (b : bool) : Z := if b then 1 else 0.

Definition _days_before_month (y m : Z) : Z :=
  _DAYS_BEFORE_MONTH m + b2z ((2 <? m) && _is_leap y).

Definition _ymd2ord (y m d : Z) : Z :=
  _days_before_year y + _days_before_month y m + d.

Definition _DI400Y : Z := 146097.
Definition _DI100Y : Z := 36524.
Definition _DI4Y : Z := 1461.
Definition _MAXORDINAL : Z := 3652059.

Definition _ord2ymd (n : Z) : Z * Z * Z :=
  let n := n - 1 in
  let n400 := n / _DI400Y in
  let n := n mod _DI400Y in
  let y := n400 * 400 + 1 in
  let n100 := n / _DI100Y in
  let n := n mod _DI100Y in
  let n4 := n / _DI4Y in
  let n := n mod _DI4Y in
  let n1 := n / 365 in
  let n := n mod 365 in
  let y := y + (n100 * 100 + n4 * 4 + n1) in
  if (n1 =? 4) || (n100 =? 4) then (y - 1, 12, 31)
  else
    let leapyear := (n1 =? 3) && (negb (n4 =? 24) || (n100 =? 3)) in
    let m := Z.shiftr (n + 50) 5 in
    let preceding := _DAYS_BEFORE_MONTH m + b2z ((2 <? m) && leapyear) in
    if n <? preceding then
      let m := m - 1 in
      let preceding :=
        preceding - (_DAYS_IN_MONTH m + b2z ((m =? 2) && leapyear)) in
      (y, m, n - preceding + 1)
    else (y, m, n - preceding + 1).

Definition toordinal (t : datetime) : Z := _ymd2ord (year t) (month t) (day t).

(** [t - timedelta(days=n)]: the day count moves, the time of day is kept;
    a result outside [1, _MAXORDINAL] raises [OverflowError]. *)
Definition sub_days (t : datetime) (n : Z) : result datetime :=
  let days := toordinal t - n in
  if (0 <? days) && (days <=? _MAXORDINAL) then
    let '(y, m, d) := _ord2ymd days in
    Ok (mkDatetime y m d (hour t) (minute t) (second t) (microsecond t))
  else Raise OverflowError.

(** ** [strftime("%d/%m/%Y")] *)

Definition digit (n : Z) : ascii :=
  ascii_of_nat (48 + Z.to_nat (n mod 10)).

Fixpoint decimal_aux (fuel : nat) (n : Z) (acc : string) : string :=
  match fuel with
  | O => acc
  | S fuel =>
      let acc := String (digit n) acc in
      if n <? 10 then acc else decimal_aux fuel (n / 10) acc
  end.

(** The decimal numeral of a non-negative integer. *)
Definition decimal (n : Z) : string :=
  decimal_aux (S (Z.to_nat (Z.log2 n))) n "".

(** [%d] and [%m]: two digits, zero padded. *)
Definition pad2 (n : Z) : string :=
  String (digit (n / 10)) (String (digit n) "").

(** [%Y]: the year as a decimal number.  Years below 1000 are padded or
    not depending on the platform's C library; the numeral is what glibc
    prints, and the two agree from year 1000 on. *)
Definition strftime_dmY (t : datetime) : string :=
  pad2 (day t) +:+ "/" +:+ pad2 (month t) +:+ "/" +:+ decimal (year t).

(** [calcular_fecha_ayer], with [datetime.now()] as its argument. *)
Definition calcular_fecha_ayer (now : datetime) : result string :=
  rbind (sub_days now 1) (λ ayer, Ok (strftime_dmY ayer)).

(** ** The calendar reading of "one day earlier" *)

Definition fecha_valida (y m d : Z) : Prop :=
  1 ≤ y ≤ 9999 ∧ 1 ≤ m ≤ 12 ∧ 1 ≤ d ≤ _days_in_month y m.

Definition dia_anterior (y m d : Z) : Z * Z * Z :=
  if 1 <? d then (y, m, d - 1)
  else if 1 <? m then (y, m - 1, _days_in_month y (m - 1))
  else (y - 1, 12, 31).

(** Four year digits, two month digits, two day digits. *)
Definition pad4 (n : Z) : string :=
  String (digit (n / 1000)) (String (digit (n / 100)) (pad2 n)).

Definition formato_DDMMYYYY (f : Z * Z * Z) : string :=
  let '(y, m, d) := f in pad2 d +:+ "/" +:+ pad2 m +:+ "/" +:+ pad4 y.

(** ** Decision procedures used by the proofs *)

Definition Zrange (lo n : Z) : list Z :=
  map (λ i, lo + Z.of_nat i) (seq 0 (Z.to_nat n)).

Definition ymd_eqb (a b : Z * Z * Z) : bool :=
  let '(y1, m1, d1) := a in
  let '(y2, m2, d2) := b in
  (y1 =? y2) && (m1 =? m2) && (d1 =? d2).

(** One day of the calendar: going through ordinals agrees with
    [dia_anterior]. *)
Definition check_dia (y m d : Z) : bool :=
  (_days_in_month y m <? d) ||
  ymd_eqb (_ord2ymd (_ymd2ord y m d - 1)) (dia_anterior y m d).

(** All days of one 400-year Gregorian cycle. *)
Definition check_ciclo : bool :=
  forallb (λ y, forallb (λ m, forallb (check_dia y m) (Zrange 1 31))
                        (Zrange 1 12))
          (Zrange 1 400).

Definition check_year (y : Z) : bool := String.eqb (decimal y) (pad4 y).

Definition shift_year (k : Z) (f : Z * Z * Z) : Z * Z * Z :=
  let '(y, m, d) := f in (y + k, m, d).

End Fecha.

(* ===================================================================== *)
(** * Python sets of strings                                              *)
(* ===================================================================== *)

(** Python iterates a [set] in an order the language leaves open.  An
    [enumeracion] is any way of listing the members of a set; code that
    iterates a set, or pops from it, is defined for every enumeration and
    its properties are proved for every one of them. *)
Record enumeracion := mkEnumeracion {
  listar :> gset string → list string;
  listar_ok : ∀ s x, x ∈ listar s ↔ x ∈ s
}.

(** One enumeration: the order of stdpp's [elements]. *)
Definition por_elementos : enumeracion :=
  mkEnumeracion elements (λ s x, elem_of_elements s x).

(* ===================================================================== *)
(** * Download watcher: [esperar_descarga_completa] and its caller        *)
(* ===================================================================== *)

Module Descarga.

(** [str.endswith] *)
Definition endswith (s suf : string) : bool :=
  let n := String.length s in
  let k := String.length suf in
  (k <=? n)%nat && String.eqb (substring (n - k) k s) suf.

(** A download directory at one instant: [None] when it does not exist,
    otherwise its regular files with their sizes ([st_size]). *)
Definition directorio : Type := option (gmap string Z).

Definition obtener_archivos_en_directorio (d : directorio) : gset string :=
  match d with
  | None => ∅
  | Some fs => dom fs
  end.

(** [Path.stat().st_size]; a missing file raises [FileNotFoundError]. *)
Definition st_size (d : directorio) (f : string) : result Z :=
  match d with
  | Some fs =>
      match fs !! f with
      | Some n => Ok n
      | None => Raise FileNotFoundError
      end
  | None => Raise FileNotFoundError
  end.

Definition DOWNLOAD_TIMEOUT : Q := 20.
Definition DOWNLOAD_CHECK_INTERVAL_MIN : Q := 1.
Definition DOWNLOAD_CHECK_INTERVAL_MAX : Q := 6.

(** The filter of the list comprehension: not a partial download. *)
Definition es_parcial (f : string) : bool :=
  endswith f ".crdownload" || endswith f ".part" || endswith f ".tmp".

(** What one evaluation of the loop test and body reads: the value of
    [time.time() - tiempo_inicio], the download directory as the listing
    finds it, and the directory as the size check finds it afterwards.  The
    two readings of one iteration need not agree: a file of the listing can
    be gone, or have grown, when its size is read. *)
Record observacion := mkObservacion {
  transcurrido : Q;
  dir : directorio;
  dir_stat : directorio
}.

(** An iteration during which the directory does not change. *)
Definition quieto (t : Q) (d : directorio) : observacion :=
  mkObservacion t d d.

Definition Qltb (x y : Q) : bool := negb (Qle_bool y x).

(** The polling loop.  [obs] lists what successive iterations observe;
    [None] means the loop is still running when the observations end.  The
    second component collects the arguments of [time.sleep], oldest first.
    Every interval the loop computes is a dyadic rational with a short
    mantissa, so the float arithmetic of the source is exact here. *)
Fixpoint bucle_espera (E : enumeracion) (archivos_previos : gset string)
    (timeout intervalo : Q) (obs : list observacion) (sleeps : list Q)
    : option (result string * list Q) :=
  match obs with
  | [] => None
  | o :: obs' =>
      if Qltb (transcurrido o) timeout then
        let archivos_actuales := obtener_archivos_en_directorio (dir o) in
        let archivos_nuevos := archivos_actuales ∖ archivos_previos in
        let archivos_completos :=
          List.filter (λ f, negb (es_parcial f)) (E archivos_nuevos) in
        let seguir :=
          bucle_espera E archivos_previos timeout
            (Qmin (intervalo * (3 # 2)) DOWNLOAD_CHECK_INTERVAL_MAX)
            obs' (sleeps ++ [intervalo]) in
        match archivos_completos with
        | archivo_descargado :: _ =>
            match st_size (dir_stat o) archivo_descargado with
            | Ok n =>
                if 0 <? n then Some (Ok archivo_descargado, sleeps)
                else seguir
            | Raise e => Some (Raise e, sleeps)
            end
        | [] => seguir
        end
      else Some (Raise TimeoutError, sleeps)
  end.

Definition esperar_descarga_completa (E : enumeracion)
    (archivos_previos : gset string) (timeout : Q) (obs : list observacion)
    : option (result string * list Q) :=
  bucle_espera E archivos_previos timeout DOWNLOAD_CHECK_INTERVAL_MIN obs [].

(** Step 4 of [descargar_reporte]: the watcher, and on [TimeoutError] one
    more look at the directory ([final]). *)
Definition paso4_esperar_descarga (E : enumeracion)
    (archivos_previos : gset string) (obs : list observacion)
    (final : directorio) : option (result string) :=
  match esperar_descarga_completa E archivos_previos DOWNLOAD_TIMEOUT obs with
  | None => None
  | Some (Ok archivo_descargado, _) => Some (Ok archivo_descargado)
  | Some (Raise (Exc TimeoutError), _) =>
      let archivos_actuales := obtener_archivos_en_directorio final in
      let nuevos := archivos_actuales ∖ archivos_previos in
      match E nuevos with
      | archivo_descargado :: _ => Some (Ok archivo_descargado)
      | [] => Some (Raise TimeoutError)
      end
  | Some (Raise e, _) => Some (Raise e)
  end.





(** The intervals the loop sleeps, as a sequence. *)
Fixpoint intervalo_n (k : nat) : Q :=
  match k with
  | O => DOWNLOAD_CHECK_INTERVAL_MIN
  | S k => Qmin (intervalo_n k * (3 # 2)) DOWNLOAD_CHECK_INTERVAL_MAX
  end.

(** ** Directories to run the watcher on *)







(** A download that never gets past its partial file. *)
Definition dir_solo_parcial : directorio :=
  Some {["reporte.csv.crdownload" := 1024]}.

End Descarga.

(* ===================================================================== *)
(** * Transformation helpers: [convertir_tiempo_a_minutos]                *)
(* ===================================================================== *)

Module Transformacion.

(** ** Strings.  A character is a code point below 256. *)

(** [str.isspace] on that range. *)
Definition es_espacio (c : ascii) : bool :=
  let n := Z.of_nat (nat_of_ascii c) in
  ((9 <=? n) && (n <=? 13)) || ((28 <=? n) && (n <=? 32))
  || (n =? 133) || (n =? 160).

Fixpoint lstrip (s : string) : string :=
  match s with
  | String c s' => if es_espacio c then lstrip s' else s
  | EmptyString => EmptyString
  end.

(** [rstrip], written so that a suffix of spaces collapses to nothing. *)
Fixpoint rstrip (s : string) : string :=
  match s with
  | String c s' =>
      match rstrip s' with
      | EmptyString => if es_espacio c then EmptyString else String c EmptyString
      | r => String c r
      end
  | EmptyString => EmptyString
  end.

Definition strip (s : string) : string := rstrip (lstrip s).

(** [sep in s] for a one-character [sep]. *)
Fixpoint contiene_caracter (sep : ascii) (s : string) : bool :=
  match s with
  | String c s' => Ascii.eqb c sep || contiene_caracter sep s'
  | EmptyString => false
  end.

(** [s.split(sep)] for a one-character [sep]. *)
Fixpoint split (sep : ascii) (s : string) : list string :=
  match s with
  | EmptyString => [EmptyString]
  | String c s' =>
      if Ascii.eqb c sep then EmptyString :: split sep s'
      else match split sep s' with
           | p :: ps => String c p :: ps
           | [] => [String c EmptyString]
           end
  end.

(** ** [int(str)] in base 10 *)

Definition es_digito (c : ascii) : bool :=
  let n := Z.of_nat (nat_of_ascii c) in (48 <=? n) && (n <=? 57).

Definition valor_digito (c : ascii) : Z := Z.of_nat (nat_of_ascii c) - 48.

(** Digits, with single underscores between them.  [tras_guion] is set at
    the start and after an underscore, where a digit has to come next.
    The result carries the number of digits read. *)
Fixpoint leer_digitos (s : string) (acc : Z) (n : nat) (tras_guion : bool)
    : option (Z * nat) :=
  match s with
  | EmptyString => if tras_guion then None else Some (acc, n)
  | String c s' =>
      if es_digito c then leer_digitos s' (acc * 10 + valor_digito c) (S n) false
      else if Ascii.eqb c "_" then
             if tras_guion then None else leer_digitos s' acc n true
      else None
  end.

(** [sys.int_info.default_max_str_digits] (CPython 3.11 and later). *)
Definition max_str_digits : nat := 4300.

(** The white space [int] passes over at both ends of its argument: the
    white space of C in ASCII (9 to 13 and 32) and, outside ASCII, what
    [str.isspace] accepts (133 and 160 below 256).  Unlike [str.strip] it
    does not pass over the separators 28 to 31, on which [int] raises
    [ValueError]. *)
Definition es_espacio_int (c : ascii) : bool :=
  let n := Z.of_nat (nat_of_ascii c) in
  ((9 <=? n) && (n <=? 13)) || (n =? 32) || (n =? 133) || (n =? 160).

Fixpoint lstrip_int (s : string) : string :=
  match s with
  | String c s' => if es_espacio_int c then lstrip_int s' else s
  | EmptyString => EmptyString
  end.

Fixpoint rstrip_int (s : string) : string :=
  match s with
  | String c s' =>
      match rstrip_int s' with
      | EmptyString =>
          if es_espacio_int c then EmptyString else String c EmptyString
      | r => String c r
      end
  | EmptyString => EmptyString
  end.

Definition strip_int (s : string) : string := rstrip_int (lstrip_int s).

Definition py_int (s : string) : result Z :=
  let s := strip_int s in
  let '(negativo, cuerpo) :=
    match s with
    | String "-" r => (true, r)
    | String "+" r => (false, r)
    | _ => (false, s)
    end in
  match leer_digitos cuerpo 0 0 true with
  | Some (n, digitos) =>
      if (max_str_digits <? digitos)%nat then Raise (Exc ValueError)
      else Ok (if negativo then - n else n)
  | None => Raise (Exc ValueError)
  end.

(** ** Floats: IEEE 754 binary64 *)

Definition flotante : Type := spec_float.

Definition cero : flotante := S754_zero false.

Definition es_infinito (f : flotante) : bool :=
  match f with S754_infinity _ => true | _ => false end.

(** An integer as an unrounded binary number. *)
Definition exacto (z : Z) : flotante :=
  match z with
  | Z0 => S754_zero false
  | Zpos p => S754_finite false p 0
  | Zneg p => S754_finite true p 0
  end.

(** [float(n)] and the conversion [n + x] applies to its [int] operand:
    round to nearest even, [OverflowError] beyond the largest double. *)
Definition int_a_float (n : Z) : result flotante :=
  let f := binary_normalize 53 1024 n 0 false in
  if es_infinito f then Raise (Exc OverflowError) else Ok f.

(** [a / b] on [int]: the correctly rounded quotient. *)
Definition int_truediv (a b : Z) : result flotante :=
  if b =? 0 then Raise (Exc ZeroDivisionError)
  else
    let f := SFdiv 53 1024 (exacto a) (exacto b) in
    if es_infinito f then Raise (Exc OverflowError) else Ok f.

(** [n + x] for an [int] and a [float]. *)
Definition int_mas_float (n : Z) (x : flotante) : result flotante :=
  rbind (int_a_float n) (λ fn, Ok (SFadd 53 1024 fn x)).

(** ** The function *)

(** The argument, as the function reads it: through [pd.isna] and through
    [str]. *)
Record valor : Type := mkValor {
  isna : bool;
  str : string
}.

(** A Python [str] as argument. *)
Definition cadena (s : string) : valor := mkValor false s.

Definition ValueError_o_TypeError (e : excepcion) : bool :=
  match e with ValueError | TypeError => true | _ => false end.

Definition vacios : list string := ["-"; ""; "nan"; "None"].

Section Convertir.

(** [float(str)]: [None] stands for [ValueError], the only exception it
    raises on a string. *)
Variable py_float : string → option flotante.

Definition float_de_cadena (s : string) : result flotante :=
  match py_float s with
  | Some f => Ok f
  | None => Raise (Exc ValueError)
  end.

Definition convertir_tiempo_a_minutos (v : valor) : result flotante :=
  if isna v || bool_decide (strip (str v) ∈ vacios) then Ok cero
  else
    rcatch
      (let valor_str := strip (str v) in
       let como_numero := float_de_cadena valor_str in
       if contiene_caracter ":" valor_str then
         match split ":" valor_str with
         | [p1; p2; p3] =>
             rbind (py_int p1) (λ h,
             rbind (py_int p2) (λ m,
             rbind (py_int p3) (λ s,
             rbind (int_truediv s 60) (λ s60,
             int_mas_float (h * 60 + m) s60))))
         | [p1; p2] =>
             rbind (py_int p1) (λ h,
             rbind (py_int p2) (λ m,
             int_a_float (h * 60 + m)))
         | _ => como_numero
         end
       else como_numero)
      ValueError_o_TypeError
      (Ok cero).

End Convertir.

(** An hours field of 401 digits: 1 followed by 400 zeros. *)
Definition horas_enormes : string :=
  String "1" (String.concat "" (repeat "0" 400)) +:+ ":0:0".

End Transformacion.

(* ===================================================================== *)
(** * The browser, the log and the clock as a world                       *)
(* ===================================================================== *)

Module Selenium.

Definition handle : Type := string.
(** A [WebElement] reference. *)
Definition elemento : Type := Z.

Inductive localizador : Type :=
  | ById (s : string)
  | ByXPath (s : string)
  | ByTagName (s : string).

(** The [expected_conditions] the script waits for. *)
Inductive condicion : Type :=
  | visibility_of_element_located (l : localizador)
  | invisibility_of_element_located (l : localizador)
  | presence_of_element_located (l : localizador)
  | element_to_be_clickable (l : localizador).

(** The JavaScript snippets the script passes to [execute_script]. *)
Inductive script : Type :=
  | JsSeleccionarFila (reporte_id : string)
  | JsClick
  | JsLoadOldParameters
  | JsDesbloquear
  | JsFocus
  | JsForzarValor (hidden_id : string)
  | JsScrollIntoView.

Inductive js_arg : Type :=
  | ArgElemento (e : elemento)
  | ArgTexto (s : string).

(** The value [execute_script] hands back. *)
Inductive js_val : Type :=
  | JsNull
  | JsTexto (s : string).

(** A call on the driver (or on an element of the page), with its
    arguments. *)
Inductive llamada : Type :=
  | CChrome
  | CImplicitlyWait (seg : Z)
  | CGet (url : string)
  | CCurrentUrl
  | CCurrentWindowHandle
  | CWindowHandles
  | CSwitchToWindow (h : handle)
  | CSwitchToDefaultContent
  | CSwitchToFrame (e : elemento)
  | CSwitchToFrameNombre (nombre : string)
  | CSwitchToFrameIndice (i : Z)
  | CClose
  | CQuit
  | CFindElements (l : localizador)
  | CFindElement (l : localizador)
  | CGetAttribute (e : elemento) (atributo : string)
  | CExecuteScript (s : script) (args : list js_arg)
  | CWaitUntil (timeout : Z) (c : condicion)
  | CClick (e : elemento)
  | CClear (e : elemento)
  | CSendKeys (e : elemento) (texto : string)
  | CSaveScreenshot (nombre : string).

(** What each call returns when it does not raise. *)
Definition respuesta (c : llamada) : Type :=
  match c with
  | CCurrentUrl | CCurrentWindowHandle => string
  | CWindowHandles => list handle
  | CFindElements _ => list elemento
  | CFindElement _ | CWaitUntil _ _ => elemento
  | CGetAttribute _ _ => option string
  | CExecuteScript _ _ => js_val
  | _ => unit
  end.

(** A driver over states [W]: every call either raises an [Exception] or
    returns, and moves the browser to a new state. *)
Definition driver (W : Type) : Type :=
  ∀ c : llamada, W → (excepcion + respuesta c) * W.

(** Returned values, untyped, as the trace records them. *)
Inductive valor : Type :=
  | VNone
  | VTexto (s : string)
  | VOpcional (s : option string)
  | VHandles (l : list handle)
  | VElemento (e : elemento)
  | VElementos (l : list elemento)
  | VJs (v : js_val).

Definition a_valor (c : llamada) : respuesta c → valor :=
  match c with
  | CCurrentUrl | CCurrentWindowHandle => VTexto
  | CWindowHandles => VHandles
  | CFindElements _ => VElementos
  | CFindElement _ | CWaitUntil _ _ => VElemento
  | CGetAttribute _ _ => VOpcional
  | CExecuteScript _ _ => VJs
  | _ => λ _, VNone
  end.

Definition a_valor_res (c : llamada) (r : excepcion + respuesta c)
    : excepcion + valor :=
  match r with
  | inl e => inl e
  | inr v => inr (a_valor c v)
  end.

Inductive nivel : Type := DEBUG | INFO | WARNING | ERROR.

(** What a run leaves behind, in order: driver calls with their outcome,
    [time.sleep] with its argument, and [logger] records (the message
    without its interpolated fields, and the exception it formats if any). *)
Inductive evento : Type :=
  | EvLlamada (c : llamada) (r : excepcion + valor)
  | EvSleep (seg : Q)
  | EvLog (n : nivel) (msg : string) (e : option excepcion).

(** The driver calls of a trace, in order. *)
Definition llamadas (evs : list evento) : list llamada :=
  omap (λ ev, match ev with EvLlamada c _ => Some c | _ => None end) evs.

Record mundo (W : Type) : Type := mkMundo {
  estado : W;
  traza : list evento
}.
Arguments mkMundo {W} estado traza.
Arguments estado {W} m.
Arguments traza {W} m.

(** Programs: state and exceptions. *)
Definition M (W A : Type) : Type := mundo W → result A * mundo W.

Section Monada.
Context {W : Type}.

Definition ret {A} (a : A) : M W A := λ m, (Ok a, m).

Definition bind {A B} (p : M W A) (k : A → M W B) : M W B :=
  λ m, match p m with
       | (Ok a, m') => k a m'
       | (Raise e, m') => (Raise e, m')
       end.

Definition lanzar {A} (e : exn) : M W A := λ m, (Raise e, m).

Definition anotar (ev : evento) : M W unit :=
  λ m, (Ok tt, mkMundo (estado m) (traza m ++ [ev])).

Definition sleep (seg : Q) : M W unit := anotar (EvSleep seg).

Definition logger (n : nivel) (msg : string) : M W unit :=
  anotar (EvLog n msg None).

Definition logger_exc (n : nivel) (msg : string) (e : excepcion) : M W unit :=
  anotar (EvLog n msg (Some e)).

(** One driver call, recorded in the trace with its outcome. *)
Definition llamar (D : driver W) (c : llamada) : M W (respuesta c) :=
  λ m, let '(r, w) := D c (estado m) in
       let m' := mkMundo w (traza m ++ [EvLlamada c (a_valor_res c r)]) in
       match r with
       | inl e => (Raise (Exc e), m')
       | inr v => (Ok v, m')
       end.

(** [try: p  except <clase> as e: h e].  [SystemExit] passes through every
    handler of the script, which are all for subclasses of [Exception]. *)
Definition try_except {A} (p : M W A) (clase : excepcion → bool)
    (h : excepcion → M W A) : M W A :=
  λ m, match p m with
       | (Raise (Exc e), m') =>
           if clase e then h e m' else (Raise (Exc e), m')
       | r => r
       end.

(** Two [except] clauses, tried in order; the second does not guard the
    first one's handler. *)
Definition try_except2 {A} (p : M W A)
    (clase1 : excepcion → bool) (h1 : excepcion → M W A)
    (clase2 : excepcion → bool) (h2 : excepcion → M W A) : M W A :=
  λ m, match p m with
       | (Raise (Exc e), m') =>
           if clase1 e then h1 e m'
           else if clase2 e then h2 e m'
           else (Raise (Exc e), m')
       | r => r
       end.

(** [try: p  finally: f] *)
Definition try_finally {A} (p : M W A) (f : M W unit) : M W A :=
  λ m, match p m with
       | (r, m') =>
           match f m' with
           | (Ok _, m'') => (r, m'')
           | (Raise e, m'') => (Raise e, m'')
           end
       end.

Definition Exception (e : excepcion) : bool := true.

End Monada.

Declare Scope py_scope.
Delimit Scope py_scope with py.
Notation "x ← y ; z" := (bind y (λ x, z))
  (at level 20, y at level 100, z at level 200, only parsing) : py_scope.
Notation "y ;; z" := (bind y (λ _, z))
  (at level 100, z at level 200, only parsing, right associativity) : py_scope.
Local Open Scope py_scope.

(** ** What a program may do *)

(** [p] raises nothing but subclasses of [Exception]. *)
Definition solo_Exception {W A} (p : M W A) : Prop :=
  ∀ m c m', p m ≠ (Raise (SystemExit c), m').

(** [p] always returns. *)
Definition no_lanza {W A} (p : M W A) : Prop :=
  ∀ m, ∃ a m', p m = (Ok a, m').

Definition es_llamada (ev : evento) : Prop :=
  match ev with EvLlamada _ _ => True | _ => False end.

(** Every exception a driver call raised is followed by a log record
    that reports it. *)
Definition todas_registradas (evs : list evento) : Prop :=
  ∀ i c e, evs !! i = Some (EvLlamada c (inl e)) →
    ∃ j n msg, (i < j)%nat ∧ evs !! j = Some (EvLog n msg (Some e)).

(** The arguments of [time.sleep] in a trace. *)
Definition dormidos (evs : list evento) : list Q :=
  omap (λ ev, match ev with EvSleep q => Some q | _ => None end) evs.

Section Etapas.
Context {W : Type}.
Variable D : driver W.

(** ** [esperar_spinner] *)

Definition spinners : list string :=
  ["//img[contains(@src, 'waiting')]";
   "//img[contains(@src, 'loading')]";
   "//div[contains(@class, 'loading')]";
   "//div[contains(@class, 'spinner')]";
   "//*[contains(@id, 'loading')]"].

Fixpoint esperar_spinner_bucle (l : list string) : M W unit :=
  match l with
  | [] => ret tt
  | spinner_xpath :: l =>
      try_except2
        (llamar D (CWaitUntil 2
           (invisibility_of_element_located (ByXPath spinner_xpath))) ;;
         ret tt)
        is_TimeoutException (λ _, ret tt)
        Exception
        (λ e, logger_exc DEBUG "Error inesperado buscando spinner" e) ;;
      esperar_spinner_bucle l
  end.

Definition esperar_spinner : M W unit :=
  esperar_spinner_bucle spinners ;;
  sleep 2.

(** ** [seleccionar_fila_reporte] *)

Definition xpath_fallback (reporte_id : string) : string :=
  "//tr[td//nobr[normalize-space(text())='" +:+ reporte_id +:+ "']]".

Definition js_val_eqb (v : js_val) (s : string) : bool :=
  match v with
  | JsTexto t => String.eqb t s
  | JsNull => false
  end.

Definition seleccionar_fila_reporte (reporte_id : string) : M W bool :=
  logger INFO "Intentando seleccionar reporte usando Infragistics API" ;;
  try_except
    (resultado ← llamar D (CExecuteScript (JsSeleccionarFila reporte_id) []);
     logger INFO "Resultado seleccion JS" ;;
     if js_val_eqb resultado "OK" then
       sleep 2 ;;
       ret true
     else if js_val_eqb resultado "GRID_NOT_FOUND" then
       logger ERROR "No se encontro el objeto grid Infragistics" ;;
       ret false
     else
       logger WARNING "Infragistics API no encontro ID, intentando busqueda DOM" ;;
       fila ← llamar D (CWaitUntil 10
                 (presence_of_element_located
                    (ByXPath (xpath_fallback reporte_id))));
       llamar D (CExecuteScript JsClick [ArgElemento fila]) ;;
       ret true)
    Exception
    (λ e, logger_exc ERROR "Error critico en seleccion" e ;;
          ret false).

(** The two strategies of the selector, as calls, and what the trace of
    one run says about them. *)
Definition api_grid (reporte_id : string) : llamada :=
  CExecuteScript (JsSeleccionarFila reporte_id) [].

Definition busqueda_dom (reporte_id : string) : llamada :=
  CWaitUntil 10
    (presence_of_element_located (ByXPath (xpath_fallback reporte_id))).

Definition clic_js (e : elemento) : llamada :=
  CExecuteScript JsClick [ArgElemento e].

Definition respuesta_api (reporte_id : string) (evs : list evento)
    (v : js_val) : Prop :=
  EvLlamada (api_grid reporte_id) (inr (VJs v)) ∈ evs.

Definition exito_api (reporte_id : string) (evs : list evento) : Prop :=
  ∃ v, respuesta_api reporte_id evs v ∧ js_val_eqb v "OK" = true.

Definition exito_dom (reporte_id : string) (evs : list evento) : Prop :=
  ∃ fila v,
    EvLlamada (busqueda_dom reporte_id) (inr (VElemento fila)) ∈ evs ∧
    EvLlamada (clic_js fila) (inr v) ∈ evs.

(** ** [cerrar_modal_y_volver] *)

Fixpoint cerrar_ventanas (handles : list handle) (handle_original : handle)
    : M W unit :=
  match handles with
  | [] => ret tt
  | h :: handles =>
      (if String.eqb h handle_original then ret tt
       else llamar D (CSwitchToWindow h) ;;
            llamar D CClose) ;;
      cerrar_ventanas handles handle_original
  end.

(** The body of the outer [try]. *)
Definition cerrar_modal_cuerpo (handle_original : handle) : M W unit :=
  handles_actuales ← llamar D CWindowHandles;
  (if (1 <? length handles_actuales)%nat then
     cerrar_ventanas handles_actuales handle_original ;;
     llamar D (CSwitchToWindow handle_original) ;;
     logger INFO "Cerrada ventana popup, vuelto al contexto original"
   else
     llamar D CSwitchToDefaultContent ;;
     logger INFO "Vuelto al contexto principal (default_content)") ;;
  try_except
    (llamar D (CWaitUntil 5 (invisibility_of_element_located (ById "modal"))) ;;
     ret tt)
    is_TimeoutException (λ _, ret tt) ;;
  sleep 2.

(** The forced reset of the outer handler. *)
Definition cerrar_modal_reset : M W unit :=
  llamar D CSwitchToDefaultContent ;;
  handles ← llamar D CWindowHandles;
  match handles with
  | h :: _ => llamar D (CSwitchToWindow h)
  | [] => lanzar (Exc IndexError)
  end.

Definition cerrar_modal_y_volver (handle_original : handle) : M W unit :=
  try_except (cerrar_modal_cuerpo handle_original)
    Exception
    (λ e, logger_exc WARNING "Error al cerrar modal" e ;;
          try_except cerrar_modal_reset Exception (λ _, ret tt)).

(** ** [manejar_modal_parametros] *)

Variable E : enumeracion.

(** [Keys.TAB] *)
Definition Keys_TAB : string := "<TAB>".

(** Lines 788-810: which window or frame holds the modal. *)
Definition detectar_contexto : M W unit :=
  handle_original ← llamar D CCurrentWindowHandle;
  hs ← llamar D CWindowHandles;
  let handles_iniciales : gset string := list_to_set hs in
  sleep 6 ;;
  hs ← llamar D CWindowHandles;
  let handles_actuales : gset string := list_to_set hs in
  let nuevas_ventanas := handles_actuales ∖ handles_iniciales in
  match E nuevas_ventanas with
  | nueva_ventana :: _ =>
      llamar D (CSwitchToWindow nueva_ventana) ;;
      logger INFO "Cambiado a nueva ventana popup"
  | [] =>
      try_except
        (iframes ← llamar D (CFindElements (ByTagName "iframe"));
         match last iframes with
         | Some ultimo =>
             llamar D (CSwitchToFrame ultimo) ;;
             logger INFO "Cambiado a iframe modal"
         | None => ret tt
         end)
        Exception
        (λ _, logger INFO "No se encontro iframe, continuando en contexto actual")
  end.

(** Step 1: up to three attempts at [btnLoadOldParameters]; the result is
    [usar_ultimos_params]. *)
Fixpoint cargar_ultimos_parametros (intentos : nat) : M W bool :=
  match intentos with
  | O => ret false
  | S intentos =>
      r ← try_except
            (btn_params ← llamar D (CWaitUntil 5
               (presence_of_element_located (ById "btnLoadOldParameters")));
             try_except
               (llamar D (CExecuteScript JsLoadOldParameters []) ;;
                logger INFO "Funcion JS btnLoadOldParameters_Click() ejecutada.")
               Exception
               (λ _, llamar D (CExecuteScript JsClick [ArgElemento btn_params]) ;;
                     logger INFO "Click JS en boton btnLoadOldParameters ejecutado.") ;;
             logger INFO "Esperando recarga de parametros..." ;;
             sleep 10 ;;
             esperar_spinner ;;
             ret true)
            Exception
            (λ e, logger_exc WARNING "Intento fallo para btnLoadOldParameters" e ;;
                  sleep 2 ;;
                  ret false);
      if r then ret true else cargar_ultimos_parametros intentos
  end.

(** The date protocol of one field. *)
Definition establecer_fecha (campo : elemento) (hidden_id fecha_ayer : string)
    : M W unit :=
  llamar D (CExecuteScript JsFocus [ArgElemento campo]) ;;
  llamar D (CClear campo) ;;
  llamar D (CSendKeys campo fecha_ayer) ;;
  llamar D (CExecuteScript (JsForzarValor hidden_id)
              [ArgElemento campo; ArgTexto fecha_ayer]) ;;
  llamar D (CSendKeys campo Keys_TAB).

(** Step 2; the result is [fechas_establecidas]. *)
Definition establecer_fechas (fecha_ayer : string) : M W bool :=
  try_except2
    (campo_inicio ← llamar D (CFindElement (ById "Inicio_input"));
     campo_fin ← llamar D (CFindElement (ById "Fin_input"));
     llamar D (CExecuteScript JsDesbloquear
                 [ArgElemento campo_inicio; ArgElemento campo_fin]) ;;
     sleep (1 # 2) ;;
     establecer_fecha campo_inicio "Inicio_hidden" fecha_ayer ;;
     logger INFO "Fecha inicio establecida" ;;
     sleep 2 ;;
     establecer_fecha campo_fin "Fin_hidden" fecha_ayer ;;
     logger INFO "Fecha fin establecida" ;;
     sleep 1 ;;
     body ← llamar D (CFindElement (ByTagName "body"));
     llamar D (CClick body) ;;
     ret true)
    is_NoSuchElementException
    (λ _, logger WARNING "No se encontraron campos Inicio_input/Fin_input" ;;
          ret false)
    Exception
    (λ e, logger_exc WARNING "Error estableciendo fechas" e ;;
          ret false).

Definition selectores_ejecutar : list string :=
  ["//input[@id='btnEjecutar']";
   "//button[@id='btnEjecutar']";
   "//input[@value='Ejecutar']";
   "//button[contains(text(), 'Ejecutar')]";
   "//a[contains(text(), 'Ejecutar')]";
   "//input[@type='submit']";
   "//input[@type='button'][contains(@value, 'jecuta')]";
   "//*[contains(@onclick, 'Ejecutar')]"].

(** Step 3.  The body of the loop over the selectors: [true] stands for
    reaching [break] with [boton_clickeado] set, [false] for [continue]. *)
Definition intentar_selector (selector : string) : M W bool :=
  try_except2
    (btn ← llamar D (CWaitUntil 15
       (element_to_be_clickable (ByXPath selector)));
     llamar D (CExecuteScript JsScrollIntoView [ArgElemento btn]) ;;
     sleep 1 ;;
     try_except (llamar D (CClick btn))
       Exception
       (λ _, llamar D (CExecuteScript JsClick [ArgElemento btn]) ;;
             ret tt) ;;
     logger INFO "Click en boton Ejecutar del modal" ;;
     ret true)
    is_TimeoutException (λ _, ret false)
    Exception
    (λ e, logger_exc DEBUG "Selector fallo" e ;;
          ret false).

(** The loop; the result is [boton_clickeado]. *)
Fixpoint click_ejecutar_modal (selectores : list string) : M W bool :=
  match selectores with
  | [] => ret false
  | selector :: selectores =>
      r ← intentar_selector selector;
      if r then ret true else click_ejecutar_modal selectores
  end.


Definition clic_ok (btn : elemento) (evs : list evento) : Prop :=
  EvLlamada (CClick btn) (inr VNone) ∈ evs ∨
  ∃ v, EvLlamada (CExecuteScript JsClick [ArgElemento btn]) (inr v) ∈ evs.


(** Everything between context detection and the submit loop. *)
Definition preparar_modal (fecha_ayer : string) : M W unit :=
  esperar_spinner ;;
  sleep 4 ;;
  logger INFO "Intentando cargar ultimos parametros via boton 'btnLoadOldParameters'..." ;;
  usar_ultimos_params ← cargar_ultimos_parametros 3;
  (if usar_ultimos_params then ret tt
   else logger WARNING "No se pudo activar btnLoadOldParameters") ;;
  sleep 4 ;;
  fechas_establecidas ← establecer_fechas fecha_ayer;
  (if fechas_establecidas then ret tt
   else logger WARNING "No se pudieron establecer las fechas automaticamente") ;;
  sleep 2.

(** The [wait] argument of the source is not used by its body. *)
Definition manejar_modal_parametros (fecha_ayer : string) : M W bool :=
  logger INFO "Manejando modal de parametros..." ;;
  detectar_contexto ;;
  preparar_modal fecha_ayer ;;
  boton_clickeado ← click_ejecutar_modal selectores_ejecutar;
  if boton_clickeado then
    logger INFO "Esperando procesamiento del reporte..." ;;
    esperar_spinner ;;
    ret true
  else
    logger ERROR "No se pudo hacer click en el boton Ejecutar del modal" ;;
    ret false.

End Etapas.

(** ** Two browsers to run the stages on *)

(** A browser whose every call raises. *)
Definition D_roto : driver unit := λ c w, (inl WebDriverException, w).

(** A page that answers every call: one window, no frame, and every wait
    or search finds element 1. *)
Definition D_pagina_simple : driver unit := λ c w,
  (inr (match c as c0 return respuesta c0 with
        | CCurrentUrl => ""
        | CCurrentWindowHandle => "main"
        | CWindowHandles => ["main"]
        | CFindElements _ => []
        | CFindElement _ => 1
        | CWaitUntil _ _ => 1
        | CGetAttribute _ _ => None
        | CExecuteScript _ _ => JsNull
        | _ => tt
        end), w).

(** The same page with the report in its grid: the selection script
    answers OK. *)
Definition D_con_grid : driver unit := λ c w,
  match c as c0 return (excepcion + respuesta c0) * unit with
  | CExecuteScript (JsSeleccionarFila _) _ => (inr (JsTexto "OK"), w)
  | c0 => D_pagina_simple c0 w
  end.


(* ===================================================================== *)
(** ** Retry policies ([tenacity]) and the stages they wrap                *)
(* ===================================================================== *)

(** [tenacity.wait_exponential(multiplier, min, max)] with the default
    [exp_base = 2], as the library computes it for the attempt that has
    just failed:
      [exp = exp_base ** (attempt_number - 1)],
      [result = multiplier * exp],
      [max(max(0, min), min(result, max))]. *)
Definition wait_exponential (multiplier min_ max_ : Z) (attempt_number : Z)
    : Z :=
  Z.max (Z.max 0 min_) (Z.min (multiplier * 2 ^ (attempt_number - 1)) max_).

(** The arguments of one [@retry(...)] decorator. *)
Record politica : Type := mkPolitica {
  stop_after_attempt : nat;
  wait : Z → Z;
  retry_if_exception_type : excepcion → bool;
  before_sleep : string
}.

Section Retry.
Context {W : Type}.

(** [tenacity]'s loop: run the function; an exception outside the retried
    classes is re-raised as it is; once [stop_after_attempt] attempts have
    failed the loop raises [RetryError]; otherwise it calls [before_sleep],
    sleeps [wait attempt_number] seconds and runs the function again.
    [restantes] counts the attempts left after the current one. *)
Fixpoint retry_bucle {A} (p : politica) (f : M W A) (restantes : nat)
    (attempt_number : Z) : M W A :=
  λ m, match f m with
       | (Raise (Exc e), m') =>
           if retry_if_exception_type p e then
             match restantes with
             | O => (Raise (Exc RetryError), m')
             | S restantes =>
                 (logger WARNING (before_sleep p) ;;
                  sleep (inject_Z (wait p attempt_number)) ;;
                  retry_bucle p f restantes (attempt_number + 1)) m'
             end
           else (Raise (Exc e), m')
       | r => r
       end.

Definition retry {A} (p : politica) (f : M W A) : M W A :=
  retry_bucle p f (stop_after_attempt p - 1) 1.

(** The world after [before_sleep] and the sleep that follows failed
    attempt [n]. *)
Definition tras_espera (p : politica) (n : Z) (m : mundo W) : mundo W :=
  mkMundo (estado m)
    (traza m ++ [EvLog WARNING (before_sleep p) None;
                 EvSleep (inject_Z (wait p n))]).

Variable D : driver W.

(** *** [login_neotel] *)

Definition politica_login : politica :=
  mkPolitica 3 (wait_exponential 2 4 40) is_WebDriverException
    "Reintentando login...".

(** Strategy 3 of the frame search: the [for] loop over the frames. *)
Fixpoint buscar_frame_por_atributos (frames : list elemento) : M W bool :=
  match frames with
  | [] => ret false
  | f :: frames =>
      frame_id ← llamar D (CGetAttribute f "id");
      frame_name ← llamar D (CGetAttribute f "name");
      if bool_decide (frame_id = Some "srcMain")
         || bool_decide (frame_name = Some "main")
      then
        llamar D (CSwitchToFrame f) ;;
        logger INFO "Entramos al frame srcMain/main" ;;
        ret true
      else buscar_frame_por_atributos frames
  end.

Definition is_NoSuchElement_o_IndexError (e : excepcion) : bool :=
  match e with NoSuchElementException | IndexError => true | _ => false end.

(** The function under the decorator. *)
Definition login_neotel_cuerpo (url usuario password : string) : M W unit :=
  logger INFO "Navegando a" ;;
  llamar D (CGet url) ;;
  try_except
    (llamar D CSwitchToDefaultContent ;;
     frame_encontrado ←
       try_except
         (llamar D (CSwitchToFrameNombre "main") ;;
          logger INFO "Entramos al frame 'main'" ;;
          ret true)
         is_NoSuchElementException (λ _, ret false);
     frame_encontrado ←
       (if frame_encontrado then ret true
        else try_except
               (llamar D (CSwitchToFrameIndice 1) ;;
                logger INFO "Entramos al frame indice 1" ;;
                ret true)
               is_NoSuchElement_o_IndexError (λ _, ret false));
     frame_encontrado ←
       (if frame_encontrado then ret true
        else frames ← llamar D (CFindElements (ByTagName "frame"));
             buscar_frame_por_atributos frames);
     (if frame_encontrado then ret tt
      else logger WARNING
             "No se encontro frame de login, continuando en contexto principal") ;;
     input_user ← llamar D (CWaitUntil 15
                    (visibility_of_element_located (ById "txtUsuario")));
     llamar D (CClear input_user) ;;
     llamar D (CSendKeys input_user usuario) ;;
     input_pass ← llamar D (CFindElement (ById "txtClave"));
     llamar D (CClear input_pass) ;;
     llamar D (CSendKeys input_pass password) ;;
     logger INFO "Credenciales ingresadas" ;;
     btn_login ← llamar D (CWaitUntil 15
                   (element_to_be_clickable (ByXPath "//input[@type='submit']")));
     llamar D (CClick btn_login) ;;
     logger INFO "Boton de login presionado" ;;
     sleep 6 ;;
     llamar D CSwitchToDefaultContent ;;
     logger INFO "Login completado exitosamente")
    Exception
    (λ e, logger_exc ERROR "Error critico en login" e ;;
          llamar D (CSaveScreenshot "error_login_debug.png") ;;
          lanzar (Exc e)).

Definition login_neotel (url usuario password : string) : M W unit :=
  retry politica_login (login_neotel_cuerpo url usuario password).

(** *** [navegar_a_reportes] *)

Definition politica_navegar : politica :=
  mkPolitica 3 (wait_exponential 2 4 30) is_WebDriverException
    "Reintentando navegacion a reportes...".

Definition url_reportes : string :=
  "https://web.neoteluin.mx/callcenter/ProcessAndReports.aspx?tipo=Reporte".

Definition navegar_a_reportes_cuerpo : M W unit :=
  logger INFO "Navegando a" ;;
  llamar D (CGet url_reportes) ;;
  llamar D (CWaitUntil 20
     (visibility_of_element_located (ById "dgdProcedimientos_main"))) ;;
  esperar_spinner D ;;
  logger INFO "Pagina de reportes cargada y grid visible" ;;
  sleep 4.

Definition navegar_a_reportes : M W unit :=
  retry politica_navegar navegar_a_reportes_cuerpo.

End Retry.

(* ===================================================================== *)
(** ** Phase 1: [ejecutar_extraccion]                                      *)
(* ===================================================================== *)

Record reporte : Type := mkReporte { id : string; nombre : string }.

Definition REPORTES : list reporte :=
  [mkReporte "23" "Conducta - Agentes";
   mkReporte "24" "Estados operativos - Agentes"].

(** [sub in s] *)
Fixpoint contiene (sub s : string) : bool :=
  String.prefix sub s ||
  match s with
  | EmptyString => false
  | String _ s' => contiene sub s'
  end.

Section Extraccion.
Context {W : Type}.
Variable D : driver W.

(** The callees of the driver loop.  The loop is modelled for whatever
    they do: [descargar_reporte] is the decorated function, retries
    included. *)
Variable limpiar_directorio_descargas : M W unit.
Variable login_neotel : M W unit.
Variable navegar_a_reportes : M W unit.
Variable descargar_reporte : reporte → M W string.

(** The handler of the inner [except Exception]: go back to the report
    list if the page has left it. *)
Definition volver_a_reportes : M W unit :=
  try_except
    (url ← llamar D CCurrentUrl;
     if negb (contiene "ProcessAndReports" url) then navegar_a_reportes
     else ret tt)
    Exception
    (λ _, navegar_a_reportes).

(** The [for reporte in REPORTES] loop, with [archivos_descargados] as
    accumulator. *)
Fixpoint bucle_reportes (reportes : list reporte)
    (archivos_descargados : list string) : M W (list string) :=
  match reportes with
  | [] => ret archivos_descargados
  | reporte :: reportes =>
      archivos_descargados ←
        try_except
          (archivo ← descargar_reporte reporte;
           logger INFO "Reporte descargado" ;;
           ret (archivos_descargados ++ [archivo]))
          Exception
          (λ e, logger_exc ERROR "Error con reporte" e ;;
                volver_a_reportes ;;
                ret archivos_descargados);
      bucle_reportes reportes archivos_descargados
  end.

(** What the log gains when a report is downloaded, and when it fails. *)
Definition tras_descarga (m : mundo W) : mundo W :=
  mkMundo (estado m) (traza m ++ [EvLog INFO "Reporte descargado" None]).

Definition tras_error (e : excepcion) (m : mundo W) : mundo W :=
  mkMundo (estado m) (traza m ++ [EvLog ERROR "Error con reporte" (Some e)]).

(** A pass over the report list in which every failure is followed by a
    recovery that does not raise.  The third index lists, per report in
    configured order, the file it produced if any. *)
Inductive recorrido :
    list reporte → mundo W → list (option string) → mundo W → Prop :=
  | recorrido_fin m : recorrido [] m [] m
  | recorrido_exito r rs m archivo m1 outs m' :
      descargar_reporte r m = (Ok archivo, m1) →
      recorrido rs (tras_descarga m1) outs m' →
      recorrido (r :: rs) m (Some archivo :: outs) m'
  | recorrido_fallo r rs m e m1 m2 outs m' :
      descargar_reporte r m = (Raise (Exc e), m1) →
      volver_a_reportes (tras_error e m1) = (Ok tt, m2) →
      recorrido rs m2 outs m' →
      recorrido (r :: rs) m (None :: outs) m'.

(** The files of a pass, in order. *)
Definition archivos_de (outs : list (option string)) : list string :=
  omap (λ o, o) outs.

Definition ejecutar_extraccion (reportes : list reporte) : M W (list string) :=
  logger INFO "FASE 1: EXTRACCION" ;;
  limpiar_directorio_descargas ;;
  logger INFO "Iniciando navegador Chrome (modo headless)..." ;;
  (* [driver] is still [None] if the constructor raises *)
  try_except (llamar D CChrome)
    Exception
    (λ e, logger_exc ERROR "Error en extraccion" e ;;
          lanzar (Exc e)) ;;
  try_finally
    (try_except
       (llamar D (CImplicitlyWait 10) ;;
        login_neotel ;;
        navegar_a_reportes ;;
        archivos_descargados ← bucle_reportes reportes [];
        logger INFO "Extraccion completada." ;;
        ret archivos_descargados)
       Exception
       (λ e, logger_exc ERROR "Error en extraccion" e ;;
             llamar D (CSaveScreenshot "error_extraccion_general.png") ;;
             lanzar (Exc e)))
    (llamar D CQuit ;;
     logger INFO "Navegador cerrado").

End Extraccion.

(** Two reports, the first out of retries, the second downloaded. *)
Definition descargar_solo_24 : reporte → M unit string := λ r,
  if String.eqb (id r) "24" then ret "/descargas/estados.csv"
  else lanzar (Exc RetryError).

End Selenium.

(* ===================================================================== *)
(** * The process: module initialisation and [main]                       *)
(* ===================================================================== *)

Module Principal.
Import Selenium.
Local Open Scope py_scope.

(** [os.environ] after [load_dotenv]. *)
Definition entorno : Type := gmap string string.

(** [not valor] for an optional string: [None] and [""] are falsy. *)
Definition falsy (valor : option string) : bool :=
  match valor with
  | None => true
  | Some s => String.eqb s ""
  end.

Definition obtener_variable_entorno (env : entorno) (nombre : string)
    (obligatoria : bool) : result string :=
  let valor := env !! nombre in
  if obligatoria && falsy valor then Raise (Exc EnvironmentError)
  else Ok (default "" valor).

Record configuracion : Type := mkConfiguracion {
  NEOTEL_USER : string;
  NEOTEL_PASS : string;
  SQL_SERVER : string;
  SQL_DATABASE : string;
  SQL_USER : string;
  SQL_PASSWORD : string
}.

(** The assignments of the CONFIGURACION block, which run when the module
    is loaded, in their order. *)
Definition cargar_configuracion (env : entorno) : result configuracion :=
  rbind (obtener_variable_entorno env "NEOTEL_USER" true) (λ neotel_user,
  rbind (obtener_variable_entorno env "NEOTEL_PASS" true) (λ neotel_pass,
  rbind (obtener_variable_entorno env "SQL_SERVER" true) (λ sql_server,
  rbind (obtener_variable_entorno env "SQL_DATABASE" true) (λ sql_database,
  rbind (obtener_variable_entorno env "SQL_USER" true) (λ sql_user,
  rbind (obtener_variable_entorno env "SQL_PASSWORD" true) (λ sql_password,
  Ok (mkConfiguracion neotel_user neotel_pass sql_server sql_database
        sql_user sql_password))))))).

(** What [main] looks at in a transformed [DataFrame]. *)
Record dataframe : Type := mkDataframe { filas : nat; columnas : nat }.

Definition empty (df : dataframe) : bool :=
  (filas df =? 0)%nat || (columnas df =? 0)%nat.

(** The dictionary [ejecutar_transformacion] returns. *)
Record datos : Type := mkDatos {
  conducta : option dataframe;
  estados_operativos : option dataframe
}.

Definition hay_datos (d : datos) : bool :=
  existsb (λ v, match v with
                | Some df => negb (empty df)
                | None => false
                end)
          [conducta d; estados_operativos d].

Section Main.
Context {W : Type}.

Definition elevar {A} (r : result A) : M W A := λ m, (r, m).

Definition sys_exit {A} (code : Z) : M W A := lanzar (SystemExit code).

(** The three phases and the clock, for whatever they do. *)
Variable now : Fecha.datetime.
Variable ejecutar_extraccion : string → M W (list string).
Variable ejecutar_transformacion : list string → string → M W datos.
Variable ejecutar_carga : datos → string → M W unit.

Definition calcular_fecha_ayer : M W string :=
  fecha_formateada ← elevar (Fecha.calcular_fecha_ayer now);
  logger INFO "Fecha calculada (ayer)" ;;
  ret fecha_formateada.

(** The world once [main] has logged its banner. *)
Definition inicio (m : mundo W) : mundo W :=
  mkMundo (estado m)
    (traza m ++ [EvLog INFO "ETL NEOTEL - INICIANDO (VERSION OPTIMIZADA)" None]).

Definition main : M W unit :=
  logger INFO "ETL NEOTEL - INICIANDO (VERSION OPTIMIZADA)" ;;
  try_except2
    (fecha_ayer ← calcular_fecha_ayer;
     archivos_descargados ← ejecutar_extraccion fecha_ayer;
     (match archivos_descargados with
      | [] => logger ERROR "No se descargaron archivos. Abortando proceso." ;;
              sys_exit 1
      | _ => ret tt
      end) ;;
     datos_transformados ←
       ejecutar_transformacion archivos_descargados fecha_ayer;
     (if hay_datos datos_transformados then ret tt
      else logger ERROR "No hay datos transformados para cargar. Abortando." ;;
           sys_exit 1) ;;
     ejecutar_carga datos_transformados fecha_ayer ;;
     logger INFO "ETL COMPLETADO EXITOSAMENTE")
    is_OSError
    (λ e, logger_exc ERROR "ERROR DE CONFIGURACION" e ;;
          sys_exit 2)
    Exception
    (λ e, logger_exc ERROR "ERROR CRITICO" e ;;
          sys_exit 1).

(** Running the file as a script: the module body, then [main()]. *)
Definition script (env : entorno) : M W unit :=
  elevar (cargar_configuracion env) ;;
  main.

End Main.

(** The exit status the interpreter reports: 0 when the script ends,
    the argument of [sys.exit], 1 for an exception nobody caught. *)
Definition codigo_salida {A} (r : result A) : Z :=
  match r with
  | Ok _ => 0
  | Raise (SystemExit code) => code
  | Raise (Exc _) => 1
  end.

(** The six variables the module requires. *)
Definition obligatorias : list string :=
  ["NEOTEL_USER"; "NEOTEL_PASS"; "SQL_SERVER"; "SQL_DATABASE"; "SQL_USER";
   "SQL_PASSWORD"].

End Principal.

(* ===================================================================== *)
(** * Column names and the destination layout                             *)
(* ===================================================================== *)

Module Columnas.
Import Transformacion.

(** A column label as [limpiar_nombre_columna] receives it: a [str], given
    by its code points, or any other object, given by its [str()]. *)
Inductive etiqueta : Type :=
  | Texto (puntos : list Z)
  | Otro (repr : string).

Definition codigo (c : ascii) : Z := Z.of_nat (nat_of_ascii c).

(** A string of the model as a Python [str]. *)
Definition codigos (s : string) : list Z :=
  map codigo (list_ascii_of_string s).

(** [nombre.encode('ASCII', 'ignore').decode('ASCII')] *)
Definition solo_ascii (puntos : list Z) : list ascii :=
  map (λ p, ascii_of_nat (Z.to_nat p))
    (List.filter (λ p, (0 <=? p) && (p <? 128)) puntos).

(** [re.sub(r'%\s*', 'pct_', nombre)].  [tras] is set while the scan is in
    the white space that follows a percent sign. *)
Fixpoint sub_pct (tras : bool) (s : list ascii) : list ascii :=
  match s with
  | [] => []
  | c :: s' =>
      if Ascii.eqb c "%" then list_ascii_of_string "pct_" ++ sub_pct true s'
      else if tras && es_espacio c then sub_pct true s'
      else c :: sub_pct false s'
  end.

(** The class [[a-zA-Z0-9]]. *)
Definition es_alnum (c : ascii) : bool :=
  let n := codigo c in
  ((48 <=? n) && (n <=? 57)) || ((65 <=? n) && (n <=? 90))
  || ((97 <=? n) && (n <=? 122)).

(** [re.sub(r'[^a-zA-Z0-9]', '_', nombre)] *)
Definition sub_no_alfanumerico (s : list ascii) : list ascii :=
  map (λ c, if es_alnum c then c else "_"%char) s.

(** [re.sub(r'_+', '_', nombre)].  [en_racha] is set while the scan is in
    a run of underscores, whose first one has been kept. *)
Fixpoint sub_guiones (en_racha : bool) (s : list ascii) : list ascii :=
  match s with
  | [] => []
  | c :: s' =>
      if Ascii.eqb c "_" then
        if en_racha then sub_guiones true s' else c :: sub_guiones true s'
      else c :: sub_guiones false s'
  end.

(** [s.lstrip(x)], [s.rstrip(x)] and [s.strip(x)] for one character. *)
Fixpoint lstrip_caracter (x : ascii) (s : list ascii) : list ascii :=
  match s with
  | c :: s' => if Ascii.eqb c x then lstrip_caracter x s' else s
  | [] => []
  end.

Definition rstrip_caracter (x : ascii) (s : list ascii) : list ascii :=
  rev (lstrip_caracter x (rev s)).

Definition strip_caracter (x : ascii) (s : list ascii) : list ascii :=
  rstrip_caracter x (lstrip_caracter x s).

(** [str.lower] on one character below 256: the letters A-Z and the
    capitals of Latin-1 (all of 192-222 but the multiplication sign). *)
Definition minuscula (c : ascii) : ascii :=
  let n := codigo c in
  if ((65 <=? n) && (n <=? 90))
     || ((192 <=? n) && (n <=? 222) && negb (n =? 215))
  then ascii_of_nat (Z.to_nat (n + 32))
  else c.

Definition lower (s : string) : string :=
  string_of_list_ascii (map minuscula (list_ascii_of_string s)).

Section Limpiar.

(** [unicodedata.normalize('NFKD', _)], on code points.  The function is
    modelled for every such table. *)
Variable NFKD : list Z → list Z.

Definition limpiar_nombre_columna (nombre : etiqueta) : string :=
  match nombre with
  | Otro repr => repr
  | Texto puntos =>
      let nombre := NFKD puntos in
      let nombre := solo_ascii nombre in
      let nombre := sub_pct false nombre in
      let nombre := sub_no_alfanumerico nombre in
      let nombre := sub_guiones false nombre in
      let nombre := strip_caracter "_" nombre in
      string_of_list_ascii (map minuscula nombre)
  end.

End Limpiar.

(** Names the function leaves as they are: lower-case letters, digits and
    single underscores, none of them at either end. *)
Definition es_minuscula_digito_o_guion (c : ascii) : bool :=
  let n := codigo c in
  ((48 <=? n) && (n <=? 57)) || ((97 <=? n) && (n <=? 122)) || (n =? 95).

Fixpoint sin_guiones_dobles (s : list ascii) : bool :=
  match s with
  | c :: s' =>
      match s' with
      | d :: _ => negb (Ascii.eqb c "_" && Ascii.eqb d "_")
      | [] => true
      end && sin_guiones_dobles s'
  | [] => true
  end.

Definition empieza_con_guion (s : list ascii) : bool :=
  match s with
  | c :: _ => Ascii.eqb c "_"
  | [] => false
  end.

(** The class the substitutions leave behind, and runs of underscores as
    a proposition. *)
Definition es_alnum_o_guion (c : ascii) : bool :=
  es_alnum c || Ascii.eqb c "_".

Definition dobles (s : list ascii) : Prop :=
  ∃ s1 s2, s = s1 ++ "_"%char :: "_"%char :: s2.

Definition es_normal (s : string) : bool :=
  let l := list_ascii_of_string s in
  forallb es_minuscula_digito_o_guion l
  && sin_guiones_dobles l
  && negb (empieza_con_guion l)
  && negb (empieza_con_guion (rev l)).

(** A table for the accented letters of Spanish: the letter, then the
    combining mark (acute 769, tilde 771, diaeresis 776). *)
Definition NFKD_espanol : list Z → list Z :=
  flat_map (λ p,
    if p =? 225 then [97; 769] else if p =? 233 then [101; 769]
    else if p =? 237 then [105; 769] else if p =? 243 then [111; 769]
    else if p =? 250 then [117; 769] else if p =? 241 then [110; 771]
    else if p =? 252 then [117; 776] else [p]).

(** ** The column mappings *)

Definition MAPEO_CONDUCTA : list (string * string) :=
  [("agente", "agente");
   ("fecha", "fecha");
   ("id", "id");
   ("campana", "campana");
   ("in", "in_total");
   ("pct_in", "pct_in");
   ("in_rechazadas_ignoradas", "in_rechazadas_ignoradas");
   ("pct_in_rechazadas_ignoradas", "pct_in_rechazadas_ignoradas");
   ("in_atendidas", "in_atendidas");
   ("pct_in_atendidas", "pct_in_atendidas");
   ("out", "out_total");
   ("pct_out", "pct_out");
   ("out_rechazadas_ignoradas", "out_rechazadas_ignoradas");
   ("pct_out_rechazadas_ignoradas", "pct_out_rechazadas_ignoradas");
   ("out_atendidas", "out_atendidas");
   ("pct_out_atendidas", "pct_out_atendidas");
   ("out_dialing", "out_dialing");
   ("pct_out_dialing", "pct_out_dialing");
   ("llamados_con_hold", "llamados_con_hold");
   ("pct_llamados_con_hold", "pct_llamados_con_hold");
   ("tiempo_medio_de_respuesta_in", "tiempo_medio_respuesta_in");
   ("tiempo_medio_de_respuesta_out", "tiempo_medio_respuesta_out")]%string.

Definition COLUMNAS_FINALES_CONDUCTA : list string :=
  ["agente"; "fecha"; "id"; "campana";
   "in_total"; "pct_in";
   "in_rechazadas_ignoradas"; "pct_in_rechazadas_ignoradas";
   "in_atendidas"; "pct_in_atendidas";
   "out_total"; "pct_out";
   "out_rechazadas_ignoradas"; "pct_out_rechazadas_ignoradas";
   "out_atendidas"; "pct_out_atendidas";
   "out_dialing"; "pct_out_dialing";
   "llamados_con_hold"; "pct_llamados_con_hold";
   "tiempo_medio_respuesta_in"; "tiempo_medio_respuesta_out"]%string.

Definition MAPEO_ESTADOS : list (string * string) :=
  [("fecha", "fecha");
   ("intervalo", "intervalo");
   ("id", "id");
   ("agente", "agente");
   ("id_campana", "id_campana");
   ("campana", "campana");
   ("t_login", "t_login");
   ("t_login_neto", "t_login_neto");
   ("t_available", "t_available");
   ("t_preview", "t_preview");
   ("t_dialing", "t_dialing");
   ("t_ringing", "t_ringing");
   ("t_talking", "t_talking");
   ("t_talking_in", "t_talking_in");
   ("t_talking_out", "t_talking_out");
   ("t_hold", "t_hold");
   ("t_acw", "t_acw");
   ("t_other_crm", "t_other_crm");
   ("t_pause", "t_pause");
   ("t_diario_login", "t_diario_login");
   ("t_diario_login_neto", "t_diario_login_neto");
   ("t_diario_available", "t_diario_available");
   ("t_diario_preview", "t_diario_preview");
   ("t_diario_dialing", "t_diario_dialing");
   ("t_diario_ringing", "t_diario_ringing");
   ("t_diario_talking", "t_diario_talking");
   ("t_diario_talking_in", "t_diario_talking_in");
   ("t_diario_talking_out", "t_diario_talking_out");
   ("t_diario_hold", "t_diario_hold");
   ("t_diario_acw", "t_diario_acw");
   ("t_diario_other_crm", "t_diario_other_crm");
   ("t_diario_pause", "t_diario_pause")]%string.

(** [list(MAPEO_ESTADOS.values())] *)
Definition COLUMNAS_FINALES_ESTADOS : list string := map snd MAPEO_ESTADOS.

(** ** Steps 1 to 4 of the two transformers, on the columns of the frame *)

(** [mapeo.get(c, c)], as [DataFrame.rename(columns=mapeo)] applies it to
    each label. *)
Fixpoint renombrar (mapeo : list (string * string)) (c : string) : string :=
  match mapeo with
  | [] => c
  | (k, v) :: mapeo => if String.eqb k c then v else renombrar mapeo c
  end.

Section Destino.

Variable NFKD : list Z → list Z.

(** What a column holds. *)
Context {A : Type}.

(** The frame as read from the file, and the frame under transformation,
    column by column in the order of [df.columns]; [None] is a column the
    transformer filled with [None]. *)
Definition crudo : Type := list (etiqueta * A).
Definition marco : Type := list (string * option A).

(** The column carries the label [e]. *)
Definition con_etiqueta (e : string) (col : string * option A) : bool :=
  String.eqb col.1 e.

(** [col in df.columns] *)
Definition en_columnas (col : string) (df : marco) : bool :=
  existsb (con_etiqueta col) df.

(** [for col in finales: if col not in df.columns: df[col] = None] *)
Fixpoint rellenar (finales : list string) (df : marco) : marco :=
  match finales with
  | [] => df
  | col :: finales =>
      rellenar finales
        (if en_columnas col df then df else df ++ [(col, None)])
  end.

(** [df[etiquetas]]: every column that carries a requested label, label by
    label. *)
Definition seleccionar (etiquetas : list string) (df : marco) : marco :=
  flat_map (λ e, List.filter (con_etiqueta e) df) etiquetas.

Definition columnas_destino (mapeo : list (string * string))
    (finales : list string) (df : crudo) : marco :=
  (* 1. df.columns = [limpiar_nombre_columna(c) for c in df.columns] *)
  let df : marco :=
    map (λ '(c, d), (limpiar_nombre_columna NFKD c, Some d)) df in
  (* 2. df = df.rename(columns=mapeo) *)
  let df : marco := map (λ '(c, d), (renombrar mapeo c, d)) df in
  (* 3. missing destination columns *)
  let df := rellenar finales df in
  (* 4. df = df[[c for c in finales if c in df.columns]] *)
  seleccionar (List.filter (λ c, en_columnas c df) finales) df.

(** The source columns that end up under the destination name [f]. *)
Definition origen (mapeo : list (string * string)) (df : crudo) (f : string)
    : marco :=
  omap (λ '(c, d),
          if String.eqb (renombrar mapeo (limpiar_nombre_columna NFKD c)) f
          then Some (f, Some d) else None) df.

End Destino.

(** The headers of a conduct report as the site could write them, with
    capitals, an accent and percent signs, and one column the mapping does
    not know; each column holds its position. *)
Definition encabezados_conducta : @crudo nat :=
  [(Texto (codigos "Agente"), 0%nat);
   (Texto (codigos "Fecha"), 1%nat);
   (Texto (codigos "ID"), 2%nat);
   (Texto [67; 97; 109; 112; 97; 241; 97], 3%nat);
   (Texto (codigos "In"), 4%nat);
   (Texto (codigos "% In"), 5%nat);
   (Texto (codigos "Out"), 6%nat);
   (Texto (codigos "% Out"), 7%nat);
   (Texto (codigos "Observaciones"), 8%nat);
   (Texto (codigos "Tiempo medio de respuesta (In)"), 9%nat)].

End Columnas.

(* ===================================================================== *)
(** * Report download: [click_boton_ejecutar_inferior], [descargar_reporte] *)
(* ===================================================================== *)

Module Reporte.
Import Selenium.
Local Open Scope py_scope.

(** [p] adds to the trace nothing but events that satisfy [P]. *)
Definition emite {W A} (P : evento → Prop) (p : M W A) : Prop :=
  ∀ m, ∃ evs, traza (p m).2 = traza m ++ evs ∧ Forall P evs.

(** How often a call occurs in a trace. *)
Definition veces (descrita : llamada → bool) (evs : list evento) : nat :=
  length (List.filter descrita (llamadas evs)).

Definition es_get (c : llamada) : bool :=
  match c with CGet _ => true | _ => false end.

Definition es_script_fila (c : llamada) : bool :=
  match c with CExecuteScript (JsSeleccionarFila _) _ => true | _ => false end.

(** Events the stages of the page leave: anything but a page load, the
    row selection script and the end of the session. *)
Definition evento_de_etapa (ev : evento) : Prop :=
  match ev with
  | EvLlamada (CGet _) _ | EvLlamada CQuit _ | EvLlamada CChrome _
  | EvLlamada (CExecuteScript (JsSeleccionarFila _) _) _ => False
  | _ => True
  end.

(** The wait [esperar_spinner] makes for one loading indicator. *)
Definition espera_spinner (spinner_xpath : string) : llamada :=
  CWaitUntil 2 (invisibility_of_element_located (ByXPath spinner_xpath)).

Section Descargar.
Context {W : Type}.
Variable D : driver W.
Variable E : enumeracion.

Definition click_boton_ejecutar_inferior : M W bool :=
  logger INFO "Intentando clic en boton Ejecutar (inferior)" ;;
  try_except
    (try_except
       (llamar D (CWaitUntil 10 (invisibility_of_element_located (ById "modal"))) ;;
        ret tt)
       is_TimeoutException (λ _, ret tt) ;;
     boton ← llamar D (CWaitUntil 10
                (element_to_be_clickable (ById "btnEjecutarParent")));
     try_except
       (llamar D (CClick boton) ;;
        logger INFO "Boton Ejecutar presionado correctamente")
       Exception
       (λ _, logger WARNING "Click estandar interceptado, usando JavaScript..." ;;
             llamar D (CExecuteScript JsClick [ArgElemento boton]) ;;
             logger INFO "Boton Ejecutar presionado via JS") ;;
     ret true)
    Exception
    (λ e, logger_exc ERROR "Fallo click boton Ejecutar" e ;;
          ret false).

(** The two waits of the function: for a previous modal to go away, and
    for the button of the lower bar. *)
Definition espera_modal_previo : llamada :=
  CWaitUntil 10 (invisibility_of_element_located (ById "modal")).

Definition espera_boton_inferior : llamada :=
  CWaitUntil 10 (element_to_be_clickable (ById "btnEjecutarParent")).

(** The button of the lower bar was found and a click on it went through,
    directly or by script. *)

Definition clic_inferior_hecho (evs : list evento) : Prop :=
  ∃ boton,
    EvLlamada espera_boton_inferior (inr (VElemento boton)) ∈ evs ∧
    clic_ok boton evs.

(** The retried classes of [descargar_reporte]. *)
Definition reintentable_descarga (e : excepcion) : bool :=
  is_WebDriverException e || is_TimeoutError e.

Definition politica_descarga : politica :=
  mkPolitica 2 (wait_exponential 2 10 60) reintentable_descarga
    "Reintentando descarga de reporte...".

(** The download directory as the function uses it: the listing of its
    files, the watcher, and [str(download_dir / archivo)].  The function is
    modelled for whatever the first two do. *)
Variable obtener_archivos_en_directorio : M W (gset string).
Variable esperar_descarga_completa : gset string → M W string.
Variable ruta_descarga : string → string.

(** Step 4: the watcher and, on [TimeoutError], one more look at the
    directory. *)
Definition esperar_descarga (archivos_previos : gset string) : M W string :=
  try_except
    (esperar_descarga_completa archivos_previos)
    is_TimeoutError
    (λ e, logger WARNING
            "Timeout esperando descarga, verificando archivos existentes..." ;;
          archivos_actuales ← obtener_archivos_en_directorio;
          let nuevos := archivos_actuales ∖ archivos_previos in
          match E nuevos with
          | archivo_descargado :: _ => ret archivo_descargado
          | [] => lanzar (Exc e)
          end).

(** The body of the [try]. *)
Definition pasos_descarga (reporte_info : reporte) (fecha_ayer : string)
    (handle_original : handle) : M W string :=
  seleccionada ← seleccionar_fila_reporte D (id reporte_info);
  (if negb seleccionada then lanzar (Exc PlainException) else ret tt) ;;
  clic ← click_boton_ejecutar_inferior;
  (if negb clic then lanzar (Exc PlainException) else ret tt) ;;
  archivos_previos ← obtener_archivos_en_directorio;
  modal ← manejar_modal_parametros D E fecha_ayer;
  (if negb modal then lanzar (Exc PlainException) else ret tt) ;;
  archivo_descargado ← esperar_descarga archivos_previos;
  cerrar_modal_y_volver D handle_original ;;
  sleep 4 ;;
  ret (ruta_descarga archivo_descargado).

Definition captura_reporte (reporte_info : reporte) : llamada :=
  CSaveScreenshot ("error_reporte_" +:+ id reporte_info +:+ ".png").

(** The function under the decorator. *)
Definition descargar_reporte_cuerpo (reporte_info : reporte)
    (fecha_ayer : string) : M W string :=
  logger INFO "==================================================" ;;
  logger INFO "DESCARGANDO" ;;
  logger INFO "==================================================" ;;
  handle_original ← llamar D CCurrentWindowHandle;
  try_except
    (pasos_descarga reporte_info fecha_ayer handle_original)
    Exception
    (λ e, logger_exc ERROR "Error descargando reporte" e ;;
          llamar D (captura_reporte reporte_info) ;;
          cerrar_modal_y_volver D handle_original ;;
          lanzar (Exc e)).

Definition descargar_reporte (reporte_info : reporte) (fecha_ayer : string)
    : M W string :=
  retry politica_descarga (descargar_reporte_cuerpo reporte_info fecha_ayer).

(** The trace of one attempt up to the [try]. *)
Definition cabecera_descarga (h : excepcion + valor) : list evento :=
  [EvLog INFO "==================================================" None;
   EvLog INFO "DESCARGANDO" None;
   EvLog INFO "==================================================" None;
   EvLlamada CCurrentWindowHandle h].

End Descargar.

(** ** Browsers and directories to run the download on *)

(** A page without the Infragistics grid: the selection script answers
    GRID_NOT_FOUND; every other call is answered as by [D_pagina_simple]. *)
Definition D_sin_grid : driver unit := λ c w,
  match c as c0 return (excepcion + respuesta c0) * unit with
  | CExecuteScript (JsSeleccionarFila _) _ =>
      (inr (JsTexto "GRID_NOT_FOUND"), w)
  | c0 => D_pagina_simple c0 w
  end.

(** A page on which a modal stays in front of the button: the wait for
    the modal times out and the direct click is intercepted. *)
Definition D_boton_tapado : driver unit := λ c w,
  match c as c0 return (excepcion + respuesta c0) * unit with
  | CWaitUntil _ (invisibility_of_element_located _) =>
      (inl TimeoutException, w)
  | CClick _ => (inl WebDriverException, w)
  | c0 => D_pagina_simple c0 w
  end.

(** A browser that never gets to load a page. *)
Definition D_sin_red : driver unit := λ c w,
  match c as c0 return (excepcion + respuesta c0) * unit with
  | CGet _ => (inl WebDriverException, w)
  | c0 => D_pagina_simple c0 w
  end.

(** A download that never arrives: the watcher times out and the
    directory stays empty. *)
Definition sin_descarga : gset string → M unit string :=
  λ _, lanzar (Exc TimeoutError).

Definition directorio_vacio : M unit (gset string) := ret ∅.

Definition en_descargas (archivo : string) : string :=
  "temp_neotel_downloads/" +:+ archivo.

End Reporte.

(* ===================================================================== *)
(** * Time columns: [procesar_columnas_tiempo]                            *)
(* ===================================================================== *)

Module Tiempos.
Import Transformacion Selenium.
Local Open Scope py_scope.

(** [Series.apply(f)]: [f] on every value, in order; the first exception
    ends it. *)
Fixpoint apply {B C} (f : B → result C) (col : list B) : result (list C) :=
  match col with
  | [] => Ok []
  | v :: col =>
      rbind (f v) (λ x, rbind (apply f col) (λ xs, Ok (x :: xs)))
  end.

(** [Series.fillna(x)], with [None] for NaN. *)
Definition fillna (x : flotante) (col : list (option flotante))
    : list flotante :=
  map (default x) col.

Section Procesar.
Context {W : Type}.

Variable py_float : string → option flotante.

(** [pd.to_numeric(_, errors='coerce')] on one value: a number, NaN
    ([None]) for what it cannot parse, or an exception. *)
Variable to_numeric : Transformacion.valor → excepcion + option flotante.

Definition to_numeric_coerce (v : Transformacion.valor) : result (option flotante) :=
  match to_numeric v with
  | inl e => Raise (Exc e)
  | inr x => Ok x
  end.

(** The body of the loop of [procesar_columnas_tiempo] for a column of
    the frame, given by its values; the result is the new [df[col]]. *)
Definition procesar_columna_tiempo (col : list Transformacion.valor) : M W (list flotante) :=
  try_except
    (let muestra := map str col in
     let tiene_formato_tiempo := existsb (contiene_caracter ":") muestra in
     if tiene_formato_tiempo then
       Principal.elevar (apply (convertir_tiempo_a_minutos py_float) col)
     else
       numeros ← Principal.elevar (apply to_numeric_coerce col);
       ret (fillna cero numeros))
    Exception
    (λ e, logger_exc WARNING "Error procesando columna de tiempo" e ;;
          ret (map (λ _, cero) col)).

End Procesar.

(** A reader of numbers that knows none. *)
Definition sin_numeros : string → option flotante := λ _, None.

Definition todo_nan : Transformacion.valor → excepcion + option flotante := λ _, inr None.

(** A column of three times, the second with the oversized hours field. *)
Definition columna_con_desborde : list Transformacion.valor :=
  [cadena "00:01:30"; cadena horas_enormes; cadena "00:10:00"].

End Tiempos.

(* ===================================================================== *)
(** * Phase 2: [identificar_tipo_archivo], [ejecutar_transformacion]      *)
(* ===================================================================== *)

Module Transformar.
Import Selenium Principal.
Local Open Scope py_scope.

Definition identificar_tipo_archivo (nombre_archivo : string) : string :=
  let nombre_lower := Columnas.lower nombre_archivo in
  if contiene "conducta" nombre_lower then "conducta"
  else if contiene "estados" nombre_lower || contiene "operativo" nombre_lower
  then "estados_operativos"
  else "desconocido".

Section Transformacion.
Context {W : Type}.

(** A frame as read from a file. *)
Variable Crudo : Type.

(** [os.path.basename], the readers of pandas, [df.dropna(how='all')] and
    the two transformers.  The phase is modelled for whatever they do. *)
Variable basename : string → string.
Variable read_csv : string → string → M W Crudo.
Variable read_excel : string → M W Crudo.
Variable dropna_all : Crudo → Crudo.
Variable transformar_conducta_agentes : Crudo → string → M W dataframe.
Variable transformar_estados_operativos : Crudo → string → M W dataframe.

(** The loop over the encodings: [df] stays [None] until one reads. *)
Fixpoint leer_csv (archivo : string) (encodings : list string)
    : M W (option Crudo) :=
  match encodings with
  | [] => ret None
  | encoding :: encodings =>
      df ← try_except
             (df ← read_csv archivo encoding;
              ret (Some df))
             Exception
             (λ _, ret None);
      match df with
      | Some _ => ret df
      | None => leer_csv archivo encodings
      end
  end.

(** The body of the loop over the files; [resultados] is the dictionary
    before and after. *)
Definition procesar_archivo (fecha_ayer : string) (resultados : datos)
    (archivo : string) : M W datos :=
  let nombre := basename archivo in
  let tipo := identificar_tipo_archivo nombre in
  logger INFO "Procesando" ;;
  try_except
    (df ← leer_csv archivo ["utf-8"; "latin-1"; "cp1252"];
     df ← match df with
          | None =>
              if Descarga.endswith archivo ".xls"
                 || Descarga.endswith archivo ".xlsx"
              then df ← read_excel archivo; ret (Some df)
              else ret None
          | Some _ => ret df
          end;
     match df with
     | None =>
         logger ERROR "No se pudo leer" ;;
         ret resultados
     | Some df =>
         let df := dropna_all df in
         logger INFO "filas, columnas" ;;
         if String.eqb tipo "conducta" then
           t ← transformar_conducta_agentes df fecha_ayer;
           ret (mkDatos (Some t) (estados_operativos resultados))
         else if String.eqb tipo "estados_operativos" then
           t ← transformar_estados_operativos df fecha_ayer;
           ret (mkDatos (conducta resultados) (Some t))
         else
           logger WARNING "Tipo desconocido" ;;
           ret resultados
     end)
    Exception
    (λ e, logger_exc ERROR "Error procesando" e ;;
          logger DEBUG "traceback" ;;
          ret resultados).

Fixpoint bucle_archivos (fecha_ayer : string) (archivos : list string)
    (resultados : datos) : M W datos :=
  match archivos with
  | [] => ret resultados
  | archivo :: archivos =>
      resultados ← procesar_archivo fecha_ayer resultados archivo;
      bucle_archivos fecha_ayer archivos resultados
  end.

Definition ejecutar_transformacion (archivos : list string)
    (fecha_ayer : string) : M W datos :=
  logger INFO "============================================================" ;;
  logger INFO "FASE 2: TRANSFORMACION" ;;
  logger INFO "============================================================" ;;
  bucle_archivos fecha_ayer archivos (mkDatos None None).

End Transformacion.

(** ** Readers and transformers to run the phase on *)

(** Files no reader can parse. *)
Definition csv_ilegible : string → string → M unit nat :=
  λ _ _, lanzar (Exc ValueError).

Definition excel_ilegible : string → M unit nat :=
  λ _, lanzar (Exc ValueError).

(** Files that read as a frame of ten rows, and transformers that keep
    the rows and put the 22 and 32 destination columns. *)
Definition csv_de_diez : string → string → M unit nat := λ _ _, ret 10%nat.

Definition transformar_a (columnas : nat) : nat → string → M unit dataframe :=
  λ filas _, ret (mkDataframe filas columnas).

(** The last component of a path written with [/]. *)
Fixpoint ultimo_componente (s : string) : string :=
  match s with
  | EmptyString => EmptyString
  | String c s' =>
      if Transformacion.contiene_caracter "/" s' then ultimo_componente s'
      else if Ascii.eqb c "/" then s' else s
  end.

End Transformar.

(* ===================================================================== *)
(** * How the process can end                                             *)
(* ===================================================================== *)

Module Salida.
Import Selenium Principal.

(** When [p] leaves through [sys.exit], the status is [codigo]. *)
Definition sale_solo_con {W A} (codigo : Z) (p : M W A) : Prop :=
  ∀ m c m', p m = (Raise (SystemExit c), m') → c = codigo.

(** The variable [nombre] is set, to the non-empty text [valor]. *)
Definition definida (env : entorno) (nombre valor : string) : Prop :=
  env !! nombre = Some valor ∧ valor ≠ ""%string.

(** An environment with the six variables, and phases that do their work:
    two files, two frames, a load. *)
Definition entorno_completo : entorno :=
  list_to_map
    [("NEOTEL_USER", "operador"); ("NEOTEL_PASS", "secreto");
     ("SQL_SERVER", "sql01"); ("SQL_DATABASE", "callcenter");
     ("SQL_USER", "etl"); ("SQL_PASSWORD", "clave")]%string.

Definition extraccion_de_dos : string → M unit (list string) :=
  λ _, ret ["descargas/conducta.csv"; "descargas/estados.csv"]%string.

Definition transformacion_de_dos : list string → string → M unit datos :=
  λ _ _, ret (mkDatos (Some (mkDataframe 10 22)) (Some (mkDataframe 10 32))).

Definition carga_hecha : datos → string → M unit unit := λ _ _, ret tt.

Definition primero_de_marzo : Fecha.datetime :=
  Fecha.mkDatetime 2024 3 1 6 0 0 0.

(** The world in which the extraction phase starts the browser. *)
Definition antes_de_chrome {W} (m1 : mundo W) : mundo W :=
  mkMundo (estado m1)
    (traza m1
     ++ [EvLog INFO "Iniciando navegador Chrome (modo headless)..." None]).

(** Callees of the extraction driver that do nothing. *)
Definition sin_efecto : M unit unit := ret tt.

End Salida.

(* ===================================================================== *)
(** * Phase 3: the load into SQL Server                                   *)
(* ===================================================================== *)

Module Carga.
Import Selenium.
Local Open Scope py_scope.

(** ** [datetime.strptime(_, "%d/%m/%Y")] and the ISO date of the filter *)

Definition entre (lo hi : Z) (c : ascii) : bool :=
  (lo <=? Columnas.codigo c) && (Columnas.codigo c <=? hi).

Definition digito (c : ascii) : Z := Columnas.codigo c - 48.

(** The directive [%d], the pattern [3[0-1]|[1-2]\d|0[1-9]|[1-9]| [1-9]]:
    the value and the rest of the text.  The alternatives are tried in
    this order; the character after a two-character alternative is never
    the separator, so the first alternative that matches is the only one
    the whole pattern can match with. *)
Definition directiva_d (s : string) : option (Z * string) :=
  match s with
  | String a (String b r) =>
      if Ascii.eqb a "3" && entre 48 49 b then Some (30 + digito b, r)
      else if entre 49 50 a && entre 48 57 b
      then Some (10 * digito a + digito b, r)
      else if Ascii.eqb a "0" && entre 49 57 b then Some (digito b, r)
      else if entre 49 57 a then Some (digito a, String b r)
      else if Ascii.eqb a " " && entre 49 57 b then Some (digito b, r)
      else None
  | String a EmptyString =>
      if entre 49 57 a then Some (digito a, EmptyString) else None
  | EmptyString => None
  end.

(** The directive [%m], the pattern [1[0-2]|0[1-9]|[1-9]]. *)
Definition directiva_m (s : string) : option (Z * string) :=
  match s with
  | String a (String b r) =>
      if Ascii.eqb a "1" && entre 48 50 b then Some (10 + digito b, r)
      else if Ascii.eqb a "0" && entre 49 57 b then Some (digito b, r)
      else if entre 49 57 a then Some (digito a, String b r)
      else None
  | String a EmptyString =>
      if entre 49 57 a then Some (digito a, EmptyString) else None
  | EmptyString => None
  end.

(** The directive [%Y], the pattern [\d\d\d\d]. *)
Definition directiva_Y (s : string) : option (Z * string) :=
  match s with
  | String a (String b (String c (String d r))) =>
      if entre 48 57 a && entre 48 57 b && entre 48 57 c && entre 48 57 d
      then Some (1000 * digito a + 100 * digito b + 10 * digito c + digito d, r)
      else None
  | _ => None
  end.

Definition barra (s : string) : option string :=
  match s with
  | String "/" r => Some r
  | _ => None
  end.

(** The date read, or [None] for [ValueError]: the text does not match
    the format, some of it is left over, or the day is not one of the
    calendar. *)
Definition strptime_dmY (s : string) : option (Z * Z * Z) :=
  match directiva_d s with
  | Some (d, r) =>
      match barra r with
      | Some r =>
          match directiva_m r with
          | Some (m, r) =>
              match barra r with
              | Some r =>
                  match directiva_Y r with
                  | Some (y, EmptyString) =>
                      if (1 <=? y) && (d <=? Fecha._days_in_month y m)
                      then Some (y, m, d)
                      else None
                  | _ => None
                  end
              | None => None
              end
          | None => None
          end
      | None => None
      end
  | None => None
  end.

(** [strftime("%Y-%m-%d")], with the year printed as [Fecha.strftime_dmY]
    prints it. *)
Definition strftime_Ymd (f : Z * Z * Z) : string :=
  let '(y, m, d) := f in
  Fecha.decimal y +:+ "-" +:+ Fecha.pad2 m +:+ "-" +:+ Fecha.pad2 d.

(** The [try] that turns DD/MM/YYYY into YYYY-MM-DD and keeps the text as
    it is on [ValueError]. *)
Definition fecha_iso (fecha_filtro : string) : string :=
  match strptime_dmY fecha_filtro with
  | Some dt_obj => strftime_Ymd dt_obj
  | None => fecha_filtro
  end.

(** Four year digits, two month digits, two day digits, with dashes. *)
Definition formato_ISO (f : Z * Z * Z) : string :=
  let '(y, m, d) := f in
  Fecha.pad4 y +:+ "-" +:+ Fecha.pad2 m +:+ "-" +:+ Fecha.pad2 d.

(** Decision procedures used by the proofs: the directives read back
    what [strftime] prints. *)
Definition check_d (d : Z) : bool :=
  match directiva_d (Fecha.pad2 d +:+ "/") with
  | Some (d', "/"%string) => d' =? d
  | _ => false
  end.

Definition check_m (m : Z) : bool :=
  match directiva_m (Fecha.pad2 m +:+ "/") with
  | Some (m', "/"%string) => m' =? m
  | _ => false
  end.

Definition check_Y (y : Z) : bool :=
  match directiva_Y (Fecha.pad4 y) with
  | Some (y', EmptyString) => y' =? y
  | _ => false
  end.

(** ** The whitelist and the statements *)

Definition TABLAS_PERMITIDAS : gset string :=
  {[ "tbl_neotel_conducta"; "tbl_neotel_estados_operativos" ]}.

Definition validar_tabla_permitida (tabla : string) : result unit :=
  if bool_decide (tabla ∈ TABLAS_PERMITIDAS) then Ok tt
  else Raise (Exc ValueError).

Definition DDL_CONDUCTA : string := "
IF NOT EXISTS (SELECT * FROM sysobjects WHERE name='tbl_neotel_conducta' AND xtype='U')
CREATE TABLE tbl_neotel_conducta (
    agente NVARCHAR(200),
    fecha DATE,
    id INT,
    campana NVARCHAR(150),
    in_total INT,
    pct_in FLOAT,
    in_rechazadas_ignoradas INT,
    pct_in_rechazadas_ignoradas FLOAT,
    in_atendidas INT,
    pct_in_atendidas FLOAT,
    out_total INT,
    pct_out FLOAT,
    out_rechazadas_ignoradas INT,
    pct_out_rechazadas_ignoradas FLOAT,
    out_atendidas INT,
    pct_out_atendidas FLOAT,
    out_dialing INT,
    pct_out_dialing FLOAT,
    llamados_con_hold INT,
    pct_llamados_con_hold FLOAT,
    tiempo_medio_respuesta_in FLOAT,
    tiempo_medio_respuesta_out FLOAT,
    load_date DATETIME DEFAULT GETDATE()
);
".

Definition DDL_ESTADOS : string := "
IF NOT EXISTS (SELECT * FROM sysobjects WHERE name='tbl_neotel_estados_operativos' AND xtype='U')
CREATE TABLE tbl_neotel_estados_operativos (
    fecha DATE,
    intervalo NVARCHAR(50),
    id INT,
    agente NVARCHAR(200),
    id_campana INT,
    campana NVARCHAR(150),
    t_login FLOAT,
    t_login_neto FLOAT,
    t_available FLOAT,
    t_preview FLOAT,
    t_dialing FLOAT,
    t_ringing FLOAT,
    t_talking FLOAT,
    t_talking_in FLOAT,
    t_talking_out FLOAT,
    t_hold FLOAT,
    t_acw FLOAT,
    t_other_crm FLOAT,
    t_pause FLOAT,
    t_diario_login FLOAT,
    t_diario_login_neto FLOAT,
    t_diario_available FLOAT,
    t_diario_preview FLOAT,
    t_diario_dialing FLOAT,
    t_diario_ringing FLOAT,
    t_diario_talking FLOAT,
    t_diario_talking_in FLOAT,
    t_diario_talking_out FLOAT,
    t_diario_hold FLOAT,
    t_diario_acw FLOAT,
    t_diario_other_crm FLOAT,
    t_diario_pause FLOAT,
    load_date DATETIME DEFAULT GETDATE()
);
".

Definition delete_query (tabla : string) : string :=
  "DELETE FROM " +:+ tabla +:+ " WHERE CAST(fecha AS DATE) = ?".

Definition insert_query (tabla : string) (cols : list string) : string :=
  let cols_sql := String.concat ", " (map (λ c, "[" +:+ c +:+ "]") cols) in
  let placeholders := String.concat ", " (map (λ _, "?"%string) cols) in
  "INSERT INTO " +:+ tabla +:+ " (" +:+ cols_sql +:+ ") VALUES ("
  +:+ placeholders +:+ ")".

(** [range(0, len(records), batch_size)] and [records[i:i+batch_size]]:
    the batches, in order. *)
Fixpoint lotes_desde {A} (quedan : nat) (batch_size : nat) (records : list A)
    : list (list A) :=
  match quedan with
  | O => []
  | S quedan =>
      match records with
      | [] => []
      | _ => take batch_size records
             :: lotes_desde quedan batch_size (drop batch_size records)
      end
  end.

Definition lotes {A} (batch_size : nat) (records : list A) : list (list A) :=
  lotes_desde (length records) batch_size records.

(** [os.getenv('SQL_DRIVER', 'ODBC Driver 17 for SQL Server')] *)
Definition SQL_DRIVER (env : Principal.entorno) : string :=
  default "ODBC Driver 17 for SQL Server"%string (env !! "SQL_DRIVER"%string).

Definition conn_str (driver : string) (cfg : Principal.configuracion)
    : string :=
  "Driver={" +:+ driver +:+ "};"
  +:+ "Server=" +:+ Principal.SQL_SERVER cfg +:+ ";"
  +:+ "Database=" +:+ Principal.SQL_DATABASE cfg +:+ ";"
  +:+ "UID=" +:+ Principal.SQL_USER cfg +:+ ";"
  +:+ "PWD=" +:+ Principal.SQL_PASSWORD cfg +:+ ";".

Section Base.

(** What a cell of a frame holds. *)
Variable celda : Type.

(** A transformed frame: [df.columns] and the rows, as
    [df.itertuples(index=False)] lists them. *)
Record frame : Type := mkFrame {
  columns : list string;
  records : list (list celda)
}.

(** [df.empty]: one of the two axes has length 0. *)
Definition empty (df : frame) : bool :=
  (length (columns df) =? 0)%nat || (length (records df) =? 0)%nat.

(** [df is None or df.empty] *)
Definition sin_filas (df : option frame) : bool :=
  match df with
  | None => true
  | Some df => empty df
  end.

Inductive parametro : Type :=
  | PTexto (s : string)
  | PCelda (c : celda).

(** What the script asks of [pyodbc]. *)
Inductive operacion : Type :=
  | OpConnect (cadena : string)
  | OpCursor
  | OpExecute (sql : string) (params : list parametro)
  | OpExecutemany (sql : string) (batch : list (list celda))
  | OpCommit
  | OpClose.

(** A server over states [S]: every operation either raises an
    [Exception] or returns, and moves the server to a new state. *)
Definition conexion (S : Type) : Type :=
  operacion → S → option excepcion * S.

(** The server and the operations asked of it so far, each with the
    exception it raised if any. *)
Record sesion (S : Type) : Type := mkSesion {
  servidor : S;
  bitacora : list (operacion * option excepcion)
}.
Arguments mkSesion {S} servidor bitacora.
Arguments servidor {S} s.
Arguments bitacora {S} s.

Section Servidor.
Context {S : Type}.
Variable C : conexion S.

(** One operation, recorded with its outcome. *)
Definition operar (op : operacion) : M (sesion S) unit :=
  λ m, let '(r, s) := C op (servidor (estado m)) in
       let m' := mkMundo (mkSesion s (bitacora (estado m) ++ [(op, r)]))
                   (traza m) in
       match r with
       | Some e => (Raise (Exc e), m')
       | None => (Ok tt, m')
       end.

Definition crear_tablas_si_no_existen : M (sesion S) unit :=
  logger INFO "Verificando/creando tablas..." ;;
  operar OpCursor ;;
  operar (OpExecute DDL_CONDUCTA []) ;;
  operar (OpExecute DDL_ESTADOS []) ;;
  operar OpCommit ;;
  logger INFO "Tablas verificadas/creadas".

(** The fallback of a failed batch: row by row, failures passed over. *)
Fixpoint insertar_uno_por_uno (insert_query : string)
    (batch : list (list celda)) (inserted : nat) : M (sesion S) nat :=
  match batch with
  | [] => ret inserted
  | rec :: batch =>
      inserted ←
        try_except
          (operar (OpExecute insert_query (map PCelda rec)) ;;
           ret (inserted + 1)%nat)
          Exception
          (λ _, ret inserted);
      insertar_uno_por_uno insert_query batch inserted
  end.

(** The loop over the batches, with [inserted] and [failed_batches]. *)
Fixpoint insertar_lotes (insert_query : string)
    (pendientes : list (list (list celda))) (inserted failed_batches : nat)
    : M (sesion S) (nat * nat) :=
  match pendientes with
  | [] => ret (inserted, failed_batches)
  | batch :: pendientes =>
      contadores ←
        try_except
          (operar (OpExecutemany insert_query batch) ;;
           ret ((inserted + length batch)%nat, failed_batches))
          Exception
          (λ _, logger WARNING "Batch fallo, insertando uno por uno..." ;;
                inserted ← insertar_uno_por_uno insert_query batch inserted;
                ret (inserted, (failed_batches + 1)%nat));
      let '(inserted, failed_batches) := contadores in
      insertar_lotes insert_query pendientes inserted failed_batches
  end.

Definition batch_size : nat := 100.

Definition cargar_dataframe_pyodbc (df : option frame) (tabla : string)
    (fecha_filtro : string) : M (sesion S) nat :=
  match df with
  | Some df' =>
      if empty df' then
        logger WARNING "DataFrame vacio, omitiendo carga." ;;
        ret 0%nat
      else
        Principal.elevar (validar_tabla_permitida tabla) ;;
        operar OpCursor ;;
        let fecha_iso := fecha_iso fecha_filtro in
        (if bool_decide ("fecha"%string ∈ columns df') then
           operar (OpExecute (delete_query tabla) [PTexto fecha_iso]) ;;
           logger INFO "Borrados registros para fecha"
         else ret tt) ;;
        let cols := columns df' in
        let insert_query := insert_query tabla cols in
        logger INFO "Insertando registros..." ;;
        contadores ←
          insertar_lotes insert_query (lotes batch_size (records df')) 0 0;
        let '(inserted, failed_batches) := contadores in
        operar OpCommit ;;
        (if (0 <? failed_batches)%nat then
           logger WARNING "batches fallaron, se insertaron individualmente."
         else ret tt) ;;
        logger INFO "registros insertados" ;;
        ret inserted
  | None =>
      logger WARNING "DataFrame vacio, omitiendo carga." ;;
      ret 0%nat
  end.

(** The dictionary of transformed frames, and the summary of the load. *)
Record datos : Type := mkDatos {
  conducta : option frame;
  estados_operativos : option frame
}.

Record resumen : Type := mkResumen {
  tbl_neotel_conducta : nat;
  tbl_neotel_estados_operativos : nat
}.

Definition ejecutar_carga (cadena_conexion : string) (datos : datos)
    (fecha_ayer : string) : M (sesion S) resumen :=
  logger INFO "============================================================" ;;
  logger INFO "FASE 3: CARGA" ;;
  logger INFO "============================================================" ;;
  (* [conn] is still [None] if the connection cannot be opened *)
  try_except (operar (OpConnect cadena_conexion))
    Exception
    (λ e, logger_exc ERROR "Error en fase de carga" e ;;
          lanzar (Exc e)) ;;
  try_finally
    (try_except
       (logger INFO "Conexion a SQL Server establecida" ;;
        crear_tablas_si_no_existen ;;
        n_conducta ←
          match conducta datos with
          | Some df =>
              cargar_dataframe_pyodbc (Some df) "tbl_neotel_conducta"
                fecha_ayer
          | None => ret 0%nat
          end;
        n_estados ←
          match estados_operativos datos with
          | Some df =>
              cargar_dataframe_pyodbc (Some df)
                "tbl_neotel_estados_operativos" fecha_ayer
          | None => ret 0%nat
          end;
        logger INFO "Carga completada exitosamente" ;;
        ret (mkResumen n_conducta n_estados))
       Exception
       (λ e, logger_exc ERROR "Error en fase de carga" e ;;
             lanzar (Exc e)))
    (operar OpClose ;;
     logger INFO "Conexion a SQL Server cerrada").

(** The server accepts the operation in every state. *)
Definition acepta (op : operacion) : Prop :=
  ∀ s, (C op s).1 = None.

End Servidor.

(** The operations a successful load of [df] into [tabla] asks for. *)
Definition operaciones_de_carga (df : frame) (tabla fecha_filtro : string)
    : list operacion :=
  [OpCursor]
  ++ (if bool_decide ("fecha"%string ∈ columns df)
      then [OpExecute (delete_query tabla) [PTexto (fecha_iso fecha_filtro)]]
      else [])
  ++ map (OpExecutemany (insert_query tabla (columns df)))
       (lotes batch_size (records df))
  ++ [OpCommit].

(** What the insertion of one batch leaves in the log of the server, given
    the outcome [r] of its [executemany] and, when that is an exception, the
    outcomes [rs] of its rows sent one by one: the batch once, and after a
    rejected batch each of its rows by itself, in order. *)
Definition registro_de_lote (sql : string) (batch : list (list celda))
    (r : option excepcion) (rs : list (option excepcion))
    : list (operacion * option excepcion) :=
  (OpExecutemany sql batch, r)
  :: match r with
     | None => []
     | Some _ =>
         zip_with (λ rec r', (OpExecute sql (map PCelda rec), r')) batch rs
     end.

(** The operations that went through, among outcomes. *)
Definition aceptadas (rs : list (option excepcion)) : nat :=
  length (List.filter (λ r, match r with None => true | Some _ => false end)
            rs).

(** The rows of the batch that went in: all of them with the batch, or
    those accepted one by one. *)
Definition insertados_de_lote (batch : list (list celda))
    (r : option excepcion) (rs : list (option excepcion)) : nat :=
  match r with
  | None => length batch
  | Some _ => aceptadas rs
  end.

(** The DELETE of the rows of the day, for a frame with a [fecha] column. *)
Definition borrado_del_dia (df : frame) (tabla fecha_filtro : string)
    : list operacion :=
  if bool_decide ("fecha"%string ∈ columns df)
  then [OpExecute (delete_query tabla) [PTexto (fecha_iso fecha_filtro)]]
  else [].

(** The same for a frame that may be missing or empty, with the count the
    load returns. *)
Definition operaciones_de_tabla (df : option frame)
    (tabla fecha_filtro : string) : list operacion :=
  match df with
  | Some df' =>
      if empty df' then [] else operaciones_de_carga df' tabla fecha_filtro
  | None => []
  end.

Definition cargadas (df : option frame) : nat :=
  match df with
  | Some df' => if empty df' then 0%nat else length (records df')
  | None => 0%nat
  end.

(** The operations of a load phase in which nothing fails. *)
Definition operaciones_de_fase (cadena_conexion : string) (d : datos)
    (fecha_ayer : string) : list operacion :=
  [OpConnect cadena_conexion; OpCursor; OpExecute DDL_CONDUCTA [];
   OpExecute DDL_ESTADOS []; OpCommit]
  ++ operaciones_de_tabla (conducta d) "tbl_neotel_conducta" fecha_ayer
  ++ operaciones_de_tabla (estados_operativos d)
       "tbl_neotel_estados_operativos" fecha_ayer
  ++ [OpClose].

End Base.

Arguments mkFrame {celda} columns records.
Arguments columns {celda} f.
Arguments records {celda} f.
Arguments OpConnect {celda} cadena.
Arguments OpCursor {celda}.
Arguments OpExecute {celda} sql params.
Arguments OpExecutemany {celda} sql batch.
Arguments OpCommit {celda}.
Arguments OpClose {celda}.
Arguments PTexto {celda} s.
Arguments PCelda {celda} c.
Arguments mkSesion {celda S} servidor bitacora.
Arguments servidor {celda S} s.
Arguments bitacora {celda S} s.
Arguments mkDatos {celda} conducta estados_operativos.

(** ** Servers and frames to run the load on *)

(** A server that accepts everything, and one that rejects every batch
    and every second row. *)
Definition servidor_dispuesto : conexion Z unit := λ _ s, (None, s).

Definition servidor_exigente : conexion Z nat := λ op s,
  match op with
  | OpExecutemany _ _ => (Some PlainException, s)
  | OpExecute _ (PCelda _ :: _) =>
      (if Nat.even s then None else Some PlainException, Datatypes.S s)
  | _ => (None, s)
  end.

(** Three rows with a date and an identifier. *)
Definition tres_filas : frame Z :=
  mkFrame ["fecha"; "id"]%string [[20240229; 1]; [20240229; 2]; [20240229; 3]].

End Carga.

(* ===================================================================== *)
(** * The login attempt: how it ends                                      *)
(* ===================================================================== *)

Module Login.
Import Selenium.

(** The last events of an attempt that returns: the credentials typed into
    the two fields of the form, the form submitted, the wait. *)
Definition credenciales_y_envio (usuario password : string)
    (input_user input_pass btn_login : elemento) : list evento :=
  [EvLlamada
     (CWaitUntil 15 (visibility_of_element_located (ById "txtUsuario")))
     (inr (VElemento input_user));
   EvLlamada (CClear input_user) (inr VNone);
   EvLlamada (CSendKeys input_user usuario) (inr VNone);
   EvLlamada (CFindElement (ById "txtClave")) (inr (VElemento input_pass));
   EvLlamada (CClear input_pass) (inr VNone);
   EvLlamada (CSendKeys input_pass password) (inr VNone);
   EvLog INFO "Credenciales ingresadas" None;
   EvLlamada
     (CWaitUntil 15 (element_to_be_clickable (ByXPath "//input[@type='submit']")))
     (inr (VElemento btn_login));
   EvLlamada (CClick btn_login) (inr VNone);
   EvLog INFO "Boton de login presionado" None;
   EvSleep 6;
   EvLlamada CSwitchToDefaultContent (inr VNone);
   EvLog INFO "Login completado exitosamente" None].

(** Events that type nothing: anything but a [send_keys]. *)
Definition sin_teclas (ev : evento) : Prop :=
  match ev with
  | EvLlamada (CSendKeys _ _) _ => False
  | _ => True
  end.

(** The last events of the [except] clause: the record of the exception
    and the screenshot, with its outcome [q]. *)
Definition informe_de_error (e : excepcion) (q : excepcion + valor)
    : list evento :=
  [EvLog ERROR "Error critico en login" (Some e);
   EvLlamada (CSaveScreenshot "error_login_debug.png") q].

(** The exception that leaves the [except] clause: the one caught, unless
    the screenshot raised. *)
Definition tras_informe (e : excepcion) (q : excepcion + valor) : exn :=
  match q with
  | inl e' => Exc e'
  | inr _ => Exc e
  end.

(** A page whose login form never shows: every wait times out. *)
Definition D_sin_formulario : driver unit := λ c w,
  match c as c0 return (excepcion + respuesta c0) * unit with
  | CWaitUntil _ _ => (inl TimeoutException, w)
  | c0 => D_pagina_simple c0 w
  end.

End Login.

(* ===================================================================== *)
(** * The download directory: [limpiar_directorio_descargas]              *)
(* ===================================================================== *)

Module Directorio.
Import Selenium.
Local Open Scope py_scope.

(** What the function asks of the file system: [Path.exists], [iterdir],
    [is_file], [unlink], [is_dir], [shutil.rmtree] and [mkdir]; the entries
    of the directory by their names. *)
Inductive peticion : Type :=
  | Exists
  | Iterdir
  | IsFile (archivo : string)
  | Unlink (archivo : string)
  | IsDir (archivo : string)
  | Rmtree (archivo : string)
  | Mkdir.

Definition contesta (p : peticion) : Type :=
  match p with
  | Exists | IsFile _ | IsDir _ => bool
  | Iterdir => list string
  | Unlink _ | Rmtree _ | Mkdir => unit
  end.

(** A file system over states [S]: every request either raises an
    [Exception] or is answered, and moves the file system to a new state. *)
Definition disco (S : Type) : Type :=
  ∀ p : peticion, S → (excepcion + contesta p) * S.

(** The file system and the requests made so far. *)
Record sesion (S : Type) : Type := mkSesion {
  sistema : S;
  pedidos : list peticion
}.
Arguments mkSesion {S} sistema pedidos.
Arguments sistema {S} s.
Arguments pedidos {S} s.

(** The entry a request is about, and the entry an [is_file] asks for. *)
Definition entrada (p : peticion) : option string :=
  match p with
  | IsFile a | Unlink a | IsDir a | Rmtree a => Some a
  | Exists | Iterdir | Mkdir => None
  end.

Definition consultada (p : peticion) : option string :=
  match p with
  | IsFile a => Some a
  | _ => None
  end.

Section Limpiar.
Context {S : Type}.
Variable F : disco S.

(** One request, recorded. *)
Definition pedir (p : peticion) : M (sesion S) (contesta p) :=
  λ m, let '(r, s) := F p (sistema (estado m)) in
       let m' := mkMundo (mkSesion s (pedidos (estado m) ++ [p])) (traza m) in
       match r with
       | inl e => (Raise (Exc e), m')
       | inr v => (Ok v, m')
       end.

(** The body of the [for] loop, and the loop over the entries. *)
Definition limpiar_entrada (archivo : string) : M (sesion S) unit :=
  try_except
    (es_archivo ← pedir (IsFile archivo);
     if es_archivo then pedir (Unlink archivo)
     else
       es_directorio ← pedir (IsDir archivo);
       if es_directorio then pedir (Rmtree archivo) else ret tt)
    Exception
    (λ e, logger_exc WARNING "No se pudo eliminar" e).

Fixpoint limpiar_entradas (archivos : list string) : M (sesion S) unit :=
  match archivos with
  | [] => ret tt
  | archivo :: archivos =>
      limpiar_entrada archivo ;;
      limpiar_entradas archivos
  end.

Definition limpiar_directorio_descargas : M (sesion S) unit :=
  existe ← pedir Exists;
  if existe then
    logger INFO "Limpiando directorio de descargas" ;;
    archivos ← pedir Iterdir;
    limpiar_entradas archivos
  else
    logger INFO "Creando directorio de descargas" ;;
    pedir Mkdir.

End Limpiar.

(** A directory with a report, a folder and a file that cannot be
    removed. *)
Definition disco_con_candado : disco unit := λ p s,
  match p as p0 return (excepcion + contesta p0) * unit with
  | Exists => (inr true, s)
  | Iterdir => (inr ["reporte.csv"; "cache"; "abierto.xlsx"]%string, s)
  | IsFile a => (inr (negb (String.eqb a "cache")), s)
  | IsDir a => (inr (String.eqb a "cache"), s)
  | Unlink a =>
      (if String.eqb a "abierto.xlsx" then inl EnvironmentError else inr tt, s)
  | Rmtree _ => (inr tt, s)
  | Mkdir => (inr tt, s)
  end.

End Directorio.

(* ===================================================================== *)
(** * Part II: properties                                                 *)
(* ===================================================================== *)

(* ===================================================================== *)
(** * Properties of the business date                                     *)
(* ===================================================================== *)

Section FechaCorrecta.
Import Fecha.

Lemma In_Zrange lo n x : lo ≤ x < lo + n → In x (Zrange lo n).
Proof.
  intros H. unfold Zrange. apply in_map_iff.
  exists (Z.to_nat (x - lo)). split; [lia|]. apply in_seq. lia.
Qed.

Lemma ymd_eqb_eq a b : ymd_eqb a b = true → a = b.
Proof.
  destruct a as [[y1 m1] d1], b as [[y2 m2] d2]. cbn.
  rewrite !andb_true_iff, !Z.eqb_eq. intros [[-> ->] ->]. reflexivity.
Qed.

Lemma check_ciclo_ok : check_ciclo = true.
Proof. vm_compute. reflexivity. Qed.

Lemma days_in_month_le_31 y m : _days_in_month y m ≤ 31.
Proof.
  unfold _days_in_month. destruct (_ && _); [lia|].
  unfold _DAYS_IN_MONTH. repeat case_match; lia.
Qed.

Lemma check_ciclo_sound :
  check_ciclo = true →
  ∀ y m d, 1 ≤ y ≤ 400 → 1 ≤ m ≤ 12 → 1 ≤ d ≤ _days_in_month y m →
  _ord2ymd (_ymd2ord y m d - 1) = dia_anterior y m d.
Proof.
  unfold check_ciclo. intros C y m d Hy Hm Hd.
  pose proof (days_in_month_le_31 y m).
  rewrite forallb_forall in C. specialize (C y (In_Zrange 1 400 y ltac:(lia))).
  rewrite forallb_forall in C. specialize (C m (In_Zrange 1 12 m ltac:(lia))).
  rewrite forallb_forall in C. specialize (C d (In_Zrange 1 31 d ltac:(lia))).
  unfold check_dia in C. apply orb_true_iff in C as [C|C].
  - apply Z.ltb_lt in C. lia.
  - by apply ymd_eqb_eq.
Qed.

(** Within the first 400 years, by running every day of the cycle. *)
Lemma ciclo_base y m d :
  1 ≤ y ≤ 400 → 1 ≤ m ≤ 12 → 1 ≤ d ≤ _days_in_month y m →
  _ord2ymd (_ymd2ord y m d - 1) = dia_anterior y m d.
Proof. apply check_ciclo_sound, check_ciclo_ok. Qed.

(** The calendar repeats every 400 years, that is every 146097 days. *)
Lemma is_leap_period y : _is_leap (y + 400) = _is_leap y.
Proof.
  unfold _is_leap.
  replace (y + 400) with (y + 100 * 4) at 1 by lia.
  replace (y + 400) with (y + 4 * 100) at 1 by lia.
  replace (y + 400) with (y + 1 * 400) by lia.
  by rewrite !Z.mod_add.
Qed.

Lemma days_before_year_period y :
  _days_before_year (y + 400) = _days_before_year y + _DI400Y.
Proof.
  unfold _days_before_year, _DI400Y.
  replace (y + 400 - 1) with (y - 1 + 400) by lia.
  replace ((y - 1 + 400) / 4) with ((y - 1) / 4 + 100)
    by (replace (y - 1 + 400) with (y - 1 + 100 * 4) by lia; by rewrite Z.div_add).
  replace ((y - 1 + 400) / 100) with ((y - 1) / 100 + 4)
    by (replace (y - 1 + 400) with (y - 1 + 4 * 100) by lia; by rewrite Z.div_add).
  replace ((y - 1 + 400) / 400) with ((y - 1) / 400 + 1)
    by (replace (y - 1 + 400) with (y - 1 + 1 * 400) by lia; by rewrite Z.div_add).
  lia.
Qed.

Lemma days_in_month_period y m : _days_in_month (y + 400) m = _days_in_month y m.
Proof. unfold _days_in_month. by rewrite is_leap_period. Qed.

Lemma ymd2ord_period y m d : _ymd2ord (y + 400) m d = _ymd2ord y m d + _DI400Y.
Proof.
  unfold _ymd2ord, _days_before_month.
  rewrite days_before_year_period, is_leap_period. lia.
Qed.

Lemma ord2ymd_period n : _ord2ymd (n + _DI400Y) = shift_year 400 (_ord2ymd n).
Proof.
  unfold _ord2ymd.
  replace (n + _DI400Y - 1) with (n - 1 + 1 * _DI400Y) by lia.
  rewrite Z.div_add, Z.mod_add by (unfold _DI400Y; lia).
  set (r := (n - 1) `mod` _DI400Y).
  set (q := (n - 1) `div` _DI400Y).
  cbv zeta.
  repeat match goal with |- context [if ?b then _ else _] => destruct b end;
    cbn; f_equal; f_equal; lia.
Qed.

Lemma dia_anterior_period y m d :
  dia_anterior (y + 400) m d = shift_year 400 (dia_anterior y m d).
Proof.
  unfold dia_anterior. rewrite days_in_month_period.
  repeat case_match; cbn; f_equal; f_equal; lia.
Qed.

Lemma ord2ymd_pred_ciclos (k : nat) y m d :
  1 ≤ y ≤ 400 → 1 ≤ m ≤ 12 → 1 ≤ d ≤ _days_in_month y m →
  _ord2ymd (_ymd2ord (y + 400 * Z.of_nat k) m d - 1)
  = dia_anterior (y + 400 * Z.of_nat k) m d.
Proof.
  intros Hy Hm Hd. induction k as [|k IH].
  - rewrite Z.mul_0_r, Z.add_0_r. by apply ciclo_base.
  - replace (y + 400 * Z.of_nat (S k)) with (y + 400 * Z.of_nat k + 400) by lia.
    rewrite ymd2ord_period, dia_anterior_period, <- IH.
    rewrite <- ord2ymd_period. f_equal. lia.
Qed.

(** Python's ordinal arithmetic steps back one calendar day. *)
Lemma ord2ymd_pred y m d :
  1 ≤ y → 1 ≤ m ≤ 12 → 1 ≤ d ≤ _days_in_month y m →
  _ord2ymd (_ymd2ord y m d - 1) = dia_anterior y m d.
Proof.
  intros Hy Hm Hd.
  pose proof (Z.div_mod (y - 1) 400 ltac:(lia)) as E.
  pose proof (Z.mod_pos_bound (y - 1) 400 ltac:(lia)) as B.
  assert (0 ≤ (y - 1) / 400) by (apply Z.div_pos; lia).
  set (y0 := (y - 1) mod 400 + 1).
  set (k := Z.to_nat ((y - 1) / 400)).
  assert (Ey : y = y0 + 400 * Z.of_nat k) by (unfold y0, k; lia).
  assert (Hd0 : 1 ≤ d ≤ _days_in_month y0 m).
  { clear -Hd Ey. rewrite Ey in Hd. clear Ey. induction k as [|k IH].
    - by rewrite Z.mul_0_r, Z.add_0_r in Hd.
    - apply IH.
      replace (y0 + 400 * Z.of_nat (S k))
        with (y0 + 400 * Z.of_nat k + 400) in Hd by lia.
      by rewrite days_in_month_period in Hd. }
  rewrite Ey. apply ord2ymd_pred_ciclos; [unfold y0; lia|done|done].
Qed.

Lemma decimal_pad4_all : forallb check_year (Zrange 1000 9000) = true.
Proof. vm_compute. reflexivity. Qed.

(** From year 1000 on [%Y] prints four digits. *)
Lemma decimal_pad4 y : 1000 ≤ y ≤ 9999 → decimal y = pad4 y.
Proof.
  intros Hy. pose proof decimal_pad4_all as C.
  rewrite forallb_forall in C.
  specialize (C y (In_Zrange 1000 9000 y ltac:(lia))).
  by apply String.eqb_eq in C.
Qed.

Lemma days_before_month_bound y m :
  1 ≤ m ≤ 12 → 0 ≤ _days_before_month y m ∧
  _days_before_month y m + _days_in_month y m ≤ 365 + b2z (_is_leap y).
Proof.
  intros Hm. unfold _days_before_month, _days_in_month.
  assert (Hc : m = 1 ∨ m = 2 ∨ m = 3 ∨ m = 4 ∨ m = 5 ∨ m = 6 ∨ m = 7 ∨ m = 8
               ∨ m = 9 ∨ m = 10 ∨ m = 11 ∨ m = 12) by lia.
  destruct (_is_leap y);
    repeat (destruct Hc as [->|Hc]; [cbn; lia|]); subst; cbn; lia.
Qed.

Lemma days_before_year_succ y :
  _days_before_year (y + 1) = _days_before_year y + 365 + b2z (_is_leap y).
Proof.
  unfold _days_before_year, _is_leap, b2z.
  replace (y + 1 - 1) with y by lia.
  repeat match goal with |- context [?a =? ?b] => destruct (Z.eqb_spec a b) end;
    cbn [andb orb negb]; Z.div_mod_to_equations; lia.
Qed.

Lemma days_before_year_nonneg y : 1 ≤ y → 0 ≤ _days_before_year y.
Proof. intros Hy. unfold _days_before_year. Z.div_mod_to_equations. lia. Qed.

(** Valid dates have ordinals between 1 and [_MAXORDINAL]. *)
Lemma ymd2ord_range y m d :
  fecha_valida y m d → 1 ≤ _ymd2ord y m d ≤ _MAXORDINAL.
Proof.
  intros (Hy & Hm & Hd). unfold _ymd2ord.
  pose proof (days_before_month_bound y m Hm) as [B1 B2].
  pose proof (days_before_year_succ y) as S.
  pose proof (days_before_year_nonneg y ltac:(lia)).
  assert (_days_before_year (y + 1) ≤ _MAXORDINAL)
    by (unfold _days_before_year, _MAXORDINAL; Z.div_mod_to_equations; lia).
  lia.
Qed.

(** Ordinal 1 is the first of January of year 1. *)
Lemma ymd2ord_first y m d :
  fecha_valida y m d → _ymd2ord y m d = 1 → (y, m, d) = (1, 1, 1).
Proof.
  intros (Hy & Hm & Hd) E. unfold _ymd2ord in E.
  pose proof (days_before_month_bound y m Hm) as [B1 B2].
  pose proof (days_before_year_nonneg y ltac:(lia)).
  assert (d = 1) by lia. assert (_days_before_year y = 0) by lia.
  assert (_days_before_month y m = 0) by lia.
  assert (y = 1) by (unfold _days_before_year in *; Z.div_mod_to_equations; lia).
  assert (m = 1).
  { unfold _days_before_month in *.
    assert (Hc : m = 1 ∨ m = 2 ∨ m = 3 ∨ m = 4 ∨ m = 5 ∨ m = 6 ∨ m = 7 ∨ m = 8
               ∨ m = 9 ∨ m = 10 ∨ m = 11 ∨ m = 12) by lia.
    repeat (destruct Hc as [->|Hc];
            [first [done | (exfalso; cbn in *; destruct (_is_leap _); cbn in *; lia)]|]).
    subst. exfalso; cbn in *; destruct (_is_leap _); cbn in *; lia. }
  congruence.
Qed.

(** Claim C7.  For a current date [now] (a valid date of the proleptic
    Gregorian calendar whose previous day has a four-digit year), the
    business date is the calendar day before it, printed as DD/MM/YYYY.
    The month boundary 01/03/2024 -> 29/02/2024 and the year boundary
    01/01/2025 -> 31/12/2024 are its instances [calcular_fecha_ayer_ejemplos]. *)
Theorem calcular_fecha_ayer_correct (now : datetime) :
  fecha_valida (year now) (month now) (day now) →
  1000 ≤ (dia_anterior (year now) (month now) (day now)).1.1 →
  calcular_fecha_ayer now
  = Ok (formato_DDMMYYYY (dia_anterior (year now) (month now) (day now))).
Proof.
  destruct now as [y m d h mi s us]; cbn [year month day].
  intros V Hy. unfold calcular_fecha_ayer, sub_days, toordinal.
  cbn [year month day hour minute second microsecond].
  pose proof (ymd2ord_range _ _ _ V) as R.
  assert (_ymd2ord y m d ≠ 1).
  { intros E. apply ymd2ord_first in E; [|done]. inversion E; subst.
    cbn in Hy. lia. }
  destruct V as (Vy & Vm & Vd).
  rewrite ord2ymd_pred by (done || lia).
  replace (0 <? _ymd2ord y m d - 1) with true by (symmetry; apply Z.ltb_lt; lia).
  replace (_ymd2ord y m d - 1 <=? _MAXORDINAL) with true
    by (symmetry; apply Z.leb_le; lia).
  cbn [andb]. destruct (dia_anterior y m d) as [[y' m'] d'] eqn:E.
  cbn [rbind fst] in *. unfold strftime_dmY, formato_DDMMYYYY.
  cbn [year month day]. rewrite decimal_pad4; [done|].
  split; [done|]. unfold dia_anterior in E. repeat case_match; simplify_eq; lia.
Qed.

Lemma calcular_fecha_ayer_ejemplos :
  calcular_fecha_ayer (mkDatetime 2024 3 1 7 30 0 0) = Ok "29/02/2024"%string ∧
  calcular_fecha_ayer (mkDatetime 2025 1 1 0 0 0 0) = Ok "31/12/2024"%string.
Proof.
  split.
  - apply (calcular_fecha_ayer_correct (mkDatetime 2024 3 1 7 30 0 0)).
    + unfold fecha_valida. cbn. lia.
    + cbn. lia.
  - apply (calcular_fecha_ayer_correct (mkDatetime 2025 1 1 0 0 0 0)).
    + unfold fecha_valida. cbn. lia.
    + cbn. lia.
Defined.

End FechaCorrecta.

(* ===================================================================== *)
(** * Properties of the download watcher                                  *)
(* ===================================================================== *)

Section DescargaCorrecta.
Import Descarga.

Lemma Qltb_lt x y : Qltb x y = true ↔ (x < y)%Q.
Proof.
  unfold Qltb. rewrite negb_true_iff. split.
  - intros H. apply Qnot_le_lt. intros Hle. apply Qle_bool_iff in Hle. congruence.
  - intros H. destruct (Qle_bool y x) eqn:Hb; [|done].
    apply Qle_bool_iff in Hb. exfalso. by apply (Qlt_not_le x y).
Qed.


Lemma filter_ninguno {A} (p : A → bool) (l : list A) :
  (∀ x, In x l → p x = false) → List.filter p l = [].
Proof.
  induction l as [|x l IH]; intros H; [done|]. cbn.
  rewrite (H x) by (by left). apply IH. intros y Hy. apply H. by right.
Qed.


Section Bucle.
Variable E : enumeracion.
Variable previos : gset string.
Variable timeout : Q.








End Bucle.


Lemma intervalo_n_tope k : intervalo_n (5 + k) = 6%Q.
Proof.
  induction k as [|k IH]; [done|].
  replace (5 + S k)%nat with (S (5 + k)) by lia.
  cbn [intervalo_n]. by rewrite IH.
Qed.

(** The loop only ever computes six intervals, all of them exact in
    binary floating point: 1, 1.5, 2.25, 3.375, 5.0625 and 6. *)
Lemma intervalo_n_valores k :
  intervalo_n k ∈ [1; 1 * (3 # 2); 1 * (3 # 2) * (3 # 2);
                   1 * (3 # 2) * (3 # 2) * (3 # 2);
                   1 * (3 # 2) * (3 # 2) * (3 # 2) * (3 # 2); 6]%Q.
Proof.
  do 5 (destruct k as [|k];
        [vm_compute;
         repeat first [apply list_elem_of_here | apply list_elem_of_further]|]).
  change (S (S (S (S (S k))))) with (5 + k)%nat.
  rewrite intervalo_n_tope.
  repeat first [apply list_elem_of_here | apply list_elem_of_further].
Qed.




(** A set with one member is listed with that member first. *)
Lemma enumeracion_singleton (E : enumeracion) (f : string) :
  (∃ l, E {[f]} = f :: l) ∧ ∀ x, In x (E {[f]}) → x = f.
Proof.
  assert (Hall : ∀ x, In x (E {[f]}) → x = f).
  { intros x Hx. apply list_elem_of_In, (listar_ok E) in Hx.
    by apply elem_of_singleton in Hx. }
  split; [|done].
  destruct (E {[f]}) as [|x l] eqn:Hl.
  - assert (H : f ∈ E {[f]}) by (apply (listar_ok E); by apply elem_of_singleton).
    rewrite Hl in H. by apply elem_of_nil in H.
  - rewrite (Hall x) by (by left). eauto.
Qed.

(** Claim C2, on the code.  With an empty baseline and a directory that
    holds nothing but [reporte.csv.crdownload] for the whole wait, the
    watcher times out and the single recheck of [descargar_reporte], which
    does not filter suffixes, reports the partial file as the download. *)
Theorem paso4_reporta_descarga_parcial (E : enumeracion) :
  paso4_esperar_descarga E ∅
    [quieto 0 dir_solo_parcial; quieto 20 dir_solo_parcial]
    dir_solo_parcial
  = Some (Ok "reporte.csv.crdownload"%string) ∧
  es_parcial "reporte.csv.crdownload" = true.
Proof.
  split; [|reflexivity].
  unfold paso4_esperar_descarga, esperar_descarga_completa.
  assert (Hs : obtener_archivos_en_directorio dir_solo_parcial ∖ ∅
               = {["reporte.csv.crdownload"%string]}).
  { cbn. rewrite dom_singleton_L. apply difference_empty_L. }
  destruct (enumeracion_singleton E "reporte.csv.crdownload") as [[l Hl] Hall].
  unfold quieto. cbn [bucle_espera transcurrido dir].
  change (Qltb 0 DOWNLOAD_TIMEOUT) with true.
  change (Qltb 20 DOWNLOAD_TIMEOUT) with false.
  cbv iota. rewrite Hs.
  rewrite filter_ninguno by (by intros x ->%Hall).
  by rewrite Hl.
Qed.

End DescargaCorrecta.

(* ===================================================================== *)
(** * Properties of the time conversion                                   *)
(* ===================================================================== *)

Section TransformacionCorrecta.
Import Transformacion.

Variable py_float : string → option flotante.

Lemma py_int_lanza s e : py_int s = Raise e → e = Exc ValueError.
Proof.
  unfold py_int. repeat case_match; congruence.
Qed.

(** [int] passes over blanks at both ends, but not over the separators 28
    to 31, which [str.strip] removes: on a part that ends in one it raises
    [ValueError]. *)
Lemma py_int_separador :
  py_int " 12 " = Ok 12 ∧
  py_int (String "1" (String (ascii_of_nat 28) "")) = Raise (Exc ValueError) ∧
  strip (String "1" (String (ascii_of_nat 28) "")) = "1"%string.
Proof. by vm_compute. Qed.

Lemma int_a_float_lanza n e : int_a_float n = Raise e → e = Exc OverflowError.
Proof. unfold int_a_float. destruct (es_infinito _); congruence. Qed.

Lemma int_truediv_60_lanza s e :
  int_truediv s 60 = Raise e → e = Exc OverflowError.
Proof. unfold int_truediv. cbn. destruct (es_infinito _); congruence. Qed.

Lemma float_de_cadena_lanza s e :
  float_de_cadena py_float s = Raise e → e = Exc ValueError.
Proof. unfold float_de_cadena. destruct (py_float s); congruence. Qed.

(** Null values and the four placeholders give 0.0. *)
Lemma convertir_tiempo_a_minutos_vacio v :
  isna v = true ∨ strip (str v) ∈ vacios →
  convertir_tiempo_a_minutos py_float v = Ok cero.
Proof.
  intros H. unfold convertir_tiempo_a_minutos.
  destruct H as [->|H]; [done|].
  rewrite (bool_decide_eq_true_2 _ H). by rewrite orb_true_r.
Qed.

(** Without a colon the value is whatever [float] makes of the trimmed
    text, and 0.0 when [float] rejects it. *)
Lemma convertir_tiempo_a_minutos_numero v :
  isna v = false → strip (str v) ∉ vacios →
  contiene_caracter ":" (strip (str v)) = false →
  convertir_tiempo_a_minutos py_float v
  = Ok (default cero (py_float (strip (str v)))).
Proof.
  intros Hna Hv Hc. unfold convertir_tiempo_a_minutos.
  rewrite Hna, (bool_decide_eq_false_2 _ Hv), Hc. cbn.
  unfold float_de_cadena. by destruct (py_float _).
Qed.

Lemma split_sin_separador sep s :
  contiene_caracter sep s = false → split sep s = [s].
Proof.
  induction s as [|c s IH]; [done|]. cbn.
  destruct (Ascii.eqb c sep); [done|]. cbn. intros H. by rewrite (IH H).
Qed.

(** What the function catches does not come out of the integer
    arithmetic. *)
Lemma rcatch_aritmetica h m s :
  rcatch (rbind (int_truediv s 60) (λ s60, int_mas_float (h * 60 + m) s60))
    ValueError_o_TypeError (Ok cero)
  = rbind (int_truediv s 60) (λ s60, int_mas_float (h * 60 + m) s60).
Proof.
  destruct (int_truediv s 60) as [s60|x] eqn:H4; cbn [rbind].
  2:{ by apply int_truediv_60_lanza in H4 as ->. }
  unfold int_mas_float.
  destruct (int_a_float (h * 60 + m)) as [f|x] eqn:H5; cbn [rbind]; [done|].
  by apply int_a_float_lanza in H5 as ->.
Qed.

(** Three integer parts [h:m:s]: the value is [h * 60 + m + s / 60] in
    floating point, whenever the integers are within the range of
    [float]. *)
Lemma convertir_tiempo_a_minutos_tres_partes v p1 p2 p3 h m s :
  isna v = false → strip (str v) ∉ vacios →
  split ":" (strip (str v)) = [p1; p2; p3] →
  py_int p1 = Ok h → py_int p2 = Ok m → py_int p3 = Ok s →
  convertir_tiempo_a_minutos py_float v
  = rbind (int_truediv s 60) (λ s60, int_mas_float (h * 60 + m) s60).
Proof.
  intros Hna Hv Hs H1 H2 H3. unfold convertir_tiempo_a_minutos.
  rewrite Hna, (bool_decide_eq_false_2 _ Hv). cbn [orb].
  destruct (contiene_caracter ":" (strip (str v))) eqn:Hc.
  2:{ apply split_sin_separador in Hc. congruence. }
  cbv zeta. rewrite Hs, H1, H2, H3. cbn [rbind]. apply rcatch_aritmetica.
Qed.

(** Two integer parts [h:m]: the value is [h * 60 + m]. *)
Lemma convertir_tiempo_a_minutos_dos_partes v p1 p2 h m :
  isna v = false → strip (str v) ∉ vacios →
  split ":" (strip (str v)) = [p1; p2] →
  py_int p1 = Ok h → py_int p2 = Ok m →
  convertir_tiempo_a_minutos py_float v = int_a_float (h * 60 + m).
Proof.
  intros Hna Hv Hs H1 H2. unfold convertir_tiempo_a_minutos.
  rewrite Hna, (bool_decide_eq_false_2 _ Hv). cbn [orb].
  destruct (contiene_caracter ":" (strip (str v))) eqn:Hc.
  2:{ apply split_sin_separador in Hc. congruence. }
  cbv zeta. rewrite Hs, H1, H2. cbn [rbind].
  destruct (int_a_float (h * 60 + m)) as [f|x] eqn:H5; [done|].
  by apply int_a_float_lanza in H5 as ->.
Qed.

(** A part that is not an integer makes the whole value 0.0. *)
Lemma convertir_tiempo_a_minutos_parte_invalida v p1 p2 p3 :
  isna v = false → strip (str v) ∉ vacios →
  split ":" (strip (str v)) = [p1; p2; p3] →
  py_int p1 = Raise (Exc ValueError) →
  convertir_tiempo_a_minutos py_float v = Ok cero.
Proof.
  intros Hna Hv Hs H1. unfold convertir_tiempo_a_minutos.
  rewrite Hna, (bool_decide_eq_false_2 _ Hv). cbn [orb].
  destruct (contiene_caracter ":" (strip (str v))) eqn:Hc.
  2:{ apply split_sin_separador in Hc. congruence. }
  cbv zeta. by rewrite Hs, H1.
Qed.

(** [ValueError] never leaves the function: what escapes is
    [OverflowError], from the conversion of an integer to [float]. *)
Lemma convertir_tiempo_a_minutos_lanza v e :
  convertir_tiempo_a_minutos py_float v = Raise e → e = Exc OverflowError.
Proof.
  unfold convertir_tiempo_a_minutos.
  destruct (isna v || _); [congruence|].
  set (valor_str := strip (str v)).
  destruct (contiene_caracter ":" valor_str).
  2:{ destruct (float_de_cadena py_float valor_str) as [f|x] eqn:Hf; cbn [rbind rcatch ValueError_o_TypeError].
      - congruence.
      - apply float_de_cadena_lanza in Hf as ->. cbn [rbind rcatch ValueError_o_TypeError]. congruence. }
  destruct (split ":" valor_str) as [|p1 [|p2 [|p3 [|p4 ps]]]].
  1,2,5:
    (destruct (float_de_cadena py_float valor_str) as [f|x] eqn:Hf; cbn [rbind rcatch ValueError_o_TypeError];
     [congruence|apply float_de_cadena_lanza in Hf as ->; cbn [rbind rcatch ValueError_o_TypeError]; congruence]).
  - destruct (py_int p1) as [h|x] eqn:H1; cbn [rbind rcatch ValueError_o_TypeError].
    2:{ apply py_int_lanza in H1 as ->. cbn [rbind rcatch ValueError_o_TypeError]. congruence. }
    destruct (py_int p2) as [m|x] eqn:H2; cbn [rbind rcatch ValueError_o_TypeError].
    2:{ apply py_int_lanza in H2 as ->. cbn [rbind rcatch ValueError_o_TypeError]. congruence. }
    destruct (int_a_float (h * 60 + m)) as [f|x] eqn:H3; cbn [rbind rcatch ValueError_o_TypeError]; [congruence|].
    apply int_a_float_lanza in H3 as ->. cbn [rbind rcatch ValueError_o_TypeError]. congruence.
  - destruct (py_int p1) as [h|x] eqn:H1; cbn [rbind rcatch ValueError_o_TypeError].
    2:{ apply py_int_lanza in H1 as ->. cbn [rbind rcatch ValueError_o_TypeError]. congruence. }
    destruct (py_int p2) as [m|x] eqn:H2; cbn [rbind rcatch ValueError_o_TypeError].
    2:{ apply py_int_lanza in H2 as ->. cbn [rbind rcatch ValueError_o_TypeError]. congruence. }
    destruct (py_int p3) as [s|x] eqn:H3; cbn [rbind rcatch ValueError_o_TypeError].
    2:{ apply py_int_lanza in H3 as ->. cbn [rbind rcatch ValueError_o_TypeError]. congruence. }
    destruct (int_truediv s 60) as [s60|x] eqn:H4; cbn [rbind rcatch ValueError_o_TypeError].
    2:{ apply int_truediv_60_lanza in H4 as ->. cbn [rbind rcatch ValueError_o_TypeError]. congruence. }
    unfold int_mas_float.
    destruct (int_a_float (h * 60 + m)) as [f|x] eqn:H5; cbn [rbind rcatch ValueError_o_TypeError]; [congruence|].
    apply int_a_float_lanza in H5 as ->. cbn [rbind rcatch ValueError_o_TypeError]. congruence.
Qed.

(** Claim C10, on the code.  On the text made of 1, four hundred zeros
    and [:0:0] the three parts are integers, [h * 60 + m] is too large
    for a [float], and the [OverflowError] of the addition is not among
    the exceptions the function catches: it raises. *)
Theorem convertir_tiempo_a_minutos_desborda :
  convertir_tiempo_a_minutos py_float (cadena horas_enormes)
  = Raise (Exc OverflowError).
Proof. vm_compute. reflexivity. Qed.

(** One hour, thirty minutes and thirty seconds are 90.5 minutes; two
    hours and a half are 150. *)
Example convertir_tiempo_a_minutos_HMS :
  convertir_tiempo_a_minutos py_float (cadena "01:30:30")
  = Ok (S754_finite false 6368371348078592 (-46)) ∧
  convertir_tiempo_a_minutos py_float (cadena " 2:30 ")
  = Ok (S754_finite false 5277655813324800 (-45)) ∧
  convertir_tiempo_a_minutos py_float (cadena "1:xx") = Ok cero ∧
  convertir_tiempo_a_minutos py_float (cadena "1:2:3:4")
  = Ok (default cero (py_float "1:2:3:4")).
Proof.
  split_and!; try (vm_compute; reflexivity).
  unfold convertir_tiempo_a_minutos, float_de_cadena. cbn.
  by destruct (py_float _).
Qed.

End TransformacionCorrecta.

(* ===================================================================== *)
(** * Reasoning about programs                                            *)
(* ===================================================================== *)

Import Selenium.
Local Open Scope py_scope.

Section Logica.
Context {W : Type}.

Lemma bind_anotar {B} ev (k : unit → M W B) m :
  bind (anotar ev) k m = k tt (mkMundo (estado m) (traza m ++ [ev])).
Proof. reflexivity. Qed.

Lemma bind_ok {A B} (p : M W A) (k : A → M W B) m a m' :
  p m = (Ok a, m') → bind p k m = k a m'.
Proof. intros H. unfold bind. by rewrite H. Qed.

Lemma bind_raise {A B} (p : M W A) (k : A → M W B) m e m' :
  p m = (Raise e, m') → bind p k m = (Raise e, m').
Proof. intros H. unfold bind. by rewrite H. Qed.

Lemma solo_ret {A} (a : A) : solo_Exception (@ret W A a).
Proof. intros m c m'. unfold ret. congruence. Qed.

Lemma solo_anotar ev : solo_Exception (@anotar W ev).
Proof. intros m c m'. unfold anotar. congruence. Qed.

Lemma solo_lanzar {A} (e : excepcion) : solo_Exception (@lanzar W A (Exc e)).
Proof. intros m c m'. unfold lanzar. congruence. Qed.

Lemma solo_llamar (D : driver W) c : solo_Exception (llamar D c).
Proof.
  intros m k m'. unfold llamar.
  destruct (D c (estado m)) as [[e|v] w]; congruence.
Qed.

Lemma solo_bind {A B} (p : M W A) (k : A → M W B) :
  solo_Exception p → (∀ a, solo_Exception (k a)) → solo_Exception (bind p k).
Proof.
  intros Hp Hk m c m'. unfold bind.
  destruct (p m) as [[a|e] m1] eqn:E.
  - apply Hk.
  - intros [= -> ->]. by apply Hp in E.
Qed.

Lemma solo_try_except {A} (p : M W A) clase h :
  solo_Exception p → (∀ e, solo_Exception (h e)) →
  solo_Exception (try_except p clase h).
Proof.
  intros Hp Hh m c m'. unfold try_except.
  destruct (p m) as [[a|[e|k]] m1] eqn:E.
  - congruence.
  - destruct (clase e); [apply Hh|congruence].
  - by apply Hp in E.
Qed.

Lemma solo_try_except2 {A} (p : M W A) c1 h1 c2 h2 :
  solo_Exception p → (∀ e, solo_Exception (h1 e)) →
  (∀ e, solo_Exception (h2 e)) →
  solo_Exception (try_except2 p c1 h1 c2 h2).
Proof.
  intros Hp H1 H2 m c m'. unfold try_except2.
  destruct (p m) as [[a|[e|k]] m1] eqn:E.
  - congruence.
  - destruct (c1 e); [apply H1|]. destruct (c2 e); [apply H2|congruence].
  - by apply Hp in E.
Qed.

Lemma solo_if {A} (b : bool) (p q : M W A) :
  solo_Exception p → solo_Exception q → solo_Exception (if b then p else q).
Proof. by destruct b. Qed.

Lemma no_lanza_ret {A} (a : A) : no_lanza (@ret W A a).
Proof. intros m. unfold ret. eauto. Qed.

Lemma no_lanza_anotar ev : no_lanza (@anotar W ev).
Proof. intros m. unfold anotar. eauto. Qed.

Lemma no_lanza_bind {A B} (p : M W A) (k : A → M W B) :
  no_lanza p → (∀ a, no_lanza (k a)) → no_lanza (bind p k).
Proof.
  intros Hp Hk m. unfold bind. destruct (Hp m) as (a & m1 & ->). apply Hk.
Qed.

(** [try: p  except Exception: h] returns whenever [h] does. *)
Lemma no_lanza_try_except {A} (p : M W A) h :
  solo_Exception p → (∀ e, no_lanza (h e)) →
  no_lanza (try_except p Exception h).
Proof.
  intros Hp Hh m. unfold try_except.
  destruct (p m) as [[a|[e|k]] m1] eqn:E.
  - eauto.
  - cbn. apply Hh.
  - by apply Hp in E.
Qed.

Lemma no_lanza_try_except2 {A} (p : M W A) c1 h1 h2 :
  solo_Exception p → (∀ e, no_lanza (h1 e)) → (∀ e, no_lanza (h2 e)) →
  no_lanza (try_except2 p c1 h1 Exception h2).
Proof.
  intros Hp H1 H2 m. unfold try_except2.
  destruct (p m) as [[a|[e|k]] m1] eqn:E.
  - eauto.
  - destruct (c1 e); [apply H1|]. cbn. apply H2.
  - by apply Hp in E.
Qed.

Lemma no_lanza_if {A} (b : bool) (p q : M W A) :
  no_lanza p → no_lanza q → no_lanza (if b then p else q).
Proof. by destruct b. Qed.

Lemma no_lanza_solo {A} (p : M W A) : no_lanza p → solo_Exception p.
Proof. intros H m c m' E. destruct (H m) as (a & m1 & E1). congruence. Qed.

End Logica.

Create HintDb py discriminated.
#[export] Hint Resolve solo_ret solo_anotar solo_lanzar solo_llamar
  no_lanza_ret no_lanza_anotar no_lanza_solo : py.

(** Syntax-directed proof that a program raises only [Exception]s. *)
Ltac paso_solo :=
  lazymatch goal with
  | |- solo_Exception (bind _ _) =>
      apply solo_bind;
      [|let a := fresh "a" in intros a; cbv beta; try (cbn [respuesta] in a)]
  | |- solo_Exception (try_except _ _ _) =>
      apply solo_try_except; [|intros ?; cbv beta]
  | |- solo_Exception (try_except2 _ _ _ _ _) =>
      apply solo_try_except2; [|intros ?; cbv beta|intros ?; cbv beta]
  | |- solo_Exception (if _ then _ else _) => apply solo_if
  | |- solo_Exception (match ?x with _ => _ end) => destruct x
  | |- solo_Exception (llamar ?D ?c) => exact (solo_llamar D c)
  | |- solo_Exception (ret _) => apply solo_ret
  | |- solo_Exception (lanzar (Exc _)) => apply solo_lanzar
  | |- solo_Exception (sleep _) => apply solo_anotar
  | |- solo_Exception (logger _ _) => apply solo_anotar
  | |- solo_Exception (logger_exc _ _ _) => apply solo_anotar
  | |- solo_Exception _ => solve [auto with py]
  end.
Ltac solo := repeat paso_solo.

(** Syntax-directed proof that a program always returns. *)
Ltac paso_no_lanza :=
  lazymatch goal with
  | |- no_lanza (bind _ _) =>
      apply no_lanza_bind;
      [|let a := fresh "a" in intros a; cbv beta; try (cbn [respuesta] in a)]
  | |- no_lanza (try_except _ Exception _) =>
      apply no_lanza_try_except; [solo|intros ?; cbv beta]
  | |- no_lanza (try_except2 _ _ _ Exception _) =>
      apply no_lanza_try_except2; [solo|intros ?; cbv beta|intros ?; cbv beta]
  | |- no_lanza (if _ then _ else _) => apply no_lanza_if
  | |- no_lanza (ret _) => apply no_lanza_ret
  | |- no_lanza (sleep _) => apply no_lanza_anotar
  | |- no_lanza (logger _ _) => apply no_lanza_anotar
  | |- no_lanza (logger_exc _ _ _) => apply no_lanza_anotar
  | |- no_lanza _ => solve [auto with py]
  end.
Ltac no_lanza := repeat paso_no_lanza.

(** Membership in a trace written out in full. *)
Ltac busca :=
  repeat first [apply list_elem_of_here | apply list_elem_of_further].

Ltac inv_elem :=
  repeat match goal with
  | H : _ ∈ [] |- _ => by apply elem_of_nil in H
  | H : _ ∈ _ :: _ |- _ =>
      apply elem_of_cons in H as [H|H];
      [try discriminate H; try (injection H as ?; subst)|]
  end.

(* ===================================================================== *)
(** * Properties of the report selector                                   *)
(* ===================================================================== *)

Lemma js_val_eqb_OK_GRID v :
  js_val_eqb v "OK" = true → js_val_eqb v "GRID_NOT_FOUND" = true → False.
Proof.
  destruct v as [|s]; [done|]. cbn. intros ->%String.eqb_eq. done.
Qed.

Section Seleccionar.
Context {W : Type}.
Variable D : driver W.

(** Claim C9.  The selector always returns a boolean, and the first thing
    it does is run the grid script, on the page as it finds it.  What
    follows depends on the answer of the script.  On OK it returns true,
    and on GRID_NOT_FOUND it returns false: in both cases the script is the
    only call, so the fallback is not attempted.  It also returns false
    without a fallback when the script call raises.  On any other answer,
    ID_NOT_FOUND among them, the next call is the DOM search for the row:
    if the search finds it, the click script is run on it and is the last
    call, and the selector returns true exactly when the search found the
    row and the click went through.  So the selector returns true exactly
    when one of the two strategies succeeded, and false only if both
    failed or the fallback was not attempted. *)
Theorem seleccionar_fila_reporte_estrategias (reporte_id : string)
    (m : mundo W) :
  ∃ b m' evs,
    seleccionar_fila_reporte D reporte_id m = (Ok b, m') ∧
    traza m' = traza m ++ evs ∧
    (∃ q resto,
       evs !! 1%nat = Some (EvLlamada (api_grid reporte_id) q) ∧
       q = a_valor_res (api_grid reporte_id)
             (D (api_grid reporte_id) (estado m)).1 ∧
       llamadas evs = api_grid reporte_id :: resto) ∧
    (b = true ↔ exito_api reporte_id evs ∨ exito_dom reporte_id evs) ∧
    (∀ w1,
       D (api_grid reporte_id) (estado m) = (inr (JsTexto "OK"), w1) →
       b = true ∧ llamadas evs = [api_grid reporte_id]) ∧
    (∀ w1,
       D (api_grid reporte_id) (estado m)
       = (inr (JsTexto "GRID_NOT_FOUND"), w1) →
       b = false ∧ llamadas evs = [api_grid reporte_id]) ∧
    (∀ e w1,
       D (api_grid reporte_id) (estado m) = (inl e, w1) →
       b = false ∧ llamadas evs = [api_grid reporte_id]) ∧
    (∀ v w1,
       D (api_grid reporte_id) (estado m) = (inr v, w1) →
       js_val_eqb v "OK" = false → js_val_eqb v "GRID_NOT_FOUND" = false →
       (b = true ↔
        ∃ fila w2 v' w3,
          D (busqueda_dom reporte_id) w1 = (inr fila, w2) ∧
          D (clic_js fila) w2 = (inr v', w3)) ∧
       (∀ e w2,
          D (busqueda_dom reporte_id) w1 = (inl e, w2) →
          llamadas evs = [api_grid reporte_id; busqueda_dom reporte_id]) ∧
       (∀ fila w2,
          D (busqueda_dom reporte_id) w1 = (inr fila, w2) →
          llamadas evs = [api_grid reporte_id; busqueda_dom reporte_id;
                          clic_js fila])).
Proof.
  unfold exito_api, exito_dom, respuesta_api, api_grid, busqueda_dom, clic_js.
  unfold seleccionar_fila_reporte, try_except, bind, llamar, logger, logger_exc,
    sleep, anotar, ret.
  destruct m as [w t]. cbn.
  destruct (D (CExecuteScript (JsSeleccionarFila reporte_id) []) w)
    as [[e|v] w1] eqn:H1; cbn.
  { do 3 eexists. split; [done|]. rewrite <- !app_assoc. split; [done|]. cbn.
    split_and!.
    - by eexists _, _.
    - split; [done|]. intros [(v & Hv & _)|(f & v & Hf & _)]; inv_elem.
    - intros ? [=].
    - intros ? [=].
    - done.
    - intros ? ? [=]. }
  destruct (js_val_eqb v "OK") eqn:Hok; cbn.
  { do 3 eexists. split; [done|]. rewrite <- !app_assoc. split; [done|]. cbn.
    split_and!.
    - by eexists _, _.
    - split; [|done]. intros _. left. exists v. split; [|done]. busca.
    - done.
    - intros ? [= -> _]. done.
    - intros ? ? [=].
    - intros ? ? [= <- _]. congruence. }
  destruct (js_val_eqb v "GRID_NOT_FOUND") eqn:Hgrid; cbn.
  { do 3 eexists. split; [done|]. rewrite <- !app_assoc. split; [done|]. cbn.
    split_and!.
    - by eexists _, _.
    - split; [done|]. intros [(v' & Hv' & Hv'')|(f & v' & Hf & _)]; inv_elem.
      congruence.
    - intros ? [= -> _]. done.
    - done.
    - intros ? ? [=].
    - intros ? ? [= <- _]. congruence. }
  destruct (D (CWaitUntil 10 _) w1) as [[e|fila] w2] eqn:H2; cbn.
  { do 3 eexists. split; [done|]. rewrite <- !app_assoc. split; [done|]. cbn.
    split_and!.
    - by eexists _, _.
    - split; [done|]. intros [(v' & Hv' & Hv'')|(f & v' & Hf & _)]; inv_elem.
      congruence.
    - intros ? [= -> _]. done.
    - intros ? [= -> _]. done.
    - intros ? ? [=].
    - intros ? ? [= <- <-] _ _. rewrite H2. split_and!.
      + split; [done|]. intros (? & ? & ? & ? & [=] & _).
      + done.
      + intros ? ? [=]. }
  destruct (D (CExecuteScript JsClick [ArgElemento fila]) w2)
    as [[e|v'] w3] eqn:H3; cbn.
  { do 3 eexists. split; [done|]. rewrite <- !app_assoc. split; [done|]. cbn.
    split_and!.
    - by eexists _, _.
    - split; [done|]. intros [(v' & Hv' & Hv'')|(f & v' & Hf & Hc)]; inv_elem.
      congruence.
    - intros ? [= -> _]. done.
    - intros ? [= -> _]. done.
    - intros ? ? [=].
    - intros ? ? [= <- <-] _ _. rewrite H2. split_and!.
      + split; [done|]. intros (? & ? & ? & ? & [= <- <-] & Hc).
        rewrite H3 in Hc. done.
      + intros ? ? [=].
      + intros ? ? [= <- _]. done. }
  do 3 eexists. split; [done|]. rewrite <- !app_assoc. split; [done|]. cbn.
  split_and!.
  - by eexists _, _.
  - split; [|done]. intros _. right. exists fila, (VJs v'). split; busca.
  - intros ? [= -> _]. done.
  - intros ? [= -> _]. done.
  - intros ? ? [=].
  - intros ? ? [= <- <-] _ _. rewrite H2. split_and!.
    + split; [|done]. intros _. by eexists _, _, _, _.
    + intros ? ? [=].
    + intros ? ? [= <- _]. done.
Qed.

End Seleccionar.

(** Two pages.  On the one with the report in its grid the script answers
    OK: the selector returns true and makes no other call.  On the one
    without, the script answers nothing useful: the selector searches the
    row in the document, clicks it by script and returns true. *)
Lemma seleccionar_fila_reporte_ejemplo :
  ((seleccionar_fila_reporte D_con_grid "23" (mkMundo tt [])).1 = Ok true ∧
   llamadas (traza (seleccionar_fila_reporte D_con_grid "23"
                      (mkMundo tt [])).2)
   = [api_grid "23"]) ∧
  ((seleccionar_fila_reporte D_pagina_simple "23" (mkMundo tt [])).1
   = Ok true ∧
   llamadas (traza (seleccionar_fila_reporte D_pagina_simple "23"
                      (mkMundo tt [])).2)
   = [api_grid "23"; busqueda_dom "23"; clic_js 1]).
Proof.
  split.
  - destruct (seleccionar_fila_reporte_estrategias D_con_grid "23"
                (mkMundo tt []))
      as (b & m' & evs & Hr & Ht & _ & _ & Hok & _).
    destruct (Hok tt eq_refl) as [-> Hl].
    cbn in Ht. rewrite Hr. cbn [fst snd]. by rewrite Ht, Hl.
  - destruct (seleccionar_fila_reporte_estrategias D_pagina_simple "23"
                (mkMundo tt []))
      as (b & m' & evs & Hr & Ht & _ & _ & _ & _ & _ & Hdom).
    destruct (Hdom JsNull tt eq_refl eq_refl eq_refl) as (Hb & _ & Hl).
    cbn in Ht. rewrite Hr. cbn [fst snd].
    rewrite Ht, (Hl 1 tt eq_refl). split; [|done].
    f_equal. apply Hb. by exists 1, tt, JsNull, tt.
Defined.

(* ===================================================================== *)
(** * Properties of context recovery                                      *)
(* ===================================================================== *)

Section Cerrar.
Context {W : Type}.
Variable D : driver W.

Lemma solo_cerrar_ventanas handles h :
  solo_Exception (cerrar_ventanas D handles h).
Proof.
  induction handles as [|x l IH]; cbn [cerrar_ventanas]; solo.
Qed.

Lemma solo_cerrar_modal_cuerpo h : solo_Exception (cerrar_modal_cuerpo D h).
Proof.
  unfold cerrar_modal_cuerpo. solo. apply solo_cerrar_ventanas.
Qed.

Lemma solo_cerrar_modal_reset : solo_Exception (cerrar_modal_reset D).
Proof. unfold cerrar_modal_reset. solo. Qed.

(** The forced reset leaves no log record behind. *)
Lemma cerrar_modal_reset_traza m :
  ∃ evs, traza (cerrar_modal_reset D m).2 = traza m ++ evs ∧
         Forall es_llamada evs.
Proof.
  unfold cerrar_modal_reset, bind, llamar, lanzar. destruct m as [w t]. cbn.
  destruct (D CSwitchToDefaultContent w) as [[e|v] w1]; cbn.
  { eexists. split; [done|]. by repeat constructor. }
  destruct (D CWindowHandles w1) as [[e|hs] w2]; cbn.
  { eexists. split; [by rewrite <- app_assoc|]. by repeat constructor. }
  destruct hs as [|h hs]; cbn.
  { eexists. split; [by rewrite <- app_assoc|]. by repeat constructor. }
  destruct (D (CSwitchToWindow h) w2) as [[e|v'] w3]; cbn;
    (eexists; split; [by rewrite <- !app_assoc|]; by repeat constructor).
Qed.

(** Claim C8, as amended.  Context recovery returns for every driver and
    every state.  When its main body ends normally nothing more happens;
    when a driver call interrupts the body with an exception [e], one
    warning reporting [e] is logged and the forced reset runs, and whatever
    the reset raises is swallowed with no log record: after the warning the
    trace holds driver calls only. *)
Theorem cerrar_modal_y_volver_recupera (handle_original : handle)
    (m : mundo W) :
  ∃ m', cerrar_modal_y_volver D handle_original m = (Ok tt, m') ∧
    match cerrar_modal_cuerpo D handle_original m with
    | (Ok _, m1) => m' = m1
    | (Raise (Exc e), m1) =>
        ∃ evs, traza m' = traza m1
                 ++ EvLog WARNING "Error al cerrar modal" (Some e) :: evs ∧
               Forall es_llamada evs
    | (Raise (SystemExit _), _) => False
    end.
Proof.
  unfold cerrar_modal_y_volver, try_except at 1.
  destruct (cerrar_modal_cuerpo D handle_original m) as [[[]|[e|c]] m1] eqn:Hc.
  - eauto.
  - cbn. unfold bind, logger_exc, anotar. cbn.
    set (m2 := mkMundo _ _).
    destruct (cerrar_modal_reset_traza m2) as (evs & Ht & Hevs).
    unfold try_except.
    pose proof (solo_cerrar_modal_reset m2) as Hs.
    destruct (cerrar_modal_reset D m2) as [[[]|[e'|c]] m3] eqn:Hr; cbn in *.
    + eexists. split; [done|]. exists evs. by rewrite Ht, <- app_assoc.
    + eexists. split; [done|]. exists evs. by rewrite Ht, <- app_assoc.
    + by destruct (Hs c m3).
  - by apply solo_cerrar_modal_cuerpo in Hc.
Qed.

End Cerrar.

(** Claim C8 as stated fails on its logging half.  With a browser whose
    every call raises, the exception of [window_handles] is logged, and the
    one the forced reset runs into is swallowed without a record. *)
Lemma cerrar_modal_y_volver_reset_sin_registro :
  cerrar_modal_y_volver D_roto "main" (mkMundo tt [])
  = (Ok tt,
     mkMundo tt
       [EvLlamada CWindowHandles (inl WebDriverException);
        EvLog WARNING "Error al cerrar modal" (Some WebDriverException);
        EvLlamada CSwitchToDefaultContent (inl WebDriverException)]) ∧
  ¬ todas_registradas
      (traza (cerrar_modal_y_volver D_roto "main" (mkMundo tt [])).2).
Proof.
  split; [reflexivity|].
  intros H. destruct (H 2%nat CSwitchToDefaultContent WebDriverException)
    as (j & n & msg & Hj & Hev); [reflexivity|].
  cbn in Hev. do 3 (destruct j as [|j]; [lia|]). done.
Qed.

(* ===================================================================== *)
(** * Properties of the parameter-modal handler                           *)
(* ===================================================================== *)

Section Modal.
Context {W : Type}.
Variable D : driver W.
Variable E : enumeracion.











End Modal.



(* ===================================================================== *)
(** * Properties of the retry policies                                    *)
(* ===================================================================== *)

Section Retry.
Context {W A : Type}.
Variable p : politica.
Variable f : M W A.

Lemma retry_bucle_ok restantes n m a m' :
  f m = (Ok a, m') → retry_bucle p f restantes n m = (Ok a, m').
Proof. intros H. destruct restantes; cbn; by rewrite H. Qed.

(** An exception outside the retried classes propagates at once. *)
Lemma retry_bucle_no_reintenta restantes n m e m' :
  f m = (Raise (Exc e), m') → retry_if_exception_type p e = false →
  retry_bucle p f restantes n m = (Raise (Exc e), m').
Proof. intros H He. destruct restantes; cbn; by rewrite H, He. Qed.

Lemma retry_bucle_agotado n m e m' :
  f m = (Raise (Exc e), m') → retry_if_exception_type p e = true →
  retry_bucle p f 0 n m = (Raise (Exc RetryError), m').
Proof. intros H He. cbn. by rewrite H, He. Qed.

Lemma retry_bucle_reintenta restantes n m e m' :
  f m = (Raise (Exc e), m') → retry_if_exception_type p e = true →
  retry_bucle p f (S restantes) n m
  = retry_bucle p f restantes (n + 1) (tras_espera p n m').
Proof.
  intros H He. cbn [retry_bucle]. rewrite H, He.
  unfold logger, sleep. rewrite !bind_anotar. cbn [estado traza].
  unfold tras_espera. by rewrite <- app_assoc.
Qed.

End Retry.

Lemma wait_login_cerrado n :
  1 ≤ n → wait politica_login n = Z.min (Z.max 4 (2 ^ n)) 40.
Proof.
  intros Hn. cbn [wait politica_login]. unfold wait_exponential.
  replace (2 * 2 ^ (n - 1)) with (2 ^ n).
  2:{ rewrite <- (Z.pow_succ_r 2 (n - 1)) by lia. f_equal. lia. }
  lia.
Qed.

Section Login.
Context {W : Type}.
Variable D : driver W.
Variables url usuario password : string.

(** Claim C1, as amended.  When three attempts in a row fail with an
    exception of the retried classes, [login_neotel] sleeps 4 seconds
    after the first, 4 seconds after the second and raises [RetryError]
    after the third: the policy stops after three attempts, so there are
    two waits.  The wait after failed attempt [n] is
    [max(4, min(2 * 2^(n-1), 40))], that is [min(max(4, 2^n), 40)]:
    4, 4, 8, 16, 32, 40 for [n] from 1 to 6. *)
Theorem login_neotel_backoff (m m1 m2 m3 : mundo W) (e1 e2 e3 : excepcion) :
  login_neotel_cuerpo D url usuario password m = (Raise (Exc e1), m1) →
  is_WebDriverException e1 = true →
  login_neotel_cuerpo D url usuario password (tras_espera politica_login 1 m1)
    = (Raise (Exc e2), m2) →
  is_WebDriverException e2 = true →
  login_neotel_cuerpo D url usuario password (tras_espera politica_login 2 m2)
    = (Raise (Exc e3), m3) →
  is_WebDriverException e3 = true →
  login_neotel D url usuario password m = (Raise (Exc RetryError), m3) ∧
  dormidos (traza (tras_espera politica_login 1 m1))
    = dormidos (traza m1) ++ [4%Q] ∧
  dormidos (traza (tras_espera politica_login 2 m2))
    = dormidos (traza m2) ++ [4%Q] ∧
  (∀ n, 1 ≤ n →
     wait politica_login n = Z.max 4 (Z.min (2 * 2 ^ (n - 1)) 40) ∧
     wait politica_login n = Z.min (Z.max 4 (2 ^ n)) 40) ∧
  map (wait politica_login) [1; 2; 3; 4; 5; 6] = [4; 4; 8; 16; 32; 40].
Proof.
  intros H1 He1 H2 He2 H3 He3. split_and!.
  - unfold login_neotel, retry. cbn [stop_after_attempt politica_login Nat.sub].
    rewrite (retry_bucle_reintenta politica_login _ _ _ _ _ _ H1 He1).
    rewrite (retry_bucle_reintenta politica_login _ _ _ _ _ _ H2 He2).
    by rewrite (retry_bucle_agotado politica_login _ _ _ _ _ H3 He3).
  - unfold dormidos, tras_espera. cbn [traza]. by rewrite omap_app.
  - unfold dormidos, tras_espera. cbn [traza]. by rewrite omap_app.
  - intros n Hn. split; [|by apply wait_login_cerrado].
    cbn [wait politica_login]. unfold wait_exponential. lia.
  - reflexivity.
Qed.

End Login.

(** With the browser that always fails. *)
Lemma login_neotel_backoff_ejemplo :
  ∃ m3,
    login_neotel D_roto "https://web.neoteluin.mx/callcenter/default.htm"
      "usuario" "clave" (mkMundo tt [])
    = (Raise (Exc RetryError), m3).
Proof.
  eexists.
  eapply (proj1 (login_neotel_backoff D_roto
                   "https://web.neoteluin.mx/callcenter/default.htm"
                   "usuario" "clave" (mkMundo tt []) _ _ _
                   WebDriverException WebDriverException WebDriverException
                   eq_refl eq_refl eq_refl eq_refl eq_refl eq_refl)).
Defined.

(** Claim C1 as stated fails.  With the browser that always fails the run
    sleeps twice, 4 and 4 seconds, and gives up: not the five waits
    4, 8, 16, 32, 40; and the wait after the second attempt is not
    [min(4 * 2^(2-1), 40)]. *)
Lemma login_neotel_dos_esperas :
  let r := login_neotel D_roto "https://web.neoteluin.mx/callcenter/default.htm"
             "usuario" "clave" (mkMundo tt []) in
  r.1 = Raise (Exc RetryError) ∧
  dormidos (traza r.2) = [4%Q; 4%Q] ∧
  dormidos (traza r.2) ≠ [4%Q; 8%Q; 16%Q; 32%Q; 40%Q] ∧
  wait politica_login 2 ≠ Z.min (4 * 2 ^ (2 - 1)) 40.
Proof. vm_compute. split_and!; done. Qed.

(* ===================================================================== *)
(** * Properties of the extraction driver                                 *)
(* ===================================================================== *)

Section Extraccion.
Context {W : Type}.
Variable D : driver W.
Variable navegar_a_reportes : M W unit.
Variable descargar_reporte : reporte → M W string.

Lemma bucle_reportes_exito r rs acc m archivo m1 :
  descargar_reporte r m = (Ok archivo, m1) →
  bucle_reportes D navegar_a_reportes descargar_reporte (r :: rs) acc m
  = bucle_reportes D navegar_a_reportes descargar_reporte rs
      (acc ++ [archivo]) (tras_descarga m1).
Proof.
  intros H. cbn [bucle_reportes]. unfold bind at 1, try_except.
  by rewrite (bind_ok _ _ _ _ _ H).
Qed.

Lemma bucle_reportes_fallo r rs acc m e m1 m2 :
  descargar_reporte r m = (Raise (Exc e), m1) →
  volver_a_reportes D navegar_a_reportes (tras_error e m1) = (Ok tt, m2) →
  bucle_reportes D navegar_a_reportes descargar_reporte (r :: rs) acc m
  = bucle_reportes D navegar_a_reportes descargar_reporte rs acc m2.
Proof.
  intros H Hv. cbn [bucle_reportes]. unfold bind at 1, try_except.
  rewrite (bind_raise _ _ _ _ _ H). cbn [Exception].
  unfold logger_exc. rewrite bind_anotar. fold (tras_error e m1).
  by rewrite (bind_ok _ _ _ _ _ Hv).
Qed.

(** The run is cut short when the recovery itself raises. *)
Lemma bucle_reportes_aborta r rs acc m e m1 e' m2 :
  descargar_reporte r m = (Raise (Exc e), m1) →
  volver_a_reportes D navegar_a_reportes (tras_error e m1) = (Raise e', m2) →
  bucle_reportes D navegar_a_reportes descargar_reporte (r :: rs) acc m
  = (Raise e', m2).
Proof.
  intros H Hv. cbn [bucle_reportes]. unfold bind at 1, try_except.
  rewrite (bind_raise _ _ _ _ _ H). cbn [Exception].
  unfold logger_exc. rewrite bind_anotar. fold (tras_error e m1).
  by rewrite (bind_raise _ _ _ _ _ Hv).
Qed.

(** Claim C4, as amended.  In a pass over any report list in which every
    failed report is followed by a recovery that does not raise, the loop
    is not aborted: it goes on to the next descriptor after each failure,
    visits every report, and returns the files of the reports that
    succeeded, in configured order.  A failed report is logged and adds
    nothing to the returned list. *)
Theorem bucle_reportes_aisla_fallos reportes m outs m' :
  recorrido D navegar_a_reportes descargar_reporte reportes m outs m' →
  ∀ acc,
    bucle_reportes D navegar_a_reportes descargar_reporte reportes acc m
    = (Ok (acc ++ archivos_de outs), m') ∧
    length outs = length reportes.
Proof.
  induction 1 as [m|r rs m archivo m1 outs m' Hd _ IH
                  |r rs m e m1 m2 outs m' Hd Hv _ IH]; intros acc.
  - cbn. by rewrite app_nil_r.
  - rewrite (bucle_reportes_exito _ _ _ _ _ _ Hd).
    destruct (IH (acc ++ [archivo])) as [-> Hl]. cbn.
    by rewrite <- app_assoc, Hl.
  - rewrite (bucle_reportes_fallo _ _ _ _ _ _ _ Hd Hv).
    destruct (IH acc) as [-> Hl]. cbn. by rewrite Hl.
Qed.

End Extraccion.

(** The first report fails, the second succeeds: the loop returns the one
    file. *)
Lemma bucle_reportes_dos_reportes :
  bucle_reportes D_pagina_simple (ret tt) descargar_solo_24 REPORTES []
    (mkMundo tt [])
  = (Ok ["/descargas/estados.csv"%string],
     mkMundo tt
       [EvLog ERROR "Error con reporte" (Some RetryError);
        EvLlamada CCurrentUrl (inr (VTexto ""));
        EvLog INFO "Reporte descargado" None]) ∧
  length [None; Some "/descargas/estados.csv"%string] = length REPORTES.
Proof.
  apply (bucle_reportes_aisla_fallos D_pagina_simple (ret tt)
           descargar_solo_24 REPORTES (mkMundo tt [])
           [None; Some "/descargas/estados.csv"%string]).
  eapply recorrido_fallo; [reflexivity|reflexivity|].
  eapply recorrido_exito; [reflexivity|]. apply recorrido_fin.
Defined.

(** Claim C4 as stated fails on what is recorded.  With two configured
    reports, the first out of retries and the second downloaded, the run
    returns one entry, the file of the second: nothing stands for the
    failed report. *)
Lemma ejecutar_extraccion_sin_fallido :
  let r := ejecutar_extraccion D_pagina_simple (ret tt) (ret tt) (ret tt)
             descargar_solo_24 REPORTES (mkMundo tt []) in
  r.1 = Ok ["/descargas/estados.csv"%string] ∧
  length REPORTES = 2%nat ∧
  (∀ l, r.1 = Ok l → length l = 1%nat).
Proof.
  vm_compute. split_and!; try done. by intros l [= <-].
Qed.

(* ===================================================================== *)
(** * Properties of the process                                           *)
(* ===================================================================== *)

Import Principal.

Lemma cargar_configuracion_ausente env nombre :
  nombre ∈ obligatorias → falsy (env !! nombre) = true →
  cargar_configuracion env = Raise (Exc EnvironmentError).
Proof.
  intros Hin Hf. unfold cargar_configuracion, obtener_variable_entorno.
  cbn [andb].
  destruct (falsy (env !! "NEOTEL_USER")) eqn:H1; [done|]; cbn [rbind].
  destruct (falsy (env !! "NEOTEL_PASS")) eqn:H2; [done|]; cbn [rbind].
  destruct (falsy (env !! "SQL_SERVER")) eqn:H3; [done|]; cbn [rbind].
  destruct (falsy (env !! "SQL_DATABASE")) eqn:H4; [done|]; cbn [rbind].
  destruct (falsy (env !! "SQL_USER")) eqn:H5; [done|]; cbn [rbind].
  destruct (falsy (env !! "SQL_PASSWORD")) eqn:H6; [done|]; cbn [rbind].
  unfold obligatorias in Hin.
  repeat (apply elem_of_cons in Hin as [->|Hin]; [congruence|]).
  by apply elem_of_nil in Hin.
Qed.

Section Main.
Context {W : Type}.
Variable now : Fecha.datetime.
Variable ejecutar_extraccion : string → M W (list string).
Variable ejecutar_transformacion : list string → string → M W datos.
Variable ejecutar_carga : datos → string → M W unit.

(** Claim C3, on the code.  When a required variable is absent or empty,
    the [EnvironmentError] is raised while the module is loaded, before
    [main] and its handlers are entered: nothing has run, no browser call
    and no log record, the exception reaches the interpreter uncaught and
    the process exits with status 1, not 2. *)
Theorem script_sin_secreto_sale_con_1 (env : entorno) (nombre : string)
    (m : mundo W) :
  nombre ∈ obligatorias →
  falsy (env !! nombre) = true →
  script now ejecutar_extraccion ejecutar_transformacion ejecutar_carga env m
  = (Raise (Exc EnvironmentError), m) ∧
  codigo_salida
    (script now ejecutar_extraccion ejecutar_transformacion ejecutar_carga
       env m).1 = 1.
Proof.
  intros Hin Hf. unfold script, bind, elevar.
  rewrite (cargar_configuracion_ausente env nombre Hin Hf). done.
Qed.

(** How [main] ends, by what its phases do. *)
Lemma main_exito m fecha m1 archivos m2 d m3 m4 :
  calcular_fecha_ayer now (inicio m) = (Ok fecha, m1) →
  ejecutar_extraccion fecha m1 = (Ok archivos, m2) →
  archivos ≠ [] →
  ejecutar_transformacion archivos fecha m2 = (Ok d, m3) →
  hay_datos d = true →
  ejecutar_carga d fecha m3 = (Ok tt, m4) →
  codigo_salida
    (main now ejecutar_extraccion ejecutar_transformacion ejecutar_carga m).1
  = 0.
Proof.
  intros H1 H2 Hne H3 Hd H4. unfold main, logger.
  rewrite bind_anotar. fold (inicio m). unfold try_except2.
  rewrite (bind_ok _ _ _ _ _ H1), (bind_ok _ _ _ _ _ H2).
  destruct archivos as [|a l]; [done|].
  unfold bind at 1. cbn [ret].
  rewrite (bind_ok _ _ _ _ _ H3), Hd. unfold bind at 1. cbn [ret].
  rewrite (bind_ok _ _ _ _ _ H4). done.
Qed.

Lemma main_sin_archivos m fecha m1 m2 :
  calcular_fecha_ayer now (inicio m) = (Ok fecha, m1) →
  ejecutar_extraccion fecha m1 = (Ok [], m2) →
  codigo_salida
    (main now ejecutar_extraccion ejecutar_transformacion ejecutar_carga m).1
  = 1.
Proof.
  intros H1 H2. unfold main, logger.
  rewrite bind_anotar. fold (inicio m). unfold try_except2.
  rewrite (bind_ok _ _ _ _ _ H1), (bind_ok _ _ _ _ _ H2). done.
Qed.

Lemma main_sin_filas m fecha m1 archivos m2 d m3 :
  calcular_fecha_ayer now (inicio m) = (Ok fecha, m1) →
  ejecutar_extraccion fecha m1 = (Ok archivos, m2) →
  archivos ≠ [] →
  ejecutar_transformacion archivos fecha m2 = (Ok d, m3) →
  hay_datos d = false →
  codigo_salida
    (main now ejecutar_extraccion ejecutar_transformacion ejecutar_carga m).1
  = 1.
Proof.
  intros H1 H2 Hne H3 Hd. unfold main, logger.
  rewrite bind_anotar. fold (inicio m). unfold try_except2.
  rewrite (bind_ok _ _ _ _ _ H1), (bind_ok _ _ _ _ _ H2).
  destruct archivos as [|a l]; [done|].
  unfold bind at 1. cbn [ret].
  rewrite (bind_ok _ _ _ _ _ H3), Hd. done.
Qed.

(** Raised inside [main], an [EnvironmentError] ends the process with 2;
    any other [Exception] with 1. *)
Lemma main_extraccion_lanza m fecha m1 e m2 :
  calcular_fecha_ayer now (inicio m) = (Ok fecha, m1) →
  ejecutar_extraccion fecha m1 = (Raise (Exc e), m2) →
  codigo_salida
    (main now ejecutar_extraccion ejecutar_transformacion ejecutar_carga m).1
  = if is_OSError e then 2 else 1.
Proof.
  intros H1 H2. unfold main, logger.
  rewrite bind_anotar. fold (inicio m). unfold try_except2.
  rewrite (bind_ok _ _ _ _ _ H1), (bind_raise _ _ _ _ _ H2).
  by destruct (is_OSError e).
Qed.

End Main.

(** With an empty environment. *)
Lemma script_sin_secreto_ejemplo :
  codigo_salida
    (script (W:=unit) (Fecha.mkDatetime 2025 1 1 6 0 0 0)
       (λ _, ret []) (λ _ _, ret (mkDatos None None)) (λ _ _, ret tt)
       ∅ (mkMundo tt [])).1 = 1.
Proof.
  apply (script_sin_secreto_sale_con_1 (Fecha.mkDatetime 2025 1 1 6 0 0 0)
           (λ _, ret []) (λ _ _, ret (mkDatos None None)) (λ _ _, ret tt)
           ∅ "NEOTEL_USER" (mkMundo tt [])).
  - unfold obligatorias. apply list_elem_of_here.
  - reflexivity.
Defined.

(* ===================================================================== *)
(** * Properties of the column names                                      *)
(* ===================================================================== *)

Section ColumnasCorrectas.
Import Transformacion Columnas.

Ltac por_caracter c :=
  destruct c as [[] [] [] [] [] [] [] []]; vm_compute; try done.

Lemma minuscula_normal c :
  es_alnum_o_guion c = true → es_minuscula_digito_o_guion (minuscula c) = true.
Proof. por_caracter c. Qed.

Lemma minuscula_guion c : Ascii.eqb (minuscula c) "_" = Ascii.eqb c "_".
Proof. por_caracter c. Qed.

Lemma minuscula_fija c :
  es_minuscula_digito_o_guion c = true → minuscula c = c.
Proof. por_caracter c. Qed.

Lemma normal_no_pct c :
  es_minuscula_digito_o_guion c = true → Ascii.eqb c "%" = false.
Proof. por_caracter c. Qed.

Lemma normal_alnum c :
  es_minuscula_digito_o_guion c = true →
  (if es_alnum c then c else "_"%char) = c.
Proof. por_caracter c. Qed.

Lemma normal_ascii c :
  es_minuscula_digito_o_guion c = true →
  (0 <=? codigo c) && (codigo c <? 128) = true.
Proof. por_caracter c. Qed.

Lemma sub_no_alfanumerico_clase s :
  forallb es_alnum_o_guion (sub_no_alfanumerico s) = true.
Proof.
  unfold sub_no_alfanumerico.
  induction s as [|c s IH]; [done|]. cbn. rewrite IH, andb_true_r.
  unfold es_alnum_o_guion. destruct (es_alnum c) eqn:E; [by rewrite E|done].
Qed.

Lemma sub_guiones_clase (P : ascii → bool) b s :
  forallb P s = true → forallb P (sub_guiones b s) = true.
Proof.
  revert b. induction s as [|c s IH]; intros b; [done|]. cbn.
  intros [Hc Hs]%andb_true_iff.
  destruct (Ascii.eqb c "_"); [destruct b|]; cbn; rewrite ?Hc; cbn; auto.
Qed.

Lemma sub_guiones_en_racha s : empieza_con_guion (sub_guiones true s) = false.
Proof.
  induction s as [|c s IH]; [done|]. cbn.
  destruct (Ascii.eqb c "_") eqn:E; [done|]. cbn. by rewrite E.
Qed.

Lemma sin_guiones_dobles_cons c s :
  sin_guiones_dobles (c :: s)
  = negb (Ascii.eqb c "_" && empieza_con_guion s) && sin_guiones_dobles s.
Proof. destruct s; cbn; [by rewrite andb_false_r|done]. Qed.

Lemma sub_guiones_sin_dobles b s :
  sin_guiones_dobles (sub_guiones b s) = true.
Proof.
  revert b. induction s as [|c s IH]; intros b; [done|]. cbn [sub_guiones].
  destruct (Ascii.eqb c "_") eqn:E; [destruct b|]; [apply IH| |];
    rewrite sin_guiones_dobles_cons, IH, E, ?sub_guiones_en_racha; done.
Qed.

Lemma sin_guiones_dobles_spec s : sin_guiones_dobles s = true ↔ ¬ dobles s.
Proof.
  induction s as [|c s IH].
  - split; [|done]. intros _ (s1 & s2 & H). by destruct s1.
  - rewrite sin_guiones_dobles_cons, andb_true_iff, IH. split.
    + intros [Hc Hs] (s1 & s2 & H). destruct s1 as [|x s1]; cbn in H.
      * injection H as -> ->. done.
      * injection H as -> ->. apply Hs. by exists s1, s2.
    + intros H. split.
      * destruct (Ascii.eqb c "_") eqn:Ec; [|done].
        destruct s as [|d s]; [done|]. cbn.
        destruct (Ascii.eqb d "_") eqn:Ed; [|done].
        apply Ascii.eqb_eq in Ec, Ed. subst. destruct H. by exists [], s.
      * intros (s1 & s2 & ->). apply H. by exists (c :: s1), s2.
Qed.

Lemma dobles_rev s : dobles (rev s) → dobles s.
Proof.
  intros (s1 & s2 & H). exists (rev s2), (rev s1).
  rewrite <- (rev_involutive s), H, rev_app_distr. cbn.
  by rewrite <- !app_assoc.
Qed.

Lemma sin_guiones_dobles_rev s :
  sin_guiones_dobles (rev s) = sin_guiones_dobles s.
Proof.
  apply eq_true_iff_eq. rewrite !sin_guiones_dobles_spec. split.
  - intros H Hd. apply H, dobles_rev. by rewrite rev_involutive.
  - intros H Hd. by apply H, dobles_rev.
Qed.

Lemma lstrip_caracter_sufijo x s :
  ∃ p, s = p ++ lstrip_caracter x s ∧ Forall (λ c, c = x) p.
Proof.
  induction s as [|c s (p & IH & Hp)]; [by exists []|]. cbn.
  destruct (Ascii.eqb c x) eqn:E.
  - apply Ascii.eqb_eq in E. subst. exists (x :: p). split.
    + cbn. by rewrite <- IH.
    + by constructor.
  - by exists [].
Qed.

Lemma lstrip_caracter_clase (P : ascii → bool) x s :
  forallb P s = true → forallb P (lstrip_caracter x s) = true.
Proof.
  destruct (lstrip_caracter_sufijo x s) as (p & H & _).
  rewrite H at 1. rewrite forallb_app. by intros [_ ?]%andb_true_iff.
Qed.

Lemma lstrip_caracter_sin_dobles s :
  sin_guiones_dobles s = true →
  sin_guiones_dobles (lstrip_caracter "_" s) = true.
Proof.
  rewrite !sin_guiones_dobles_spec. intros H (s1 & s2 & Hd). apply H.
  destruct (lstrip_caracter_sufijo "_" s) as (p & Hs & _).
  exists (p ++ s1), s2. rewrite Hs at 1. by rewrite Hd, <- app_assoc.
Qed.

Lemma lstrip_caracter_empieza s :
  empieza_con_guion (lstrip_caracter "_" s) = false.
Proof.
  induction s as [|c s IH]; [done|]. cbn.
  destruct (Ascii.eqb c "_") eqn:E; [done|]. cbn. done.
Qed.

Lemma lstrip_caracter_fija s :
  empieza_con_guion s = false → lstrip_caracter "_" s = s.
Proof. destruct s as [|c s]; [done|]. cbn. by intros ->. Qed.

Lemma forallb_rev {A} (P : A → bool) (l : list A) :
  forallb P (rev l) = forallb P l.
Proof.
  induction l as [|x l IH]; [done|]. cbn.
  rewrite forallb_app, IH. cbn. rewrite andb_true_r. apply andb_comm.
Qed.

(** What [strip('_')] keeps of a name without runs of underscores. *)
Lemma strip_caracter_normal (P : ascii → bool) s :
  forallb P s = true → sin_guiones_dobles s = true →
  let r := strip_caracter "_" s in
  forallb P r = true ∧ sin_guiones_dobles r = true ∧
  empieza_con_guion r = false ∧ empieza_con_guion (rev r) = false.
Proof.
  intros HP Hd. unfold strip_caracter, rstrip_caracter. cbn zeta.
  set (t := lstrip_caracter "_" s).
  assert (HPt : forallb P t = true) by by apply lstrip_caracter_clase.
  assert (Hdt : sin_guiones_dobles t = true)
    by by apply lstrip_caracter_sin_dobles.
  assert (Het : empieza_con_guion t = false)
    by apply lstrip_caracter_empieza.
  split_and!.
  - rewrite forallb_rev. apply lstrip_caracter_clase. by rewrite forallb_rev.
  - rewrite sin_guiones_dobles_rev. apply lstrip_caracter_sin_dobles.
    by rewrite sin_guiones_dobles_rev.
  - destruct (lstrip_caracter_sufijo "_" (rev t)) as (p & Hp & Hall).
    destruct (lstrip_caracter "_" (rev t)) as [|c u] eqn:Eu; [done|].
    assert (Ht : t = rev (c :: u) ++ rev p).
    { rewrite <- (rev_involutive t), Hp, rev_app_distr. done. }
    destruct (rev (c :: u)) as [|d v] eqn:Ev.
    { apply (f_equal (@length _)) in Ev. rewrite length_rev in Ev. done. }
    rewrite Ht in Het. done.
  - rewrite rev_involutive. apply lstrip_caracter_empieza.
Qed.

Lemma empieza_con_guion_minuscula s :
  empieza_con_guion (map minuscula s) = empieza_con_guion s.
Proof. destruct s; [done|]. cbn. apply minuscula_guion. Qed.

Lemma sin_guiones_dobles_minuscula s :
  sin_guiones_dobles (map minuscula s) = sin_guiones_dobles s.
Proof.
  induction s as [|c s IH]; [done|]. cbn [map].
  by rewrite !sin_guiones_dobles_cons, IH, minuscula_guion,
    empieza_con_guion_minuscula.
Qed.

Lemma forallb_minuscula s :
  forallb es_alnum_o_guion s = true →
  forallb es_minuscula_digito_o_guion (map minuscula s) = true.
Proof.
  induction s as [|c s IH]; [done|]. cbn.
  intros [Hc Hs]%andb_true_iff. by rewrite minuscula_normal, IH.
Qed.

(** What the last three steps make of any text. *)
Lemma minusculas_de_strip_normal (t : list ascii) :
  es_normal
    (string_of_list_ascii
       (map minuscula
          (strip_caracter "_" (sub_guiones false (sub_no_alfanumerico t)))))
  = true.
Proof.
  unfold es_normal. cbn zeta.
  rewrite list_ascii_of_string_of_list_ascii.
  set (s := sub_guiones false _).
  destruct (strip_caracter_normal es_alnum_o_guion s) as (H1 & H2 & H3 & H4).
  { apply sub_guiones_clase, sub_no_alfanumerico_clase. }
  { apply sub_guiones_sin_dobles. }
  rewrite forallb_minuscula, sin_guiones_dobles_minuscula, H2 by done.
  rewrite empieza_con_guion_minuscula, H3.
  by rewrite <- map_rev, empieza_con_guion_minuscula, H4.
Qed.

Variable NFKD : list Z → list Z.

(** Property X1.  Whatever the text of a column header, its cleaned name is
    made of lower-case ASCII letters, digits and underscores only, has no
    two underscores in a row, and neither starts nor ends with an
    underscore. *)
Theorem limpiar_nombre_columna_normal (puntos : list Z) :
  es_normal (limpiar_nombre_columna NFKD (Texto puntos)) = true.
Proof.
  unfold limpiar_nombre_columna. cbn zeta.
  generalize (sub_pct false (solo_ascii (NFKD puntos))). intros t.
  apply minusculas_de_strip_normal.
Qed.

Lemma solo_ascii_codigos l :
  forallb es_minuscula_digito_o_guion l = true →
  solo_ascii (map codigo l) = l.
Proof.
  unfold solo_ascii. induction l as [|c l IH]; [done|]. cbn.
  intros [Hc Hl]%andb_true_iff. rewrite (normal_ascii c Hc). cbn.
  unfold codigo at 1. rewrite Nat2Z.id, ascii_nat_embedding.
  f_equal. by apply IH.
Qed.

Lemma codigos_ascii l :
  forallb es_minuscula_digito_o_guion l = true →
  Forall (λ p, 0 ≤ p < 128) (map codigo l).
Proof.
  induction l as [|c l IH]; [constructor|]. cbn.
  intros [Hc Hl]%andb_true_iff. constructor; [|by apply IH].
  apply normal_ascii in Hc. lia.
Qed.

Lemma sub_pct_fija b l :
  forallb es_minuscula_digito_o_guion l = true → sub_pct b l = l.
Proof.
  revert b. induction l as [|c l IH]; intros b; [done|]. cbn.
  intros [Hc Hl]%andb_true_iff. rewrite (normal_no_pct c Hc).
  assert (es_espacio c = false) as -> by (revert Hc; por_caracter c).
  rewrite andb_false_r. f_equal. by apply IH.
Qed.

Lemma sub_no_alfanumerico_fija l :
  forallb es_minuscula_digito_o_guion l = true → sub_no_alfanumerico l = l.
Proof.
  induction l as [|c l IH]; [done|]. cbn.
  intros [Hc Hl]%andb_true_iff. rewrite (normal_alnum c Hc). f_equal.
  by apply IH.
Qed.

Lemma sub_guiones_fija b l :
  sin_guiones_dobles l = true → (b = true → empieza_con_guion l = false) →
  sub_guiones b l = l.
Proof.
  revert b. induction l as [|c l IH]; intros b; [done|].
  rewrite sin_guiones_dobles_cons. cbn.
  intros [Hc Hl]%andb_true_iff Hb.
  destruct (Ascii.eqb c "_") eqn:E.
  - destruct b; [by specialize (Hb eq_refl)|].
    f_equal. apply IH; [done|]. intros _. by destruct (empieza_con_guion l).
  - f_equal. by apply IH.
Qed.

Lemma map_minuscula_fija l :
  forallb es_minuscula_digito_o_guion l = true → map minuscula l = l.
Proof.
  induction l as [|c l IH]; [done|]. cbn.
  intros [Hc Hl]%andb_true_iff. by rewrite minuscula_fija, IH.
Qed.

(** Property X2.  The names the cleaner leaves untouched are exactly the
    names it produces: a string is a fixed point of [limpiar_nombre_columna]
    if and only if it is made of lower-case letters, digits and single inner
    underscores.  In particular cleaning twice is cleaning once.  (NFKD
    leaves ASCII text as it is.) *)
Theorem limpiar_nombre_columna_puntos_fijos (s : string)
    (HNFKD : ∀ l, Forall (λ p, 0 ≤ p < 128) l → NFKD l = l) :
  es_normal s = true ↔ limpiar_nombre_columna NFKD (Texto (codigos s)) = s.
Proof.
  split.
  - unfold es_normal. cbn zeta.
    intros [[[H1 H2]%andb_true_iff H3%negb_true_iff]%andb_true_iff
              H4%negb_true_iff]%andb_true_iff.
    unfold limpiar_nombre_columna, codigos.
    rewrite HNFKD by by apply codigos_ascii.
    rewrite solo_ascii_codigos, sub_pct_fija, sub_no_alfanumerico_fija by done.
    rewrite sub_guiones_fija by done.
    unfold strip_caracter, rstrip_caracter.
    rewrite (lstrip_caracter_fija _ H3), (lstrip_caracter_fija _ H4).
    rewrite rev_involutive, map_minuscula_fija by done.
    apply string_of_list_ascii_of_string.
  - intros <-. unfold limpiar_nombre_columna. cbn zeta.
    apply minusculas_de_strip_normal.
Qed.

End ColumnasCorrectas.

Lemma NFKD_espanol_ascii l :
  Forall (λ p, 0 ≤ p < 128) l → Columnas.NFKD_espanol l = l.
Proof.
  unfold Columnas.NFKD_espanol.
  induction 1 as [|p l Hp _ IH]; [done|]. cbn. rewrite IH.
  repeat (case_match; [lia|]). done.
Qed.

(** A header of the reports and the name it keeps once cleaned. *)
Lemma limpiar_nombre_columna_puntos_fijos_ejemplo :
  Columnas.es_normal "pct_in_atendidas" = true ↔
  Columnas.limpiar_nombre_columna Columnas.NFKD_espanol
    (Columnas.Texto (Columnas.codigos "pct_in_atendidas"))
  = "pct_in_atendidas"%string.
Proof.
  exact (limpiar_nombre_columna_puntos_fijos Columnas.NFKD_espanol
           "pct_in_atendidas" NFKD_espanol_ascii).
Defined.

(* ===================================================================== *)
(** * Properties of the destination layout                                *)
(* ===================================================================== *)

Section DestinoCorrecto.
Import Columnas.

Variable NFKD : list Z → list Z.
Context {A : Type}.

Lemma flat_map_ext_en {B C} (f g : B → list C) (l : list B) :
  (∀ x, x ∈ l → f x = g x) → flat_map f l = flat_map g l.
Proof.
  induction l as [|x l IH]; [done|]. intros H. cbn.
  rewrite H by left. f_equal. apply IH. intros y Hy. apply H. by right.
Qed.

Lemma en_columnas_filter e (df : @marco A) :
  en_columnas e df = false → List.filter (con_etiqueta e) df = [].
Proof.
  unfold en_columnas. induction df as [|[c d] df IH]; [done|]. cbn.
  destruct (String.eqb c e); [done|]. apply IH.
Qed.

Lemma en_columnas_app e (df1 df2 : @marco A) :
  en_columnas e (df1 ++ df2) = en_columnas e df1 || en_columnas e df2.
Proof. apply existsb_app. Qed.

Lemma en_columnas_distinta e col (df : @marco A) :
  en_columnas col df = true → en_columnas e df = false →
  String.eqb col e = false.
Proof.
  intros H1 H2. destruct (String.eqb col e) eqn:E; [|done].
  apply String.eqb_eq in E. congruence.
Qed.

(** What step 3 leaves under each label. *)
Lemma rellenar_filter e finales : ∀ df : @marco A,
  List.filter (con_etiqueta e) (rellenar finales df)
  = if en_columnas e df then List.filter (con_etiqueta e) df
    else if existsb (λ f, String.eqb f e) finales then [(e, None)]
    else [].
Proof.
  induction finales as [|col finales IH]; intros df; cbn.
  - destruct (en_columnas e df) eqn:E; [done|]. by apply en_columnas_filter.
  - rewrite IH. destruct (en_columnas col df) eqn:Ecol.
    + destruct (en_columnas e df) eqn:Ee; [done|].
      by rewrite (en_columnas_distinta e col df).
    + rewrite en_columnas_app, List.filter_app. cbn.
      destruct (en_columnas e df) eqn:Ee; cbn.
      * assert (String.eqb col e = false) as ->; [|by rewrite app_nil_r].
        destruct (String.eqb col e) eqn:E; [|done].
        apply String.eqb_eq in E. congruence.
      * rewrite (en_columnas_filter e df Ee).
        destruct (String.eqb col e) eqn:E; cbn; [|done].
        apply String.eqb_eq in E. by subst.
Qed.

Lemma filter_en_columnas e (df : @marco A) :
  en_columnas e df = true → List.filter (con_etiqueta e) df ≠ [].
Proof.
  unfold en_columnas. induction df as [|[c d] df IH]; [done|]. cbn.
  destruct (String.eqb c e); [done|]. apply IH.
Qed.

Lemma rellenar_completa finales (df : @marco A) e :
  e ∈ finales → en_columnas e (rellenar finales df) = true.
Proof.
  intros He. destruct (en_columnas e (rellenar finales df)) eqn:E; [done|].
  apply en_columnas_filter in E. rewrite rellenar_filter in E.
  destruct (en_columnas e df) eqn:Ee.
  { by apply filter_en_columnas in Ee. }
  assert (existsb (λ f, String.eqb f e) finales = true) as H; [|by rewrite H in E].
  apply existsb_exists. exists e. split; [by apply list_elem_of_In|].
  apply String.eqb_refl.
Qed.

Lemma filter_todos {B} (p : B → bool) (l : list B) :
  (∀ x, x ∈ l → p x = true) → List.filter p l = l.
Proof.
  induction l as [|x l IH]; [done|]. intros H. cbn.
  rewrite H by left. f_equal. apply IH. intros y Hy. apply H. by right.
Qed.

Lemma origen_filter mapeo (df : @crudo A) f :
  List.filter (con_etiqueta f)
    (map (λ '(c, d), (renombrar mapeo c, d))
       (map (λ '(c, d), (limpiar_nombre_columna NFKD c, Some d)) df))
  = origen NFKD mapeo df f.
Proof.
  unfold origen. induction df as [|[c d] df IH]; [done|]. cbn.
  destruct (String.eqb _ f) eqn:E; [|done].
  apply String.eqb_eq in E. by rewrite IH, E.
Qed.

Lemma origen_en_columnas mapeo (df : @crudo A) f :
  en_columnas f
    (map (λ '(c, d), (renombrar mapeo c, d))
       (map (λ '(c, d), (limpiar_nombre_columna NFKD c, Some d)) df))
  = match origen NFKD mapeo df f with [] => false | _ => true end.
Proof.
  unfold origen, en_columnas. induction df as [|[c d] df IH]; [done|]. cbn.
  destruct (String.eqb _ f); [done|]. apply IH.
Qed.

(** Property X3.  Steps 1 to 4 of both transformers, read as a table: the
    frame that leaves step 4 lists the destination columns in their
    configured order; under each name come the source columns whose cleaned
    and renamed header is that name, and a single column of [None] when
    there is none.  Source columns with any other header are dropped. *)
Theorem columnas_destino_por_nombre (mapeo : list (string * string))
    (finales : list string) (df : @crudo A) :
  columnas_destino NFKD mapeo finales df
  = flat_map (λ f, match origen NFKD mapeo df f with
                   | [] => [(f, None)]
                   | cols => cols
                   end) finales.
Proof.
  unfold columnas_destino. cbn zeta.
  set (df2 := map _ (map _ df)).
  rewrite filter_todos by (intros; by apply rellenar_completa).
  unfold seleccionar. apply flat_map_ext_en. intros f Hf.
  rewrite rellenar_filter. unfold df2.
  rewrite origen_en_columnas, origen_filter.
  destruct (origen NFKD mapeo df f) eqn:E; [|done].
  assert (existsb (λ f0, String.eqb f0 f) finales = true) as ->; [|done].
  apply existsb_exists. exists f. split; [by apply list_elem_of_In|].
  apply String.eqb_refl.
Qed.

Lemma origen_etiquetas mapeo (df : @crudo A) f :
  Forall (λ col, col.1 = f) (origen NFKD mapeo df f).
Proof.
  unfold origen. induction df as [|[c d] df IH]; [constructor|]. cbn.
  destruct (String.eqb _ f); [by constructor|done].
Qed.

Lemma origen_sin_repetir mapeo (df : @crudo A) f :
  NoDup (map (λ col, renombrar mapeo (limpiar_nombre_columna NFKD col.1)) df) →
  (length (origen NFKD mapeo df f) ≤ 1)%nat.
Proof.
  unfold origen. induction df as [|[c d] df IH]; [cbn; lia|]. cbn.
  intros [Hc Hdf]%NoDup_cons. specialize (IH Hdf).
  destruct (String.eqb _ f) eqn:E; [|done]. cbn.
  apply String.eqb_eq in E.
  assert (omap (λ '(c0, d0),
            if String.eqb (renombrar mapeo (limpiar_nombre_columna NFKD c0)) f
            then Some (f, Some d0) else None) df = []) as ->; [|cbn; lia].
  clear IH Hdf. induction df as [|[c' d'] df IH]; [done|]. cbn.
  destruct (String.eqb _ f) eqn:E'.
  - apply String.eqb_eq in E'. destruct Hc. cbn.
    apply elem_of_cons. left. congruence.
  - apply IH. intros H. apply Hc. cbn. apply elem_of_cons. by right.
Qed.

(** Property X4.  When no two source columns end up with the same
    destination name the frame that leaves step 4 has exactly the
    destination columns, each once, in the configured order.  (Two headers
    that clean to the same name, such as In and IN, give that destination
    column twice.) *)
Theorem columnas_destino_exactas (mapeo : list (string * string))
    (finales : list string) (df : @crudo A) :
  NoDup (map (λ col, renombrar mapeo (limpiar_nombre_columna NFKD col.1)) df) →
  map fst (columnas_destino NFKD mapeo finales df) = finales.
Proof.
  intros Hnd. unfold columnas_destino. cbn zeta.
  set (df2 := map _ (map _ df)).
  rewrite filter_todos by (intros; by apply rellenar_completa).
  unfold seleccionar.
  assert (∀ f, f ∈ finales →
    map fst (List.filter (con_etiqueta f) (rellenar finales df2)) = [f])
    as Hf.
  { intros f Hin. rewrite rellenar_filter. unfold df2.
    rewrite origen_en_columnas, origen_filter.
    pose proof (origen_sin_repetir mapeo df f Hnd) as Hlen.
    pose proof (origen_etiquetas mapeo df f) as Het.
    destruct (origen NFKD mapeo df f) as [|[c d] [|? ?]]; cbn in *; [| |lia].
    - assert (existsb (λ f0, String.eqb f0 f) finales = true) as ->; [|done].
      apply existsb_exists. exists f. split; [by apply list_elem_of_In|].
      apply String.eqb_refl.
    - apply Forall_cons in Het as [Hc _]. cbn in Hc. by subst. }
  revert Hf. generalize (rellenar finales df2). intros df3.
  induction finales as [|f finales IH]; intros Hf; [done|]. cbn.
  rewrite map_app, Hf by left. cbn. f_equal.
  apply IH. intros g Hg. apply Hf. by right.
Qed.

End DestinoCorrecto.

(** The headers of the example report: ten source columns, eight of them
    known to the mapping, give the 22 destination columns. *)
Lemma columnas_destino_exactas_ejemplo :
  map fst (Columnas.columnas_destino Columnas.NFKD_espanol
             Columnas.MAPEO_CONDUCTA Columnas.COLUMNAS_FINALES_CONDUCTA
             Columnas.encabezados_conducta)
  = Columnas.COLUMNAS_FINALES_CONDUCTA.
Proof.
  apply (columnas_destino_exactas Columnas.NFKD_espanol
           Columnas.MAPEO_CONDUCTA Columnas.COLUMNAS_FINALES_CONDUCTA
           Columnas.encabezados_conducta).
  apply (bool_decide_unpack _). vm_compute. exact I.
Defined.

(* ===================================================================== *)
(** * What a stage leaves in the trace                                    *)
(* ===================================================================== *)

Import Reporte.

Section Emite.
Context {W : Type}.
Variable P : evento → Prop.

(** The world after a call that raised, and after one that returned. *)
Lemma bind_llamar {B} (D : driver W) c (k : respuesta c → M W B) m :
  bind (llamar D c) k m
  = match D c (estado m) with
    | (inl e, w) =>
        (Raise (Exc e), mkMundo w (traza m ++ [EvLlamada c (inl e)]))
    | (inr v, w) =>
        k v (mkMundo w (traza m ++ [EvLlamada c (inr (a_valor c v))]))
    end.
Proof.
  unfold bind, llamar. by destruct (D c (estado m)) as [[e|v] w].
Qed.

Lemma emite_ret {A} (a : A) : emite P (@ret W A a).
Proof. intros m. exists []. by rewrite app_nil_r. Qed.

Lemma emite_lanzar {A} e : emite P (@lanzar W A e).
Proof. intros m. exists []. by rewrite app_nil_r. Qed.

Lemma emite_anotar ev : P ev → emite P (@anotar W ev).
Proof. intros H m. exists [ev]. split; [done|]. by constructor. Qed.

Lemma emite_llamar (D : driver W) c :
  (∀ r, P (EvLlamada c r)) → emite P (llamar D c).
Proof.
  intros H m. unfold llamar. destruct (D c (estado m)) as [r w].
  exists [EvLlamada c (a_valor_res c r)].
  split; [by destruct r|]. by constructor.
Qed.

Lemma emite_bind {A B} (p : M W A) (k : A → M W B) :
  emite P p → (∀ a, emite P (k a)) → emite P (bind p k).
Proof.
  intros Hp Hk m. unfold bind. destruct (Hp m) as (evs & Ht & Hevs).
  destruct (p m) as [[a|e] m1]; cbn in Ht.
  - destruct (Hk a m1) as (evs' & Ht' & Hevs'). exists (evs ++ evs').
    split; [by rewrite Ht', Ht, app_assoc|]. by apply Forall_app.
  - by exists evs.
Qed.

Lemma emite_try_except {A} (p : M W A) clase h :
  emite P p → (∀ e, emite P (h e)) → emite P (try_except p clase h).
Proof.
  intros Hp Hh m. unfold try_except. destruct (Hp m) as (evs & Ht & Hevs).
  destruct (p m) as [[a|[e|c]] m1]; cbn in Ht; [by exists evs| |by exists evs].
  destruct (clase e); [|by exists evs].
  destruct (Hh e m1) as (evs' & Ht' & Hevs'). exists (evs ++ evs').
  split; [by rewrite Ht', Ht, app_assoc|]. by apply Forall_app.
Qed.

Lemma emite_try_except2 {A} (p : M W A) c1 h1 c2 h2 :
  emite P p → (∀ e, emite P (h1 e)) → (∀ e, emite P (h2 e)) →
  emite P (try_except2 p c1 h1 c2 h2).
Proof.
  intros Hp H1 H2 m. unfold try_except2. destruct (Hp m) as (evs & Ht & Hevs).
  destruct (p m) as [[a|[e|c]] m1]; cbn in Ht; [by exists evs| |by exists evs].
  destruct (c1 e).
  { destruct (H1 e m1) as (evs' & Ht' & Hevs'). exists (evs ++ evs').
    split; [by rewrite Ht', Ht, app_assoc|]. by apply Forall_app. }
  destruct (c2 e); [|by exists evs].
  destruct (H2 e m1) as (evs' & Ht' & Hevs'). exists (evs ++ evs').
  split; [by rewrite Ht', Ht, app_assoc|]. by apply Forall_app.
Qed.

Lemma emite_try_finally {A} (p : M W A) f :
  emite P p → emite P f → emite P (try_finally p f).
Proof.
  intros Hp Hf m. unfold try_finally. destruct (Hp m) as (evs & Ht & Hevs).
  destruct (p m) as [r m1]. cbn in Ht.
  destruct (Hf m1) as (evs' & Ht' & Hevs').
  exists (evs ++ evs'). split; [|by apply Forall_app].
  destruct (f m1) as [[[]|e] m2]; cbn in *; by rewrite Ht', Ht, app_assoc.
Qed.

Lemma emite_if {A} (b : bool) (p q : M W A) :
  emite P p → emite P q → emite P (if b then p else q).
Proof. by destruct b. Qed.

Lemma emite_retry_bucle {A} (pol : politica) (f : M W A) restantes :
  emite P f → P (EvLog WARNING (before_sleep pol) None) →
  (∀ q, P (EvSleep q)) →
  ∀ n, emite P (retry_bucle pol f restantes n).
Proof.
  intros Hf Hlog Hsleep.
  induction restantes as [|restantes IH]; intros n m; cbn [retry_bucle];
    destruct (Hf m) as (evs & Ht & Hevs);
    destruct (f m) as [[a|[e|c]] m1]; cbn in Ht; try by exists evs.
  - destruct (retry_if_exception_type pol e); by exists evs.
  - destruct (retry_if_exception_type pol e); [|by exists evs].
    unfold logger, sleep. rewrite !bind_anotar. cbn [estado traza].
    set (m2 := mkMundo _ _). destruct (IH (n + 1) m2) as (evs' & Ht' & Hevs').
    exists (evs ++ [EvLog WARNING (before_sleep pol) None;
                    EvSleep (inject_Z (wait pol n))] ++ evs').
    split.
    + rewrite Ht'. unfold m2. cbn. rewrite Ht. by rewrite <- !app_assoc.
    + apply Forall_app. split; [done|]. by repeat constructor.
Qed.

End Emite.

(** Syntax-directed proof of what a program emits. *)
Ltac paso_emite :=
  lazymatch goal with
  | |- emite _ (bind _ _) =>
      apply emite_bind;
      [|let a := fresh "a" in intros a; cbv beta; try (cbn [respuesta] in a)]
  | |- emite _ (try_except _ _ _) =>
      apply emite_try_except; [|intros ?; cbv beta]
  | |- emite _ (try_except2 _ _ _ _ _) =>
      apply emite_try_except2; [|intros ?; cbv beta|intros ?; cbv beta]
  | |- emite _ (try_finally _ _) => apply emite_try_finally
  | |- emite _ (if _ then _ else _) => apply emite_if
  | |- emite _ (match ?x with _ => _ end) => destruct x
  | |- emite ?P (llamar ?D ?c) =>
      refine (emite_llamar P D c _); intros ?; exact I
  | |- emite _ (ret _) => apply emite_ret
  | |- emite _ (lanzar _) => apply emite_lanzar
  | |- emite _ (sleep _) => apply emite_anotar; exact I
  | |- emite _ (logger _ _) => apply emite_anotar; exact I
  | |- emite _ (logger_exc _ _ _) => apply emite_anotar; exact I
  | |- emite _ _ => solve [auto]
  end.
Ltac emite := repeat paso_emite.

Section EtapasLimpias.
Context {W : Type}.
Variable D : driver W.
Variable E : enumeracion.

Lemma veces_app f evs1 evs2 :
  veces f (evs1 ++ evs2) = (veces f evs1 + veces f evs2)%nat.
Proof.
  unfold veces, llamadas. by rewrite omap_app, List.filter_app, length_app.
Qed.

Lemma veces_etapa_get evs :
  Forall evento_de_etapa evs → veces es_get evs = 0%nat.
Proof.
  induction 1 as [|ev evs Hev _ IH]; [done|].
  change (ev :: evs) with ([ev] ++ evs). rewrite veces_app, IH.
  by destruct ev as [[] ?| |].
Qed.

Lemma veces_etapa_script evs :
  Forall evento_de_etapa evs → veces es_script_fila evs = 0%nat.
Proof.
  induction 1 as [|ev evs Hev _ IH]; [done|].
  change (ev :: evs) with ([ev] ++ evs). rewrite veces_app, IH.
  destruct ev as [[] ?| |]; try done. by destruct s.
Qed.

Lemma esperar_spinner_bucle_etapa l :
  emite evento_de_etapa (esperar_spinner_bucle D l).
Proof. induction l as [|x l IH]; cbn [esperar_spinner_bucle]; emite. Qed.

Lemma esperar_spinner_etapa : emite evento_de_etapa (esperar_spinner D).
Proof.
  unfold esperar_spinner. pose proof esperar_spinner_bucle_etapa. emite.
Qed.

Lemma cerrar_ventanas_etapa hs h :
  emite evento_de_etapa (cerrar_ventanas D hs h).
Proof. induction hs as [|x l IH]; cbn [cerrar_ventanas]; emite. Qed.

Lemma cerrar_modal_y_volver_etapa h :
  emite evento_de_etapa (cerrar_modal_y_volver D h).
Proof.
  unfold cerrar_modal_y_volver, cerrar_modal_cuerpo, cerrar_modal_reset.
  pose proof cerrar_ventanas_etapa. emite.
Qed.

Lemma cerrar_modal_y_volver_no_lanza h :
  no_lanza (cerrar_modal_y_volver D h).
Proof.
  unfold cerrar_modal_y_volver.
  pose proof (solo_cerrar_modal_cuerpo D).
  pose proof (solo_cerrar_modal_reset D).
  no_lanza.
Qed.

Lemma click_boton_ejecutar_inferior_etapa :
  emite evento_de_etapa (click_boton_ejecutar_inferior D).
Proof. unfold click_boton_ejecutar_inferior. emite. Qed.

Lemma cargar_ultimos_parametros_etapa n :
  emite evento_de_etapa (cargar_ultimos_parametros D n).
Proof.
  pose proof esperar_spinner_etapa.
  induction n as [|n IH]; cbn [cargar_ultimos_parametros]; emite.
Qed.

Lemma click_ejecutar_modal_etapa l :
  emite evento_de_etapa (click_ejecutar_modal D l).
Proof.
  induction l as [|x l IH]; cbn [click_ejecutar_modal];
    unfold intentar_selector; emite.
Qed.

Lemma manejar_modal_parametros_etapa f :
  emite evento_de_etapa (manejar_modal_parametros D E f).
Proof.
  unfold manejar_modal_parametros, detectar_contexto, preparar_modal,
    establecer_fechas, establecer_fecha.
  pose proof esperar_spinner_etapa.
  pose proof cargar_ultimos_parametros_etapa.
  pose proof click_ejecutar_modal_etapa.
  emite.
Qed.

(** Property X5.  The three stages that work inside the report page, the
    click on the lower Run button, the parameter modal and the context
    recovery, never load a page, never run the row-selection script and
    never start or end the browser session, whatever the browser answers. *)
Theorem etapas_no_navegan (fecha_ayer : string) (handle_original : handle) :
  emite evento_de_etapa (click_boton_ejecutar_inferior D) ∧
  emite evento_de_etapa (manejar_modal_parametros D E fecha_ayer) ∧
  emite evento_de_etapa (cerrar_modal_y_volver D handle_original).
Proof.
  split_and!.
  - apply click_boton_ejecutar_inferior_etapa.
  - apply manejar_modal_parametros_etapa.
  - apply cerrar_modal_y_volver_etapa.
Qed.

End EtapasLimpias.

(* ===================================================================== *)
(** * Properties of the waits and of the lower Run button                 *)
(* ===================================================================== *)

Section Esperas.
Context {W : Type}.
Variable D : driver W.

Lemma esperar_spinner_bucle_traza l : ∀ m,
  ∃ m' evs,
    esperar_spinner_bucle D l m = (Ok tt, m') ∧
    traza m' = traza m ++ evs ∧
    llamadas evs = map espera_spinner l ∧
    dormidos evs = [].
Proof.
  induction l as [|x l IH]; intros m.
  { exists m, []. by rewrite app_nil_r. }
  cbn [esperar_spinner_bucle]. unfold bind at 1, try_except2, bind at 1, llamar.
  destruct m as [w t]. cbn.
  destruct (D (CWaitUntil 2 _) w) as [[e|v] w1]; cbn.
  - destruct (is_TimeoutException e); cbn.
    + set (m1 := mkMundo _ _).
      destruct (IH m1) as (m' & evs & -> & Ht & Hl & Hd).
      exists m', (EvLlamada (espera_spinner x) (inl e) :: evs).
      split; [done|]. rewrite Ht. cbn. rewrite <- app_assoc.
      split; [done|]. split; [by rewrite <- Hl|done].
    + set (m1 := mkMundo _ _).
      destruct (IH m1) as (m' & evs & -> & Ht & Hl & Hd).
      exists m', (EvLlamada (espera_spinner x) (inl e)
                  :: EvLog DEBUG "Error inesperado buscando spinner" (Some e)
                  :: evs).
      split; [done|]. rewrite Ht. cbn. rewrite <- !app_assoc.
      split; [done|]. split; [by rewrite <- Hl|done].
  - set (m1 := mkMundo _ _).
    destruct (IH m1) as (m' & evs & -> & Ht & Hl & Hd).
    exists m', (EvLlamada (espera_spinner x) (inr (VElemento v)) :: evs).
    split; [done|]. rewrite Ht. cbn. rewrite <- app_assoc.
    split; [done|]. split; [by rewrite <- Hl|done].
Qed.

(** Property X6.  Waiting for the loading indicators never raises, whatever
    the browser does: it waits once for each of the five indicators, in
    their listed order and for 2 seconds each (the [timeout] argument of the
    source is not used), makes no other call, and sleeps 2 seconds, once, at
    the end. *)
Theorem esperar_spinner_cinco_esperas (m : mundo W) :
  ∃ m' evs,
    esperar_spinner D m = (Ok tt, m') ∧
    traza m' = traza m ++ evs ∧
    llamadas evs = map espera_spinner spinners ∧
    dormidos evs = [2%Q].
Proof.
  unfold esperar_spinner.
  destruct (esperar_spinner_bucle_traza spinners m)
    as (m1 & evs & H & Ht & Hl & Hd).
  rewrite (bind_ok _ _ _ _ _ H). unfold sleep, anotar.
  eexists _, (evs ++ [EvSleep 2]). split; [done|]. cbn.
  split; [by rewrite Ht, app_assoc|].
  unfold llamadas, dormidos in *. rewrite !omap_app, Hl, Hd. cbn.
  by rewrite ?app_nil_r.
Qed.

(** Property X7.  The click on the lower Run button never raises.  It
    first waits for a previous modal to go away.  If that wait raises
    anything but a timeout, it returns false and does nothing else.  If the
    wait returns or times out, the next call is the wait for the button
    [btnEjecutarParent], in the state the first wait left: a timeout of the
    first wait is passed over.  When the button is found it is clicked, and
    only when that click raises, clicked again by script.  The function
    returns true exactly when the button was found and one of the two
    clicks went through. *)
Theorem click_boton_ejecutar_inferior_resultado (m : mundo W) :
  ∃ b m' evs,
    click_boton_ejecutar_inferior D m = (Ok b, m') ∧
    traza m' = traza m ++ evs ∧
    (∃ resto, llamadas evs = espera_modal_previo :: resto) ∧
    (b = true ↔ clic_inferior_hecho evs) ∧
    (∀ e w1,
       D espera_modal_previo (estado m) = (inl e, w1) →
       is_TimeoutException e = false →
       b = false ∧ llamadas evs = [espera_modal_previo]) ∧
    (∀ r w1,
       D espera_modal_previo (estado m) = (r, w1) →
       (∀ e, r = inl e → is_TimeoutException e = true) →
       (b = true ↔
        ∃ boton w2,
          D espera_boton_inferior w1 = (inr boton, w2) ∧
          ((∃ w3, D (CClick boton) w2 = (inr tt, w3)) ∨
           (∃ e w3 v w4,
              D (CClick boton) w2 = (inl e, w3) ∧
              D (clic_js boton) w3 = (inr v, w4)))) ∧
       (∀ e w2,
          D espera_boton_inferior w1 = (inl e, w2) →
          llamadas evs = [espera_modal_previo; espera_boton_inferior]) ∧
       (∀ boton w2 w3,
          D espera_boton_inferior w1 = (inr boton, w2) →
          D (CClick boton) w2 = (inr tt, w3) →
          llamadas evs = [espera_modal_previo; espera_boton_inferior;
                          CClick boton]) ∧
       (∀ boton w2 e w3,
          D espera_boton_inferior w1 = (inr boton, w2) →
          D (CClick boton) w2 = (inl e, w3) →
          llamadas evs = [espera_modal_previo; espera_boton_inferior;
                          CClick boton; clic_js boton])).
Proof.
  unfold clic_inferior_hecho, espera_boton_inferior, espera_modal_previo,
    clic_ok, clic_js.
  unfold click_boton_ejecutar_inferior, try_except, bind, llamar, logger,
    logger_exc, anotar, ret.
  destruct m as [w t]. cbn.
  destruct (D (CWaitUntil 10 (invisibility_of_element_located _)) w)
    as [[e|v] w1] eqn:H1; cbn.
  - destruct (is_TimeoutException e) eqn:He; cbn.
    + destruct (D (CWaitUntil 10 (element_to_be_clickable _)) w1)
        as [[e2|boton] w2] eqn:H2; cbn.
      { do 3 eexists. split; [done|]. rewrite <- !app_assoc.
        split; [done|]. cbn. split_and!.
        - by eexists.
        - split; [done|]. intros (b & Hb & _). inv_elem.
        - intros ? ? [= <- _]. congruence.
        - intros ? ? [= <- <-] _. rewrite H2. split_and!.
          + split; [done|]. intros (? & ? & [=] & _).
          + done.
          + intros ? ? ? [=].
          + intros ? ? ? ? [=]. }
      destruct (D (CClick boton) w2) as [[e3|[]] w3] eqn:H3; cbn.
      * destruct (D (CExecuteScript JsClick [ArgElemento boton]) w3)
          as [[e4|v4] w4] eqn:H4; cbn.
        { do 3 eexists. split; [done|]. rewrite <- !app_assoc.
          split; [done|]. cbn. split_and!.
          - by eexists.
          - split; [done|]. intros (b & Hb & [Hc|(v & Hc)]); inv_elem.
          - intros ? ? [= <- _]. congruence.
          - intros ? ? [= <- <-] _. rewrite H2. split_and!.
            + split; [done|].
              intros (? & ? & [= <- <-] & [(? & Hc)|(? & ? & ? & ? & Hc & Hj)]).
              * rewrite H3 in Hc. done.
              * rewrite H3 in Hc. injection Hc as <- <-.
                rewrite H4 in Hj. done.
            + intros ? ? [=].
            + intros ? ? ? [= <- <-] Hc. rewrite H3 in Hc. done.
            + intros ? ? ? ? [= <- <-] _. done. }
        do 3 eexists. split; [done|]. rewrite <- !app_assoc.
        split; [done|]. cbn. split_and!.
        -- by eexists.
        -- split; [|done]. intros _.
           exists boton. split; [busca|]. right. exists (VJs v4). busca.
        -- intros ? ? [= <- _]. congruence.
        -- intros ? ? [= <- <-] _. rewrite H2. split_and!.
           ++ split; [|done]. intros _. exists boton, w2. split; [done|].
              right. rewrite H3. by eexists _, _, _, _.
           ++ intros ? ? [=].
           ++ intros ? ? ? [= <- <-] Hc. rewrite H3 in Hc. done.
           ++ intros ? ? ? ? [= <- <-] _. done.
      * do 3 eexists. split; [done|]. rewrite <- !app_assoc.
        split; [done|]. cbn. split_and!.
        -- by eexists.
        -- split; [|done]. intros _.
           exists boton. split; [busca|]. left. busca.
        -- intros ? ? [= <- _]. congruence.
        -- intros ? ? [= <- <-] _. rewrite H2. split_and!.
           ++ split; [|done]. intros _. exists boton, w2. split; [done|].
              left. rewrite H3. by eexists.
           ++ intros ? ? [=].
           ++ intros ? ? ? [= <- <-] _. done.
           ++ intros ? ? ? ? [= <- <-] Hc. rewrite H3 in Hc. done.
    + do 3 eexists. split; [done|]. rewrite <- !app_assoc.
      split; [done|]. cbn. split_and!.
      * by eexists.
      * split; [done|]. intros (b & Hb & _). inv_elem.
      * done.
      * intros ? ? [= <- _] Hr. specialize (Hr e eq_refl). congruence.
  - destruct (D (CWaitUntil 10 (element_to_be_clickable _)) w1)
      as [[e2|boton] w2] eqn:H2; cbn.
    { do 3 eexists. split; [done|]. rewrite <- !app_assoc.
      split; [done|]. cbn. split_and!.
      - by eexists.
      - split; [done|]. intros (b & Hb & _). inv_elem.
      - intros ? ? [=].
      - intros ? ? [= <- <-] _. rewrite H2. split_and!.
        + split; [done|]. intros (? & ? & [=] & _).
        + done.
        + intros ? ? ? [=].
        + intros ? ? ? ? [=]. }
    destruct (D (CClick boton) w2) as [[e3|[]] w3] eqn:H3; cbn.
    * destruct (D (CExecuteScript JsClick [ArgElemento boton]) w3)
        as [[e4|v4] w4] eqn:H4; cbn.
      { do 3 eexists. split; [done|]. rewrite <- !app_assoc.
        split; [done|]. cbn. split_and!.
        - by eexists.
        - split; [done|]. intros (b & Hb & [Hc|(v' & Hc)]); inv_elem.
        - intros ? ? [=].
        - intros ? ? [= <- <-] _. rewrite H2. split_and!.
          + split; [done|].
            intros (? & ? & [= <- <-] & [(? & Hc)|(? & ? & ? & ? & Hc & Hj)]).
            * rewrite H3 in Hc. done.
            * rewrite H3 in Hc. injection Hc as <- <-.
              rewrite H4 in Hj. done.
          + intros ? ? [=].
          + intros ? ? ? [= <- <-] Hc. rewrite H3 in Hc. done.
          + intros ? ? ? ? [= <- <-] _. done. }
      do 3 eexists. split; [done|]. rewrite <- !app_assoc.
      split; [done|]. cbn. split_and!.
      -- by eexists.
      -- split; [|done]. intros _.
         exists boton. split; [busca|]. right. exists (VJs v4). busca.
      -- intros ? ? [=].
      -- intros ? ? [= <- <-] _. rewrite H2. split_and!.
         ++ split; [|done]. intros _. exists boton, w2. split; [done|].
            right. rewrite H3. by eexists _, _, _, _.
         ++ intros ? ? [=].
         ++ intros ? ? ? [= <- <-] Hc. rewrite H3 in Hc. done.
         ++ intros ? ? ? ? [= <- <-] _. done.
    * do 3 eexists. split; [done|]. rewrite <- !app_assoc.
      split; [done|]. cbn. split_and!.
      -- by eexists.
      -- split; [|done]. intros _.
         exists boton. split; [busca|]. left. busca.
      -- intros ? ? [=].
      -- intros ? ? [= <- <-] _. rewrite H2. split_and!.
         ++ split; [|done]. intros _. exists boton, w2. split; [done|].
            left. rewrite H3. by eexists.
         ++ intros ? ? [=].
         ++ intros ? ? ? [= <- <-] _. done.
         ++ intros ? ? ? ? [= <- <-] Hc. rewrite H3 in Hc. done.
Qed.

End Esperas.

(** Two pages.  On the one that answers every call the button is found and
    the direct click goes through.  On the one where a modal stays in front
    the first wait times out, which is passed over, the direct click is
    intercepted and the click by script goes through. *)
Lemma click_boton_ejecutar_inferior_ejemplo :
  ((Reporte.click_boton_ejecutar_inferior D_pagina_simple
      (mkMundo tt [])).1 = Ok true ∧
   llamadas (traza (Reporte.click_boton_ejecutar_inferior D_pagina_simple
                      (mkMundo tt [])).2)
   = [Reporte.espera_modal_previo; Reporte.espera_boton_inferior;
      CClick 1]) ∧
  ((Reporte.click_boton_ejecutar_inferior Reporte.D_boton_tapado
      (mkMundo tt [])).1 = Ok true ∧
   llamadas (traza (Reporte.click_boton_ejecutar_inferior
                      Reporte.D_boton_tapado (mkMundo tt [])).2)
   = [Reporte.espera_modal_previo; Reporte.espera_boton_inferior;
      CClick 1; clic_js 1]).
Proof.
  split.
  - destruct (click_boton_ejecutar_inferior_resultado D_pagina_simple
                (mkMundo tt []))
      as (b & m' & evs & Hr & Ht & _ & _ & _ & H).
    destruct (H (inr 1) tt eq_refl) as (Hb & _ & Hl & _); [by intros e [=]|].
    cbn in Ht. rewrite Hr. cbn [fst snd].
    rewrite Ht, (Hl 1 tt tt eq_refl eq_refl).
    split; [|done]. f_equal. apply Hb. exists 1, tt. split; [done|].
    left. by exists tt.
  - destruct (click_boton_ejecutar_inferior_resultado Reporte.D_boton_tapado
                (mkMundo tt []))
      as (b & m' & evs & Hr & Ht & _ & _ & _ & H).
    destruct (H (inl TimeoutException) tt eq_refl) as (Hb & _ & _ & Hl);
      [by intros e [= <-]|].
    cbn in Ht. rewrite Hr. cbn [fst snd].
    rewrite Ht, (Hl 1 tt WebDriverException tt eq_refl eq_refl).
    split; [|done]. f_equal. apply Hb. exists 1, tt. split; [done|].
    right. by exists WebDriverException, tt, JsNull, tt.
Defined.

(* ===================================================================== *)
(** * Properties of the navigation to the report list                     *)
(* ===================================================================== *)

Section Navegar.
Context {W : Type}.
Variable D : driver W.

(** One attempt loads the page once. *)
Lemma navegar_a_reportes_cuerpo_carga m :
  ∃ evs, traza (navegar_a_reportes_cuerpo D m).2 = traza m ++ evs ∧
         veces es_get evs = 1%nat.
Proof.
  unfold navegar_a_reportes_cuerpo. unfold logger at 1. rewrite bind_anotar.
  rewrite bind_llamar. cbn [estado traza].
  destruct (D (CGet url_reportes) (estado m)) as [[e|[]] w] eqn:H.
  { eexists [_; _]. cbn. by rewrite <- app_assoc. }
  set (m2 := mkMundo _ _).
  assert (emite evento_de_etapa
            (llamar D (CWaitUntil 20
               (visibility_of_element_located (ById "dgdProcedimientos_main"))) ;;
             esperar_spinner D ;;
             logger INFO "Pagina de reportes cargada y grid visible" ;;
             sleep 4)%py) as Hresto.
  { pose proof (esperar_spinner_etapa D). emite. }
  destruct (Hresto m2) as (evs & Ht & Hevs).
  exists ([EvLog INFO "Navegando a" None;
           EvLlamada (CGet url_reportes) (inr VNone)] ++ evs).
  split.
  - rewrite Ht. unfold m2. cbn. by rewrite <- !app_assoc.
  - rewrite veces_app, (veces_etapa_get evs Hevs). done.
Qed.

Lemma retry_bucle_cargas {A} (pol : politica) (f : M W A) :
  (∀ m, ∃ evs, traza (f m).2 = traza m ++ evs ∧ veces es_get evs = 1%nat) →
  ∀ restantes n m,
    ∃ evs, traza (retry_bucle pol f restantes n m).2 = traza m ++ evs ∧
           (1 ≤ veces es_get evs ≤ S restantes)%nat.
Proof.
  intros Hf. induction restantes as [|restantes IH]; intros n m;
    cbn [retry_bucle]; destruct (Hf m) as (evs & Ht & Hevs);
    destruct (f m) as [[a|[e|c]] m1]; cbn in Ht;
    try (exists evs; split; [done|lia]).
  - destruct (retry_if_exception_type pol e); exists evs; (split; [done|lia]).
  - destruct (retry_if_exception_type pol e);
      [|exists evs; split; [done|lia]].
    unfold logger, sleep. rewrite !bind_anotar. cbn [estado traza].
    set (m2 := mkMundo _ _). destruct (IH (n + 1) m2) as (evs' & Ht' & Hevs').
    exists (evs ++ [EvLog WARNING (before_sleep pol) None;
                    EvSleep (inject_Z (wait pol n))] ++ evs').
    split.
    + rewrite Ht'. unfold m2. cbn. rewrite Ht. by rewrite <- !app_assoc.
    + rewrite !veces_app. change (veces es_get [_; _]) with 0%nat. lia.
Qed.

(** Property X8.  However the browser behaves, one call of
    [navegar_a_reportes] requests the report page at least once and at most
    three times: the retry policy never starts a fourth attempt. *)
Theorem navegar_a_reportes_tres_cargas (m : mundo W) :
  ∃ evs, traza (navegar_a_reportes D m).2 = traza m ++ evs ∧
         (1 ≤ veces es_get evs ≤ 3)%nat.
Proof.
  apply (retry_bucle_cargas politica_navegar).
  apply navegar_a_reportes_cuerpo_carga.
Qed.

End Navegar.

(* ===================================================================== *)
(** * Properties of the report download                                   *)
(* ===================================================================== *)

Section DescargarCorrecto.
Context {W : Type}.
Variable D : driver W.
Variable E : enumeracion.
Variable obtener_archivos_en_directorio : M W (gset string).
Variable esperar_descarga_completa : gset string → M W string.
Variable ruta_descarga : string → string.

Notation cuerpo :=
  (descargar_reporte_cuerpo D E obtener_archivos_en_directorio
     esperar_descarga_completa ruta_descarga).
Notation descargar :=
  (descargar_reporte D E obtener_archivos_en_directorio
     esperar_descarga_completa ruta_descarga).

(** On a page without the grid the selector gives up after the script. *)
Lemma seleccionar_fila_reporte_sin_grid reporte_id m :
  (∀ w, ∃ w', D (api_grid reporte_id) w
              = (inr (JsTexto "GRID_NOT_FOUND"), w')) →
  ∃ m' evs,
    seleccionar_fila_reporte D reporte_id m = (Ok false, m') ∧
    traza m' = traza m ++ evs ∧ veces es_script_fila evs = 1%nat.
Proof.
  intros Hg. unfold seleccionar_fila_reporte, logger. rewrite bind_anotar.
  unfold try_except. rewrite bind_llamar. cbn [estado traza].
  destruct (Hg (estado m)) as (w' & Hw). unfold api_grid in Hw. rewrite Hw.
  rewrite bind_anotar. cbn.
  do 2 eexists. split; [done|]. cbn. rewrite <- !app_assoc. split; [done|].
  done.
Qed.

(** Property X9.  On a page where the grid is missing (and the window handle
    and the screenshot can be taken) [descargar_reporte] fails at once: the
    row-selection script runs exactly once and the plain [Exception] of step
    1 comes out as it is.  The retry policy does not apply to it, so there
    is no second attempt: failures of the steps are not retried. *)
Theorem descargar_reporte_sin_grid (reporte_info : reporte)
    (fecha_ayer : string) (m : mundo W)
    (Hhandle : ∀ w, ∃ h w', D CCurrentWindowHandle w = (inr h, w'))
    (Hgrid : ∀ w, ∃ w', D (api_grid (id reporte_info)) w
                        = (inr (JsTexto "GRID_NOT_FOUND"), w'))
    (Hcaptura : ∀ w, ∃ w', D (captura_reporte reporte_info) w
                           = (inr tt, w')) :
  ∃ m' evs,
    descargar reporte_info fecha_ayer m = (Raise (Exc PlainException), m') ∧
    traza m' = traza m ++ evs ∧
    veces es_script_fila evs = 1%nat.
Proof.
  assert (∃ m' evs,
    cuerpo reporte_info fecha_ayer m = (Raise (Exc PlainException), m') ∧
    traza m' = traza m ++ evs ∧
    veces es_script_fila evs = 1%nat) as (m' & evs & Hc & Ht & Hv).
  { unfold descargar_reporte_cuerpo, logger. rewrite !bind_anotar.
    rewrite bind_llamar. cbn [estado traza].
    destruct (Hhandle (estado m)) as (h & w0 & ->).
    set (m0 := mkMundo _ _).
    destruct (seleccionar_fila_reporte_sin_grid (id reporte_info) m0 Hgrid)
      as (m1 & evs1 & Hs & Ht1 & Hv1).
    unfold try_except, pasos_descarga. rewrite (bind_ok _ _ _ _ _ Hs).
    cbn [negb]. unfold lanzar at 1. unfold bind at 1. cbn [Exception].
    unfold logger_exc. rewrite bind_anotar. rewrite bind_llamar.
    cbn [estado traza].
    destruct (Hcaptura (estado m1)) as (w2 & ->).
    set (m2 := mkMundo _ _).
    destruct (cerrar_modal_y_volver_no_lanza D h m2) as ([] & m3 & Hm3).
    destruct (cerrar_modal_y_volver_etapa D h m2) as (evs3 & Ht3 & Hevs3).
    rewrite (bind_ok _ _ _ _ _ Hm3). unfold lanzar.
    rewrite Hm3 in Ht3. cbn in Ht3.
    do 2 eexists. split; [done|]. rewrite Ht3. unfold m2. cbn [traza].
    rewrite Ht1. unfold m0. cbn [traza]. rewrite <- !app_assoc.
    split; [done|].
    rewrite !veces_app, Hv1, (veces_etapa_script evs3 Hevs3). done. }
  exists m', evs. split; [|done].
  unfold descargar_reporte, retry.
  by apply retry_bucle_no_reintenta.
Qed.

(** Property X10.  The retry policy of [descargar_reporte]: when the first
    attempt fails with a WebDriver exception or a timeout, a warning is
    logged, the function sleeps 10 seconds and runs once more.  The second
    attempt is the last one: if it fails with an exception of those classes
    the caller gets [RetryError], and any other outcome of it is final. *)
Theorem descargar_reporte_un_reintento (reporte_info : reporte)
    (fecha_ayer : string) (m m1 m2 : mundo W) (e1 : excepcion)
    (r2 : result string) :
  cuerpo reporte_info fecha_ayer m = (Raise (Exc e1), m1) →
  reintentable_descarga e1 = true →
  cuerpo reporte_info fecha_ayer (tras_espera politica_descarga 1 m1)
  = (r2, m2) →
  descargar reporte_info fecha_ayer m
  = (match r2 with
     | Raise (Exc e2) =>
         if reintentable_descarga e2 then Raise (Exc RetryError) else r2
     | _ => r2
     end, m2) ∧
  traza (tras_espera politica_descarga 1 m1)
  = traza m1 ++ [EvLog WARNING "Reintentando descarga de reporte..." None;
                 EvSleep 10].
Proof.
  intros H1 He1 H2. split; [|done].
  unfold descargar_reporte, retry. cbn [stop_after_attempt politica_descarga].
  change (2 - 1)%nat with 1%nat.
  rewrite (retry_bucle_reintenta politica_descarga _ _ _ _ _ _ H1 He1).
  cbn [retry_bucle]. fold politica_descarga. change (1 + 1) with 2.
  rewrite H2. destruct r2 as [a|[e2|c]]; [done| |done].
  cbn [retry_if_exception_type politica_descarga].
  by destruct (reintentable_descarga e2).
Qed.

End DescargarCorrecto.

(** On the page without grid report 23 fails after one run of the
    script. *)
Lemma descargar_reporte_sin_grid_ejemplo :
  ∃ m' evs,
    descargar_reporte D_sin_grid por_elementos directorio_vacio sin_descarga
      en_descargas (mkReporte "23" "Conducta - Agentes") "01/02/2024"
      (mkMundo tt [])
    = (Raise (Exc PlainException), m') ∧
    traza m' = [] ++ evs ∧
    veces es_script_fila evs = 1%nat.
Proof.
  apply (descargar_reporte_sin_grid D_sin_grid por_elementos directorio_vacio
           sin_descarga en_descargas (mkReporte "23" "Conducta - Agentes")
           "01/02/2024" (mkMundo tt [])).
  - intros []. by exists "main"%string, tt.
  - intros []. by exists tt.
  - intros []. by exists tt.
Defined.

(** On the page that answers every call, with a download that never
    arrives, both attempts time out. *)
Lemma descargar_reporte_un_reintento_ejemplo :
  ∃ m2,
    descargar_reporte D_pagina_simple por_elementos directorio_vacio
      sin_descarga en_descargas (mkReporte "24" "Estados operativos - Agentes")
      "01/02/2024" (mkMundo tt [])
    = (Raise (Exc RetryError), m2).
Proof.
  pose (cuerpo := descargar_reporte_cuerpo D_pagina_simple por_elementos
                    directorio_vacio sin_descarga en_descargas
                    (mkReporte "24" "Estados operativos - Agentes")
                    "01/02/2024").
  pose (m1 := (cuerpo (mkMundo tt [])).2).
  pose (m2 := (cuerpo (tras_espera politica_descarga 1 m1)).2).
  assert (cuerpo (mkMundo tt []) = (Raise (Exc TimeoutError), m1)) as H1
    by (vm_compute; reflexivity).
  assert (cuerpo (tras_espera politica_descarga 1 m1)
          = (Raise (Exc TimeoutError), m2)) as H2
    by (vm_compute; reflexivity).
  exists m2.
  exact (proj1 (descargar_reporte_un_reintento D_pagina_simple por_elementos
                  directorio_vacio sin_descarga en_descargas
                  (mkReporte "24" "Estados operativos - Agentes")
                  "01/02/2024" (mkMundo tt []) m1 m2 TimeoutError
                  (Raise (Exc TimeoutError)) H1 eq_refl H2)).
Defined.

(* ===================================================================== *)
(** * Properties of the time columns                                      *)
(* ===================================================================== *)

Section TiemposCorrectos.
Import Transformacion Tiempos.

Variable py_float : string → option flotante.

Lemma contiene_caracter_lstrip c s :
  contiene_caracter c (lstrip s) = true → contiene_caracter c s = true.
Proof.
  induction s as [|x s IH]; [done|]. cbn [lstrip].
  destruct (es_espacio x); [|done]. intros H. cbn. by rewrite IH, orb_true_r.
Qed.

Lemma contiene_caracter_rstrip c s :
  contiene_caracter c (rstrip s) = true → contiene_caracter c s = true.
Proof.
  induction s as [|x s IH]; [done|]. cbn [rstrip].
  destruct (rstrip s) as [|y r] eqn:E.
  - destruct (es_espacio x); [done|]. cbn. rewrite orb_false_r.
    by intros ->.
  - cbn [contiene_caracter]. intros [->|H]%orb_true_iff; [done|].
    by rewrite IH, orb_true_r.
Qed.

Lemma contiene_caracter_strip c s :
  contiene_caracter c (strip s) = true → contiene_caracter c s = true.
Proof.
  intros H. by apply contiene_caracter_lstrip, contiene_caracter_rstrip.
Qed.

(** Property X11.  The time conversion either returns or raises
    [OverflowError], and it raises only on values written with a colon:
    every other value, number or not, gets a float. *)
Theorem convertir_tiempo_a_minutos_solo_desborda (v : Transformacion.valor) :
  (∃ f, convertir_tiempo_a_minutos py_float v = Ok f) ∨
  (convertir_tiempo_a_minutos py_float v = Raise (Exc OverflowError) ∧
   contiene_caracter ":" (str v) = true).
Proof.
  destruct (convertir_tiempo_a_minutos py_float v) as [f|e] eqn:H; [eauto|].
  right. pose proof (convertir_tiempo_a_minutos_lanza py_float v e H) as ->.
  split; [done|].
  destruct (isna v) eqn:Hna.
  { rewrite convertir_tiempo_a_minutos_vacio in H by auto. done. }
  destruct (decide (strip (str v) ∈ vacios)) as [Hv|Hv].
  { rewrite convertir_tiempo_a_minutos_vacio in H by auto. done. }
  destruct (contiene_caracter ":" (strip (str v))) eqn:Hc.
  - by apply contiene_caracter_strip.
  - rewrite convertir_tiempo_a_minutos_numero in H by done. done.
Qed.

Lemma convertir_tiempo_a_minutos_dos_puntos v e :
  convertir_tiempo_a_minutos py_float v = Raise e →
  e = Exc OverflowError ∧ contiene_caracter ":" (str v) = true.
Proof.
  intros H. pose proof (convertir_tiempo_a_minutos_lanza py_float v e H) as ->.
  split; [done|].
  destruct (isna v) eqn:Hna.
  { rewrite convertir_tiempo_a_minutos_vacio in H by auto. done. }
  destruct (decide (strip (str v) ∈ vacios)) as [Hv|Hv].
  { rewrite convertir_tiempo_a_minutos_vacio in H by auto. done. }
  destruct (contiene_caracter ":" (strip (str v))) eqn:Hc.
  - by apply contiene_caracter_strip.
  - rewrite convertir_tiempo_a_minutos_numero in H by done. done.
Qed.

Lemma apply_length {B C} (f : B → result C) col xs :
  apply f col = Ok xs → length xs = length col.
Proof.
  revert xs. induction col as [|v col IH]; intros xs; cbn.
  { by intros [= <-]. }
  destruct (f v) as [x|e]; [|done]. cbn.
  destruct (apply f col) as [ys|e]; [|done]. cbn.
  intros [= <-]. cbn. by rewrite (IH ys).
Qed.

(** The exception an [apply] ends with comes from one of the values. *)
Lemma apply_lanza {B C} (f : B → result C) col e :
  apply f col = Raise e → ∃ v, v ∈ col ∧ f v = Raise e.
Proof.
  induction col as [|v col IH]; cbn; [done|].
  destruct (f v) as [x|e'] eqn:Hv; cbn.
  - destruct (apply f col) as [ys|e'] eqn:Hc; [done|]. cbn. intros [= ->].
    destruct IH as (v' & Hin & Hv'); [done|]. exists v'. split; [by right|done].
  - intros [= ->]. exists v. split; [by left|done].
Qed.

Lemma apply_lanza_si {B C} (f : B → result C) col v e :
  v ∈ col → f v = Raise e → ∃ e', apply f col = Raise e'.
Proof.
  induction col as [|x col IH]; [by intros ?%elem_of_nil|].
  intros [->|Hin]%elem_of_cons Hv; cbn.
  - rewrite Hv. eauto.
  - destruct (f x) as [y|e']; [|eauto]. cbn.
    destruct (IH Hin Hv) as (e' & ->). eauto.
Qed.

Context {W : Type}.
Variable to_numeric : Transformacion.valor → excepcion + option flotante.

Lemma apply_to_numeric_lanza col e :
  apply (to_numeric_coerce to_numeric) col = Raise e → ∃ x, e = Exc x.
Proof.
  intros (v & _ & H)%apply_lanza. unfold to_numeric_coerce in H.
  destruct (to_numeric v); [|done]. injection H as <-. eauto.
Qed.

(** Property X12.  Processing a time column never raises and never changes
    the number of rows, whatever the column holds and whatever the numeric
    parser does with it. *)
Theorem procesar_columna_tiempo_total (col : list Transformacion.valor)
    (m : mundo W) :
  ∃ xs m',
    procesar_columna_tiempo py_float to_numeric col m = (Ok xs, m') ∧
    length xs = length col.
Proof.
  unfold procesar_columna_tiempo, try_except. cbn zeta.
  destruct (existsb _ _).
  - unfold Principal.elevar.
    destruct (apply _ col) as [xs|e] eqn:Ha.
    + exists xs, m. split; [done|]. by apply apply_length in Ha.
    + apply apply_lanza in Ha as (v & _ & Hv).
      apply convertir_tiempo_a_minutos_dos_puntos in Hv as [-> _].
      cbn. do 2 eexists. split; [done|]. by rewrite length_map.
  - unfold bind at 1, Principal.elevar.
    destruct (apply _ col) as [xs|e] eqn:Ha.
    + cbn. do 2 eexists. split; [done|]. unfold fillna.
      rewrite length_map. by apply apply_length in Ha.
    + apply apply_to_numeric_lanza in Ha as (x & ->).
      cbn. do 2 eexists. split; [done|]. by rewrite length_map.
Qed.

(** Property X13.  One value the time conversion cannot take is enough to
    lose the whole column: when the conversion of any value of the column
    raises, the function logs one warning and every row of the column, the
    good ones included, becomes 0.0. *)
Theorem procesar_columna_tiempo_anula (col : list Transformacion.valor)
    (v : Transformacion.valor) (e : exn) (m : mundo W) :
  v ∈ col →
  convertir_tiempo_a_minutos py_float v = Raise e →
  procesar_columna_tiempo py_float to_numeric col m
  = (Ok (map (λ _, cero) col),
     mkMundo (estado m)
       (traza m ++ [EvLog WARNING "Error procesando columna de tiempo"
                      (Some OverflowError)])).
Proof.
  intros Hin Hv. unfold procesar_columna_tiempo, try_except. cbn zeta.
  destruct (convertir_tiempo_a_minutos_dos_puntos v e Hv) as [-> Hc].
  assert (existsb (contiene_caracter ":") (map str col) = true) as ->.
  { apply existsb_exists. exists (str v). split; [|done].
    apply in_map, list_elem_of_In, Hin. }
  unfold Principal.elevar.
  destruct (apply_lanza_si _ col v _ Hin Hv) as (e' & Ha). rewrite Ha.
  apply apply_lanza in Ha as (v' & _ & Hv').
  apply convertir_tiempo_a_minutos_dos_puntos in Hv' as [-> _]. done.
Qed.

End TiemposCorrectos.

(** A column with one oversized value between two ordinary times. *)
Lemma procesar_columna_tiempo_anula_ejemplo :
  Tiempos.procesar_columna_tiempo Tiempos.sin_numeros Tiempos.todo_nan
    Tiempos.columna_con_desborde (mkMundo tt [])
  = (Ok [Transformacion.cero; Transformacion.cero; Transformacion.cero],
     mkMundo tt [EvLog WARNING "Error procesando columna de tiempo"
                   (Some OverflowError)]).
Proof.
  apply (procesar_columna_tiempo_anula Tiempos.sin_numeros Tiempos.todo_nan
           Tiempos.columna_con_desborde
           (Transformacion.cadena Transformacion.horas_enormes)
           (Exc OverflowError) (mkMundo tt [])).
  - apply elem_of_cons. right. apply elem_of_cons. by left.
  - vm_compute. reflexivity.
Defined.

(* ===================================================================== *)
(** * Properties of the transformation phase                              *)
(* ===================================================================== *)

Section Inversion.
Context {W : Type}.

Lemma bind_ok_inv {A B} (p : M W A) (k : A → M W B) m b m' :
  bind p k m = (Ok b, m') → ∃ a m1, p m = (Ok a, m1) ∧ k a m1 = (Ok b, m').
Proof.
  unfold bind. destruct (p m) as [[a|e] m1]; [eauto|done].
Qed.

Lemma try_except_ok_inv {A} (p : M W A) clase h m a m' :
  try_except p clase h m = (Ok a, m') →
  p m = (Ok a, m') ∨
  ∃ e m1, p m = (Raise (Exc e), m1) ∧ h e m1 = (Ok a, m').
Proof.
  unfold try_except. destruct (p m) as [[x|[e|c]] m1]; [auto| |done].
  destruct (clase e); [eauto|done].
Qed.

End Inversion.

(** [no_lanza] and [solo], through [match] as well. *)
Ltac no_lanza_casos :=
  repeat first
    [ lazymatch goal with
      | |- no_lanza (match ?x with _ => _ end) => destruct x
      | |- solo_Exception (match ?x with _ => _ end) => destruct x
      end
    | paso_no_lanza
    | paso_solo ].

Section TransformarCorrecto.
Import Principal Transformar.
Context {W : Type} {Crudo : Type}.
Variable basename : string → string.
Variable read_csv : string → string → M W Crudo.
Variable read_excel : string → M W Crudo.
Variable dropna_all : Crudo → Crudo.
Variable transformar_conducta_agentes : Crudo → string → M W dataframe.
Variable transformar_estados_operativos : Crudo → string → M W dataframe.

Notation procesar :=
  (procesar_archivo Crudo basename read_csv read_excel dropna_all
     transformar_conducta_agentes transformar_estados_operativos).
Notation bucle :=
  (bucle_archivos Crudo basename read_csv read_excel dropna_all
     transformar_conducta_agentes transformar_estados_operativos).
Notation fase :=
  (ejecutar_transformacion Crudo basename read_csv read_excel dropna_all
     transformar_conducta_agentes transformar_estados_operativos).

Notation tipo archivo := (identificar_tipo_archivo (basename archivo)).

(** Reading with the three encodings never raises. *)
Lemma leer_csv_no_lanza archivo encodings :
  (∀ a enc, solo_Exception (read_csv a enc)) →
  no_lanza (leer_csv Crudo read_csv archivo encodings).
Proof.
  intros Hcsv.
  induction encodings as [|enc l IH]; cbn [leer_csv]; no_lanza_casos.
Qed.

(** Property X14.  The transformation phase never raises: a file that no
    reader can parse, or whose transformer raises, is logged and skipped,
    and the phase goes on with the next file.  (The readers and transformers
    raise nothing but subclasses of [Exception].) *)
Theorem ejecutar_transformacion_no_lanza (archivos : list string)
    (fecha_ayer : string)
    (Hcsv : ∀ a enc, solo_Exception (read_csv a enc))
    (Hexcel : ∀ a, solo_Exception (read_excel a))
    (Hconducta : ∀ df f, solo_Exception (transformar_conducta_agentes df f))
    (Hestados : ∀ df f, solo_Exception (transformar_estados_operativos df f)) :
  no_lanza (fase archivos fecha_ayer).
Proof.
  pose proof (leer_csv_no_lanza) as Hleer.
  assert (∀ r a, no_lanza (procesar fecha_ayer r a)) as Hp.
  { intros r a. unfold procesar_archivo. cbv zeta.
    pose proof (λ a l, no_lanza_solo _ (Hleer a l Hcsv)).
    pose proof (λ a l, Hleer a l Hcsv).
    no_lanza_casos. }
  assert (∀ r, no_lanza (bucle fecha_ayer archivos r)) as Hb.
  { induction archivos as [|a l IH]; intros r; cbn [bucle_archivos]; no_lanza. }
  unfold ejecutar_transformacion. no_lanza.
Qed.

(** What one file can change in the dictionary. *)
Lemma procesar_archivo_entradas fecha_ayer r archivo m d m' :
  procesar fecha_ayer r archivo m = (Ok d, m') →
  (conducta d = conducta r ∨ tipo archivo = "conducta"%string) ∧
  (estados_operativos d = estados_operativos r
   ∨ tipo archivo = "estados_operativos"%string).
Proof.
  unfold procesar_archivo. cbv zeta. unfold logger. rewrite bind_anotar.
  intros [H|(e & m1 & _ & H)]%try_except_ok_inv.
  2:{ unfold logger_exc, logger in H. rewrite !bind_anotar in H.
      injection H as <- _. auto. }
  apply bind_ok_inv in H as (df & m1 & _ & H).
  apply bind_ok_inv in H as (df' & m2 & _ & H).
  destruct df' as [df'|].
  2:{ unfold logger in H. rewrite bind_anotar in H. injection H as <- _. auto. }
  unfold logger in H. rewrite bind_anotar in H.
  destruct (String.eqb (tipo archivo) "conducta") eqn:E1.
  { apply String.eqb_eq in E1.
    apply bind_ok_inv in H as (t & m3 & _ & H). injection H as <- _. auto. }
  destruct (String.eqb (tipo archivo) "estados_operativos") eqn:E2.
  { apply String.eqb_eq in E2.
    apply bind_ok_inv in H as (t & m3 & _ & H). injection H as <- _. auto. }
  rewrite bind_anotar in H. injection H as <- _. auto.
Qed.

Lemma bucle_archivos_entradas fecha_ayer archivos : ∀ r m d m',
  bucle fecha_ayer archivos r m = (Ok d, m') →
  (conducta d = conducta r
   ∨ ∃ a, a ∈ archivos ∧ tipo a = "conducta"%string) ∧
  (estados_operativos d = estados_operativos r
   ∨ ∃ a, a ∈ archivos ∧ tipo a = "estados_operativos"%string).
Proof.
  induction archivos as [|a l IH]; intros r m d m'; cbn [bucle_archivos].
  { intros [= <- _]. auto. }
  intros (r1 & m1 & H1 & H2)%bind_ok_inv.
  apply procesar_archivo_entradas in H1 as [Hc He].
  apply IH in H2 as [Hc' He']. split.
  - destruct Hc' as [->|(x & Hx & Ht)]; [|right; exists x; split; [by right|done]].
    destruct Hc as [->|Ht]; [by left|]. right. exists a. split; [by left|done].
  - destruct He' as [->|(x & Hx & Ht)]; [|right; exists x; split; [by right|done]].
    destruct He as [->|Ht]; [by left|]. right. exists a. split; [by left|done].
Qed.

(** Property X15.  What the phase returns under each key comes from a file
    of that kind: the entry for the agents' conduct report is filled only
    when one of the files is named as one (its base name, in any case,
    contains conducta), and the entry for the operative states only when one
    is named as one (contains estados or operativo, and not conducta).
    Files of unknown kind are read but never stored. *)
Theorem ejecutar_transformacion_por_tipo (archivos : list string)
    (fecha_ayer : string) (m : mundo W) :
  match (fase archivos fecha_ayer m).1 with
  | Ok d =>
      (conducta d ≠ None →
       ∃ a, a ∈ archivos ∧ tipo a = "conducta"%string) ∧
      (estados_operativos d ≠ None →
       ∃ a, a ∈ archivos ∧ tipo a = "estados_operativos"%string)
  | Raise _ => True
  end.
Proof.
  unfold ejecutar_transformacion, logger. rewrite !bind_anotar.
  set (m1 := mkMundo _ _).
  destruct (bucle fecha_ayer archivos _ m1) as [[d|e] m'] eqn:H; [|done].
  apply bucle_archivos_entradas in H as [Hc He]. cbn in *.
  split; intros Hd; [destruct Hc|destruct He]; done.
Qed.

End TransformarCorrecto.

(** Two files that nothing can read: the phase returns the empty
    dictionary. *)
Lemma ejecutar_transformacion_no_lanza_ejemplo :
  ∃ d m',
    Transformar.ejecutar_transformacion nat Transformar.ultimo_componente
      Transformar.csv_ilegible Transformar.excel_ilegible (λ df, df)
      (Transformar.transformar_a 22) (Transformar.transformar_a 32)
      ["descargas/Conducta.xls"; "descargas/Estados.csv"]%string "01/02/2024"
      (mkMundo tt [])
    = (Ok d, m').
Proof.
  apply (ejecutar_transformacion_no_lanza Transformar.ultimo_componente
           Transformar.csv_ilegible Transformar.excel_ilegible (λ df, df)
           (Transformar.transformar_a 22) (Transformar.transformar_a 32)
           ["descargas/Conducta.xls"; "descargas/Estados.csv"]%string
           "01/02/2024").
  - intros a enc m c m'. unfold Transformar.csv_ilegible, lanzar. congruence.
  - intros a m c m'. unfold Transformar.excel_ilegible, lanzar. congruence.
  - intros df f m c m'. unfold Transformar.transformar_a, ret. congruence.
  - intros df f m c m'. unfold Transformar.transformar_a, ret. congruence.
Defined.

(* ===================================================================== *)
(** * Properties of the configuration and of the exit status              *)
(* ===================================================================== *)

Import Salida.

Lemma obtener_variable_entorno_definida env nombre valor :
  obtener_variable_entorno env nombre true = Ok valor ↔
  definida env nombre valor.
Proof.
  unfold obtener_variable_entorno, definida, falsy. cbn [andb].
  destruct (env !! nombre) as [v|]; cbn.
  - destruct (String.eqb v "") eqn:E.
    + apply String.eqb_eq in E. subst. split; [done|]. by intros [[= <-] ?].
    + apply String.eqb_neq in E. split.
      * intros [= <-]. done.
      * by intros [[= <-] _].
  - split; [done|]. by intros [? _].
Qed.

Lemma obtener_variable_entorno_lanza env nombre e :
  obtener_variable_entorno env nombre true = Raise e →
  e = Exc EnvironmentError.
Proof.
  unfold obtener_variable_entorno. cbn [andb].
  destruct (falsy _); congruence.
Qed.

(** Property X16.  The module loads its configuration exactly when each of
    the six required variables is set to a non-empty text, and the
    configuration then holds those six texts; in every other environment
    loading raises [EnvironmentError]. *)
Theorem cargar_configuracion_completa (env : entorno) :
  (∀ cfg, cargar_configuracion env = Ok cfg ↔
     definida env "NEOTEL_USER" (NEOTEL_USER cfg) ∧
     definida env "NEOTEL_PASS" (NEOTEL_PASS cfg) ∧
     definida env "SQL_SERVER" (SQL_SERVER cfg) ∧
     definida env "SQL_DATABASE" (SQL_DATABASE cfg) ∧
     definida env "SQL_USER" (SQL_USER cfg) ∧
     definida env "SQL_PASSWORD" (SQL_PASSWORD cfg)) ∧
  ((∃ cfg, cargar_configuracion env = Ok cfg) ∨
   cargar_configuracion env = Raise (Exc EnvironmentError)).
Proof.
  unfold cargar_configuracion.
  destruct (obtener_variable_entorno env "NEOTEL_USER" true) as [v1|e] eqn:H1.
  2:{ pose proof (obtener_variable_entorno_lanza _ _ _ H1) as ->. cbn. split; [|auto].
      intros cfg. split; [done|]. intros (H & _).
      apply obtener_variable_entorno_definida in H. congruence. }
  destruct (obtener_variable_entorno env "NEOTEL_PASS" true) as [v2|e] eqn:H2.
  2:{ pose proof (obtener_variable_entorno_lanza _ _ _ H2) as ->. cbn. split; [|auto].
      intros cfg. split; [done|]. intros (_ & H & _).
      apply obtener_variable_entorno_definida in H. congruence. }
  destruct (obtener_variable_entorno env "SQL_SERVER" true) as [v3|e] eqn:H3.
  2:{ pose proof (obtener_variable_entorno_lanza _ _ _ H3) as ->. cbn. split; [|auto].
      intros cfg. split; [done|]. intros (_ & _ & H & _).
      apply obtener_variable_entorno_definida in H. congruence. }
  destruct (obtener_variable_entorno env "SQL_DATABASE" true) as [v4|e] eqn:H4.
  2:{ pose proof (obtener_variable_entorno_lanza _ _ _ H4) as ->. cbn. split; [|auto].
      intros cfg. split; [done|]. intros (_ & _ & _ & H & _).
      apply obtener_variable_entorno_definida in H. congruence. }
  destruct (obtener_variable_entorno env "SQL_USER" true) as [v5|e] eqn:H5.
  2:{ pose proof (obtener_variable_entorno_lanza _ _ _ H5) as ->. cbn. split; [|auto].
      intros cfg. split; [done|]. intros (_ & _ & _ & _ & H & _).
      apply obtener_variable_entorno_definida in H. congruence. }
  destruct (obtener_variable_entorno env "SQL_PASSWORD" true) as [v6|e] eqn:H6.
  2:{ pose proof (obtener_variable_entorno_lanza _ _ _ H6) as ->. cbn. split; [|auto].
      intros cfg. split; [done|]. intros (_ & _ & _ & _ & _ & H).
      apply obtener_variable_entorno_definida in H. congruence. }
  cbn. split; [|eauto]. intros cfg.
  apply obtener_variable_entorno_definida in H1, H2, H3, H4, H5, H6.
  split.
  - intros [= <-]. cbn. done.
  - intros (G1 & G2 & G3 & G4 & G5 & G6). destruct cfg. cbn in *.
    destruct H1 as [H1 _], H2 as [H2 _], H3 as [H3 _], H4 as [H4 _],
      H5 as [H5 _], H6 as [H6 _].
    destruct G1 as [G1 _], G2 as [G2 _], G3 as [G3 _], G4 as [G4 _],
      G5 as [G5 _], G6 as [G6 _].
    congruence.
Qed.

Section Salidas.
Context {W : Type}.

Lemma bind_raise_inv {A B} (p : M W A) (k : A → M W B) m e m' :
  bind p k m = (Raise e, m') →
  p m = (Raise e, m') ∨ ∃ a m1, p m = (Ok a, m1) ∧ k a m1 = (Raise e, m').
Proof.
  unfold bind. destruct (p m) as [[a|x] m1]; [eauto|]. intros [= -> ->]. auto.
Qed.

Lemma sale_bind {A B} codigo (p : M W A) (k : A → M W B) :
  sale_solo_con codigo p → (∀ a, sale_solo_con codigo (k a)) →
  sale_solo_con codigo (bind p k).
Proof.
  intros Hp Hk m c m' [H|(a & m1 & _ & H)]%bind_raise_inv.
  - by apply Hp in H.
  - by apply Hk in H.
Qed.

Lemma sale_solo {A} codigo (p : M W A) :
  solo_Exception p → sale_solo_con codigo p.
Proof. intros Hp m c m' H. by apply Hp in H. Qed.

Lemma sale_sys_exit {A} codigo : sale_solo_con codigo (@sys_exit W A codigo).
Proof. intros m c m'. unfold sys_exit, lanzar. congruence. Qed.

Lemma solo_elevar_fecha now :
  solo_Exception (@elevar W _ (Fecha.calcular_fecha_ayer now)).
Proof.
  intros m c m'. unfold elevar, Fecha.calcular_fecha_ayer, Fecha.sub_days.
  cbn zeta. destruct (_ && _); [|cbn; congruence].
  destruct (Fecha._ord2ymd _) as [[y mo] d]. cbn. congruence.
Qed.

Variable now : Fecha.datetime.
Variable ejecutar_extraccion : string → M W (list string).
Variable ejecutar_transformacion : list string → string → M W datos.
Variable ejecutar_carga : datos → string → M W unit.

(** Property X17.  [main] never lets an exception reach the interpreter, and
    when it runs to its end the process exits with 0, 1 or 2: every
    exception of a phase is logged and turned into [sys.exit(2)] if it is an
    [OSError] ([EnvironmentError] is one) and into [sys.exit(1)] if it is
    not, and the only other exit of [main] is [sys.exit(1)] for an empty
    download or an empty transformation.  (The phases themselves raise
    nothing but subclasses of [Exception].) *)
Theorem main_tres_salidas (m : mundo W)
    (Hextraccion : ∀ f, solo_Exception (ejecutar_extraccion f))
    (Htransformacion : ∀ a f, solo_Exception (ejecutar_transformacion a f))
    (Hcarga : ∀ d f, solo_Exception (ejecutar_carga d f)) :
  let r :=
    (main now ejecutar_extraccion ejecutar_transformacion ejecutar_carga m).1 in
  (r = Ok tt ∨ r = Raise (SystemExit 1) ∨ r = Raise (SystemExit 2)) ∧
  (codigo_salida r = 0 ∨ codigo_salida r = 1 ∨ codigo_salida r = 2).
Proof.
  cbn zeta.
  assert (let r := (main now ejecutar_extraccion ejecutar_transformacion
                      ejecutar_carga m).1 in
          r = Ok tt ∨ r = Raise (SystemExit 1) ∨ r = Raise (SystemExit 2))
    as H.
  2:{ cbn zeta in H. split; [done|].
      destruct H as [->|[->| ->]]; cbn; auto. }
  cbn zeta. unfold main, logger. rewrite bind_anotar.
  set (m1 := mkMundo _ _). unfold try_except2.
  match goal with |- context [match ?p m1 with _ => _ end] =>
    assert (sale_solo_con 1 p) as Hsale; [|destruct (p m1) as [[[]|[e|c]] m2] eqn:H]
  end.
  { unfold calcular_fecha_ayer.
    repeat first
      [ apply sale_bind; [|intros ?]
      | apply sale_sys_exit
      | apply sale_solo;
        first [ apply solo_elevar_fecha | apply Hextraccion
              | apply Htransformacion | apply Hcarga
              | apply solo_anotar | apply solo_ret ]
      | lazymatch goal with
        | |- sale_solo_con _ (match ?x with _ => _ end) => destruct x
        end ]. }
  - by left.
  - destruct (is_OSError e); cbn; auto.
  - apply Hsale in H as ->. cbn. auto.
Qed.

End Salidas.

(** A run in which the three phases do their work ends with status 0. *)
Lemma main_tres_salidas_ejemplo :
  let r :=
    (main primero_de_marzo extraccion_de_dos transformacion_de_dos carga_hecha
       (mkMundo tt [])).1 in
  (r = Ok tt ∨ r = Raise (SystemExit 1) ∨ r = Raise (SystemExit 2)) ∧
  (codigo_salida r = 0 ∨ codigo_salida r = 1 ∨ codigo_salida r = 2).
Proof.
  apply (main_tres_salidas primero_de_marzo extraccion_de_dos
           transformacion_de_dos carga_hecha (mkMundo tt [])).
  - intros f m c m'. unfold extraccion_de_dos, ret. congruence.
  - intros a f m c m'. unfold transformacion_de_dos, ret. congruence.
  - intros d f m c m'. unfold carga_hecha, ret. congruence.
Defined.

(* ===================================================================== *)
(** * The browser session of the extraction phase                         *)
(* ===================================================================== *)

Section Cierre.
Context {W : Type}.
Variable D : driver W.
Variable limpiar_directorio_descargas : M W unit.
Variable login_neotel : M W unit.
Variable navegar_a_reportes : M W unit.
Variable descargar_reporte : reporte → M W string.

Notation extraccion :=
  (ejecutar_extraccion D limpiar_directorio_descargas login_neotel
     navegar_a_reportes descargar_reporte).

(** Property X18.  Once the browser has started, the extraction phase always
    ends its session: whatever the login, the navigation and the downloads
    do, return or raise, the last driver call of the phase is [quit],
    followed only by the record that the browser was closed.  When [quit]
    itself raises, that exception is what the phase raises. *)
Theorem ejecutar_extraccion_cierra_navegador (reportes : list reporte)
    (m m1 m2 : mundo W) :
  limpiar_directorio_descargas
    (mkMundo (estado m) (traza m ++ [EvLog INFO "FASE 1: EXTRACCION" None]))
  = (Ok tt, m1) →
  llamar D CChrome (antes_de_chrome m1) = (Ok tt, m2) →
  ∃ (m3 : mundo W) (q : excepcion + valor),
    traza (extraccion reportes m).2
    = traza m3 ++ EvLlamada CQuit q
                  :: match q with
                     | inr _ => [EvLog INFO "Navegador cerrado" None]
                     | inl _ => []
                     end ∧
    ∀ e, q = inl e → (extraccion reportes m).1 = Raise (Exc e).
Proof.
  intros H1 H2. unfold ejecutar_extraccion, logger. rewrite bind_anotar.
  rewrite (bind_ok _ _ _ _ _ H1). rewrite bind_anotar.
  fold (antes_de_chrome m1).
  assert (try_except (llamar D CChrome) Exception
            (λ e, logger_exc ERROR "Error en extraccion" e ;; lanzar (Exc e))%py
            (antes_de_chrome m1) = (Ok tt, m2)) as H3.
  { unfold try_except. by rewrite H2. }
  rewrite (bind_ok _ _ _ _ _ H3). unfold try_finally.
  match goal with |- context [match ?p m2 with _ => _ end] =>
    destruct (p m2) as [r m3]
  end.
  rewrite bind_llamar.
  destruct (D CQuit (estado m3)) as [[e|[]] w].
  - exists m3, (inl e). split; [done|]. by intros ? [= <-].
  - unfold logger, anotar. exists m3, (inr VNone). cbn. split; [|done].
    by rewrite <- app_assoc.
Qed.

End Cierre.

(** With callees that do nothing and the second report the only one that
    downloads, on the page that answers every call. *)
Lemma ejecutar_extraccion_cierra_navegador_ejemplo :
  ∃ (m3 : mundo unit) (q : excepcion + valor),
    traza (ejecutar_extraccion D_pagina_simple sin_efecto sin_efecto sin_efecto
             descargar_solo_24 REPORTES (mkMundo tt [])).2
    = traza m3 ++ EvLlamada CQuit q
                  :: match q with
                     | inr _ => [EvLog INFO "Navegador cerrado" None]
                     | inl _ => []
                     end ∧
    ∀ e, q = inl e →
      (ejecutar_extraccion D_pagina_simple sin_efecto sin_efecto sin_efecto
         descargar_solo_24 REPORTES (mkMundo tt [])).1 = Raise (Exc e).
Proof.
  exact (ejecutar_extraccion_cierra_navegador D_pagina_simple sin_efecto
           sin_efecto sin_efecto descargar_solo_24 REPORTES (mkMundo tt [])
           _ _ eq_refl eq_refl).
Defined.

(* ===================================================================== *)
(** * Properties of the load phase                                        *)
(* ===================================================================== *)

Section FechaISO.
Import Fecha Carga.

Lemma directiva_d_pad2 d r :
  1 ≤ d ≤ 31 →
  directiva_d (pad2 d +:+ String "/" r) = Some (d, String "/" r).
Proof.
  intros Hd.
  assert (d = 1 ∨ d = 2 ∨ d = 3 ∨ d = 4 ∨ d = 5 ∨ d = 6 ∨ d = 7 ∨ d = 8 ∨ d = 9 ∨ d = 10 ∨ d = 11 ∨ d = 12 ∨ d = 13 ∨ d = 14 ∨ d = 15 ∨ d = 16 ∨ d = 17 ∨ d = 18 ∨ d = 19 ∨ d = 20 ∨ d = 21 ∨ d = 22 ∨ d = 23 ∨ d = 24 ∨ d = 25 ∨ d = 26 ∨ d = 27 ∨ d = 28 ∨ d = 29 ∨ d = 30 ∨ d = 31) as H by lia.
  repeat (destruct H as [->|H]; [reflexivity|]). subst. reflexivity.
Qed.

Lemma directiva_m_pad2 m r :
  1 ≤ m ≤ 12 →
  directiva_m (pad2 m +:+ String "/" r) = Some (m, String "/" r).
Proof.
  intros Hm.
  assert (m = 1 ∨ m = 2 ∨ m = 3 ∨ m = 4 ∨ m = 5 ∨ m = 6 ∨ m = 7 ∨ m = 8 ∨ m = 9 ∨ m = 10 ∨ m = 11 ∨ m = 12) as H by lia.
  repeat (destruct H as [->|H]; [reflexivity|]). subst. reflexivity.
Qed.

Lemma directiva_Y_todos : forallb check_Y (Zrange 1000 9000) = true.
Proof. vm_compute. reflexivity. Qed.

Lemma directiva_Y_pad4 y :
  1000 ≤ y ≤ 9999 → directiva_Y (pad4 y) = Some (y, EmptyString).
Proof.
  intros Hy. pose proof directiva_Y_todos as C.
  rewrite forallb_forall in C.
  specialize (C y (In_Zrange 1000 9000 y ltac:(lia))).
  unfold check_Y in C.
  destruct (directiva_Y (pad4 y)) as [[y' [|? ?]]|]; [|done..].
  apply Z.eqb_eq in C. by subst.
Qed.

(** Property X19.  The date filter of the load reads back the business date:
    for the date [calcular_fecha_ayer] prints as DD/MM/YYYY (any valid date
    from year 1000 on), the text passed to the DELETE statement is the same
    day written YYYY-MM-DD. *)
Theorem fecha_iso_de_fecha_ayer (y m d : Z) :
  fecha_valida y m d → 1000 ≤ y →
  fecha_iso (formato_DDMMYYYY (y, m, d)) = formato_ISO (y, m, d).
Proof.
  intros (Hy & Hm & Hd) Hy'.
  pose proof (days_in_month_le_31 y m).
  unfold fecha_iso, strptime_dmY, formato_DDMMYYYY, formato_ISO.
  change ("/" +:+ ?r)%string with (String "/" r).
  rewrite directiva_d_pad2 by lia. cbn [barra].
  change ("/" +:+ ?r)%string with (String "/" r).
  rewrite directiva_m_pad2 by lia. cbn [barra].
  rewrite directiva_Y_pad4 by lia.
  replace (1 <=? y) with true by (symmetry; apply Z.leb_le; lia).
  replace (d <=? _days_in_month y m) with true
    by (symmetry; apply Z.leb_le; lia).
  cbn [andb]. unfold strftime_Ymd. by rewrite decimal_pad4 by lia.
Qed.

End FechaISO.

(** The last day of February of a leap year. *)
Lemma fecha_iso_de_fecha_ayer_ejemplo :
  Carga.fecha_iso "29/02/2024" = "2024-02-29"%string.
Proof.
  apply (fecha_iso_de_fecha_ayer 2024 2 29).
  - unfold Fecha.fecha_valida. vm_compute. intuition discriminate.
  - lia.
Defined.

Section Lotes.
Import Carga.
Context {A : Type}.

Lemma lotes_desde_spec (n : nat) : (0 < n)%nat →
  ∀ quedan (l : list A), (length l ≤ quedan)%nat →
    concat (lotes_desde quedan n l) = l ∧
    Forall (λ b, (0 < length b ≤ n)%nat) (lotes_desde quedan n l).
Proof.
  intros Hn. induction quedan as [|quedan IH]; intros l Hl.
  { destruct l; [done|cbn in Hl; lia]. }
  destruct l as [|x l]; [done|]. cbn [lotes_desde].
  destruct (IH (drop n (x :: l))) as [Hc Hf].
  { rewrite length_drop. cbn in *. lia. }
  split.
  - cbn [concat]. rewrite Hc. apply take_drop.
  - constructor; [|done]. rewrite length_take. cbn [length]. lia.
Qed.

Lemma concat_lotes (records : list A) :
  concat (lotes batch_size records) = records.
Proof.
  apply (lotes_desde_spec batch_size); [unfold batch_size; lia|done].
Qed.

(** Property X20.  The insert statement is sent batch by batch: the batches
    of the loop are never empty, hold at most 100 rows each, and put
    together in order they are the rows of the frame, each row once. *)
Theorem lotes_de_cien (records : list A) :
  concat (lotes batch_size records) = records ∧
  Forall (λ batch, (0 < length batch ≤ 100)%nat) (lotes batch_size records).
Proof.
  apply (lotes_desde_spec batch_size); [unfold batch_size; lia|done].
Qed.

End Lotes.

Section CargaCorrecta.
Import Carga.
Context {celda S : Type}.
Variable C : conexion celda S.

Notation cargar := (cargar_dataframe_pyodbc celda C).

Lemma bind_operar {B} op (k : unit → M (sesion celda S) B) m :
  bind (operar celda C op) k m
  = match C op (servidor (estado m)) with
    | (Some e, s) =>
        (Raise (Exc e),
         mkMundo (mkSesion s (bitacora (estado m) ++ [(op, Some e)])) (traza m))
    | (None, s) =>
        k tt (mkMundo (mkSesion s (bitacora (estado m) ++ [(op, None)]))
                (traza m))
    end.
Proof.
  unfold bind, operar. by destruct (C op (servidor (estado m))) as [[e|] s].
Qed.

Lemma bind_operar_acepta {B} op (k : unit → M (sesion celda S) B) m :
  acepta celda C op →
  bind (operar celda C op) k m
  = k tt (mkMundo (mkSesion (C op (servidor (estado m))).2
                     (bitacora (estado m) ++ [(op, None)])) (traza m)).
Proof.
  intros H. rewrite bind_operar. specialize (H (servidor (estado m))).
  destruct (C op (servidor (estado m))) as [r s]. cbn in *. by subst.
Qed.

(** Property X21.  A load that has nothing to send sends nothing.  For a
    missing or empty frame the function returns 0, and for a table that is
    not on the whitelist it raises [ValueError]; in both cases the server is
    not touched: no cursor, no statement, no commit.  (An empty frame is not
    checked against the whitelist.) *)
Theorem cargar_dataframe_pyodbc_sin_operaciones (df : option (frame celda))
    (tabla fecha_filtro : string) (m : mundo (sesion celda S)) :
  sin_filas celda df = true ∨ tabla ∉ TABLAS_PERMITIDAS →
  estado (cargar df tabla fecha_filtro m).2 = estado m ∧
  (cargar df tabla fecha_filtro m).1
  = if sin_filas celda df then Ok 0%nat else Raise (Exc ValueError).
Proof.
  intros H. unfold cargar_dataframe_pyodbc.
  destruct df as [df|]; [|done]. cbn [sin_filas] in *.
  destruct (empty celda df) eqn:E; [done|].
  destruct H as [?|H]; [done|].
  unfold validar_tabla_permitida. rewrite (bool_decide_eq_false_2 _ H). done.
Qed.

(** Row by row: every row is sent once, in order, and the count grows by
    the rows that went in. *)
Lemma insertar_uno_por_uno_registro sql batch : ∀ inserted m,
  ∃ rs m',
    length rs = length batch ∧
    insertar_uno_por_uno celda C sql batch inserted m
    = (Ok (inserted + aceptadas rs)%nat, m') ∧
    bitacora (estado m')
    = bitacora (estado m)
      ++ zip_with (λ rec r, (OpExecute sql (map PCelda rec), r)) batch rs.
Proof.
  induction batch as [|rec batch IH]; intros inserted m.
  { exists [], m. cbn. by rewrite Nat.add_0_r, app_nil_r. }
  cbn [insertar_uno_por_uno]. unfold bind at 1, try_except.
  rewrite bind_operar.
  destruct (C _ (servidor (estado m))) as [[e|] s]; cbn [Exception].
  - unfold ret at 1. set (m1 := mkMundo _ _).
    destruct (IH inserted m1) as (rs & m' & Hl & -> & Hb).
    exists (Some e :: rs), m'. split_and!.
    + cbn. by rewrite Hl.
    + done.
    + rewrite Hb. unfold m1. cbn. by rewrite <- app_assoc.
  - unfold ret at 1. set (m1 := mkMundo _ _).
    destruct (IH (inserted + 1)%nat m1) as (rs & m' & Hl & -> & Hb).
    exists (None :: rs), m'. split_and!.
    + cbn. by rewrite Hl.
    + do 2 f_equal. unfold aceptadas. cbn [List.filter length].
      by rewrite <- Nat.add_assoc.
    + rewrite Hb. unfold m1. cbn. by rewrite <- app_assoc.
Qed.

Lemma aceptadas_cota rs : (aceptadas rs ≤ length rs)%nat.
Proof. apply List.filter_length_le. Qed.

(** Batch by batch: every batch is sent once, in order, a rejected batch is
    followed by its rows one by one, and the count is that of the rows that
    went in. *)
Lemma insertar_lotes_registro sql pendientes : ∀ inserted failed m,
  ∃ (rs : list (option excepcion * list (option excepcion))) f m',
    Forall2 (λ b r, r.1 ≠ None → length r.2 = length b) pendientes rs ∧
    insertar_lotes celda C sql pendientes inserted failed m
    = (Ok ((inserted
            + sum_list (zip_with (λ b r, insertados_de_lote celda b r.1 r.2)
                          pendientes rs))%nat, f), m') ∧
    bitacora (estado m')
    = bitacora (estado m)
      ++ concat (zip_with (λ b r, registro_de_lote celda sql b r.1 r.2)
                   pendientes rs).
Proof.
  induction pendientes as [|batch pendientes IH]; intros inserted failed m.
  { exists [], failed, m. cbn. rewrite Nat.add_0_r, app_nil_r.
    split; [constructor|done]. }
  cbn [insertar_lotes]. unfold bind at 1, try_except.
  rewrite bind_operar.
  destruct (C _ (servidor (estado m))) as [[e|] s]; cbn [Exception].
  - unfold logger. rewrite bind_anotar. set (m1 := mkMundo _ _).
    destruct (insertar_uno_por_uno_registro sql batch inserted m1)
      as (rs1 & m2 & Hl1 & H1 & Hb1).
    rewrite (bind_ok _ _ _ _ _ H1). unfold ret at 1.
    destruct (IH (inserted + aceptadas rs1)%nat (failed + 1)%nat m2)
      as (rs & f & m' & HF & -> & Hb).
    exists ((Some e, rs1) :: rs), f, m'. split_and!.
    + by constructor.
    + do 3 f_equal.
      cbn [zip_with sum_list_with fst snd insertados_de_lote id].
      by rewrite <- Nat.add_assoc.
    + rewrite Hb, Hb1. unfold m1. cbn. by rewrite <- !app_assoc.
  - unfold ret at 1. set (m1 := mkMundo _ _).
    destruct (IH (inserted + length batch)%nat failed m1)
      as (rs & f & m' & HF & -> & Hb).
    exists ((None, []) :: rs), f, m'. split_and!.
    + by constructor.
    + do 3 f_equal.
      cbn [zip_with sum_list_with fst snd insertados_de_lote id].
      by rewrite <- Nat.add_assoc.
    + rewrite Hb. unfold m1. cbn. by rewrite <- !app_assoc.
Qed.

(** Property X22.  Rows the server rejects do not stop a load.  When the
    cursor, the DELETE of the day and the commit are accepted, the load of a
    non-empty frame into a whitelisted table returns, whatever the server
    answers to the inserts.  Every batch is sent once with [executemany],
    in order; a batch the server rejects is followed by its rows, each sent
    by itself once, in order, and a row rejected again is passed over; the
    rows of an accepted batch are not sent again.  The count returned is
    the number of rows of the accepted batches plus the number of rows
    accepted one by one, so at most the number of rows of the frame.  The
    commit comes last, also when no row went in. *)
Theorem cargar_dataframe_pyodbc_tolera_inserciones (df : frame celda)
    (tabla fecha_filtro : string) (m : mundo (sesion celda S)) :
  empty celda df = false →
  tabla ∈ TABLAS_PERMITIDAS →
  acepta celda C OpCursor →
  acepta celda C
    (OpExecute (delete_query tabla) [PTexto (fecha_iso fecha_filtro)]) →
  acepta celda C OpCommit →
  ∃ (rs : list (option excepcion * list (option excepcion))) n m',
    Forall2 (λ b r, r.1 ≠ None → length r.2 = length b)
      (lotes batch_size (records df)) rs ∧
    cargar (Some df) tabla fecha_filtro m = (Ok n, m') ∧
    n = sum_list (zip_with (λ b r, insertados_de_lote celda b r.1 r.2)
                    (lotes batch_size (records df)) rs) ∧
    (n ≤ length (records df))%nat ∧
    bitacora (estado m')
    = bitacora (estado m)
      ++ (OpCursor, None)
         :: map (λ op, (op, None)) (borrado_del_dia celda df tabla fecha_filtro)
      ++ concat (zip_with
                   (λ b r, registro_de_lote celda
                             (insert_query tabla (columns df)) b r.1 r.2)
                   (lotes batch_size (records df)) rs)
      ++ [(OpCommit, None)].
Proof.
  intros He Ht Hcursor Hdelete Hcommit.
  unfold cargar_dataframe_pyodbc, borrado_del_dia.
  rewrite He. unfold validar_tabla_permitida.
  rewrite (bool_decide_eq_true_2 _ Ht). unfold Principal.elevar at 1.
  unfold bind at 1. rewrite (bind_operar_acepta _ _ _ Hcursor). cbv zeta.
  set (m1 := mkMundo _ _).
  set (borrar := if bool_decide ("fecha"%string ∈ columns df)
                 then [OpExecute (delete_query tabla)
                         [PTexto (fecha_iso fecha_filtro)]]
                 else []).
  assert (∃ m2, (∀ B (k : unit → M (sesion celda S) B),
    bind (if bool_decide ("fecha"%string ∈ columns df)
          then (operar celda C
                  (OpExecute (delete_query tabla)
                     [PTexto (fecha_iso fecha_filtro)]) ;;
                logger INFO "Borrados registros para fecha")%py
          else ret tt) k m1 = k tt m2) ∧
    bitacora (estado m2)
    = bitacora (estado m1) ++ map (λ op, (op, None)) borrar)
    as (m2 & -> & Hb2).
  { unfold borrar. destruct (bool_decide _).
    - eexists. split.
      + intros B k. unfold bind at 1.
        rewrite (bind_operar_acepta _ _ _ Hdelete). unfold logger, anotar.
        reflexivity.
      + done.
    - exists m1. split; [done|]. by rewrite app_nil_r. }
  unfold logger at 1. rewrite bind_anotar. set (m3 := mkMundo _ _).
  destruct (insertar_lotes_registro (insert_query tabla (columns df))
              (lotes batch_size (records df)) 0%nat 0%nat m3)
    as (rs & f & m4 & HF & Hl & Hb4).
  rewrite (bind_ok _ _ _ _ _ Hl).
  rewrite (bind_operar_acepta _ _ _ Hcommit).
  exists rs. eexists. 
  assert (Hcota : ∀ bs rs',
    Forall2 (λ (b : list (list celda)) (r : option excepcion * list (option excepcion)),
               r.1 ≠ None → length r.2 = length b) bs rs' →
    (sum_list (zip_with (λ b r, insertados_de_lote celda b r.1 r.2) bs rs')
     ≤ length (concat bs))%nat).
  { induction 1 as [|b r bs rs' Hbr _ IH]; [done|]. cbn.
    rewrite length_app. apply Nat.add_le_mono; [|done].
    destruct r as [[e|] rs1]; cbn in *; [|done].
    rewrite <- Hbr by done. apply aceptadas_cota. }
  destruct (0 <? f)%nat;
    (eexists; split_and!;
     [exact HF|reflexivity|done
     |cbn [Nat.add]; etrans; [apply (Hcota _ _ HF)|];
      by rewrite (concat_lotes (records df))
     |cbn [estado bitacora]; rewrite Hb4; unfold m3; cbn [estado bitacora];
      rewrite Hb2; unfold m1; cbn [estado bitacora];
      rewrite <- !app_assoc; reflexivity]).
Qed.

(** With a server that accepts everything the batches go in as they are. *)
Lemma insertar_lotes_aceptados sql pendientes :
  (∀ op, acepta celda C op) →
  ∀ inserted failed m,
    ∃ m',
      insertar_lotes celda C sql pendientes inserted failed m
      = (Ok ((inserted + length (concat pendientes))%nat, failed), m') ∧
      bitacora (estado m')
      = bitacora (estado m)
        ++ map (λ batch, (OpExecutemany sql batch, None)) pendientes ∧
      traza m' = traza m.
Proof.
  intros Hc.
  induction pendientes as [|batch pendientes IH]; intros inserted failed m.
  { cbn. exists m. by rewrite Nat.add_0_r, app_nil_r. }
  cbn [insertar_lotes]. unfold bind at 1, try_except.
  rewrite (bind_operar_acepta _ _ _ (Hc _)). unfold ret at 1.
  set (m1 := mkMundo _ _).
  destruct (IH (inserted + length batch)%nat failed m1) as (m' & -> & Hb & Ht).
  exists m'. split.
  - do 2 f_equal. cbn [concat]. rewrite length_app. f_equal. lia.
  - rewrite Hb, Ht. unfold m1. cbn. by rewrite <- app_assoc.
Qed.

(** A frame with rows, on a server that accepts everything. *)
Lemma cargar_marco_aceptado (df : frame celda)
    (tabla fecha_filtro : string) (m : mundo (sesion celda S)) :
  empty celda df = false →
  tabla ∈ TABLAS_PERMITIDAS →
  (∀ op, acepta celda C op) →
  ∃ m',
    cargar (Some df) tabla fecha_filtro m = (Ok (length (records df)), m') ∧
    bitacora (estado m')
    = bitacora (estado m)
      ++ map (λ op, (op, None)) (operaciones_de_carga celda df tabla fecha_filtro).
Proof.
  intros He Ht Hc. unfold cargar_dataframe_pyodbc, operaciones_de_carga.
  rewrite He. unfold validar_tabla_permitida.
  rewrite (bool_decide_eq_true_2 _ Ht). unfold Principal.elevar at 1.
  unfold bind at 1. rewrite (bind_operar_acepta _ _ _ (Hc _)). cbv zeta.
  set (m1 := mkMundo _ _).
  set (borrar := if bool_decide ("fecha"%string ∈ columns df)
                 then [OpExecute (delete_query tabla)
                         [PTexto (fecha_iso fecha_filtro)]]
                 else []).
  assert (∃ m2, (∀ B (k : unit → M (sesion celda S) B),
    bind (if bool_decide ("fecha"%string ∈ columns df)
          then (operar celda C
                  (OpExecute (delete_query tabla)
                     [PTexto (fecha_iso fecha_filtro)]) ;;
                logger INFO "Borrados registros para fecha")%py
          else ret tt) k m1 = k tt m2) ∧
    bitacora (estado m2)
    = bitacora (estado m1) ++ map (λ op, (op, None)) borrar)
    as (m2 & -> & Hb2).
  { unfold borrar. destruct (bool_decide _).
    - eexists. split.
      + intros B k. unfold bind at 1.
        rewrite (bind_operar_acepta _ _ _ (Hc _)). unfold logger, anotar.
        reflexivity.
      + done.
    - exists m1. split; [done|]. by rewrite app_nil_r. }
  unfold logger at 1. rewrite bind_anotar. set (m3 := mkMundo _ _).
  destruct (insertar_lotes_aceptados (insert_query tabla (columns df))
              (lotes batch_size (records df)) Hc 0%nat 0%nat m3)
    as (m4 & Hl & Hb4 & _).
  rewrite (bind_ok _ _ _ _ _ Hl).
  rewrite (bind_operar_acepta _ _ _ (Hc _)).
  rewrite (concat_lotes (records df)). cbn [Nat.ltb Nat.leb].
  eexists. split; [reflexivity|]. cbn [estado bitacora].
  rewrite Hb4. unfold m3. cbn [estado bitacora]. rewrite Hb2.
  unfold m1. cbn [estado bitacora].
  rewrite !map_app, map_map. cbn [map]. by rewrite <- !app_assoc.
Qed.

(** Property X23.  On a server that accepts every operation, the load of a
    non-empty frame into a whitelisted table returns the number of rows of
    the frame and asks for exactly this, in this order: a cursor, the DELETE
    of the rows of the day (only when the frame has a [fecha] column), one
    [executemany] of the INSERT statement per batch, one commit at the end.
    *)
Theorem cargar_dataframe_pyodbc_aceptada (df : frame celda)
    (tabla fecha_filtro : string) (m : mundo (sesion celda S)) :
  empty celda df = false →
  tabla ∈ TABLAS_PERMITIDAS →
  (∀ op, acepta celda C op) →
  ∃ m',
    cargar (Some df) tabla fecha_filtro m = (Ok (length (records df)), m') ∧
    bitacora (estado m')
    = bitacora (estado m)
      ++ map (λ op, (op, None)) (operaciones_de_carga celda df tabla fecha_filtro).
Proof.
  intros He Ht Hc. destruct (cargar_marco_aceptado df tabla fecha_filtro m)
    as (m' & Hr & Hb); [done..|].
  exists m'. by split.
Qed.

(** The same for a frame that may be missing or empty, as the load phase
    calls it. *)
Lemma cargar_tabla_aceptada (df : option (frame celda))
    (tabla fecha_filtro : string) (m : mundo (sesion celda S)) :
  tabla ∈ TABLAS_PERMITIDAS →
  (∀ op, acepta celda C op) →
  ∃ m',
    match df with
    | Some df' => cargar (Some df') tabla fecha_filtro
    | None => ret 0%nat
    end m = (Ok (cargadas celda df), m') ∧
    bitacora (estado m')
    = bitacora (estado m)
      ++ map (λ op, (op, None))
           (operaciones_de_tabla celda df tabla fecha_filtro).
Proof.
  intros Ht Hc. destruct df as [df|]; cbn [cargadas operaciones_de_tabla].
  - destruct (empty celda df) eqn:He.
    + unfold cargar_dataframe_pyodbc. rewrite He. eexists. split; [done|].
      cbn. by rewrite app_nil_r.
    + by apply cargar_marco_aceptado.
  - exists m. split; [done|]. cbn. by rewrite app_nil_r.
Qed.

(** Property X24.  The load phase always closes the connection it opened.
    If the connection cannot be opened the exception is logged and raised,
    and nothing else is asked of the server; once it is open, the last thing
    asked of the server is [close], whatever the loads did before. *)
Theorem ejecutar_carga_cierra_conexion (cadena : string)
    (d : datos celda) (fecha_ayer : string) (m : mundo (sesion celda S)) :
  let r := ejecutar_carga celda C cadena d fecha_ayer m in
  match C (OpConnect cadena) (servidor (estado m)) with
  | (Some e, s) =>
      r.1 = Raise (Exc e) ∧
      estado r.2
      = mkSesion s (bitacora (estado m) ++ [(OpConnect cadena, Some e)])
  | (None, _) =>
      ∃ q, last (bitacora (estado r.2)) = Some (OpClose, q)
  end.
Proof.
  cbn zeta. unfold ejecutar_carga, logger. rewrite !bind_anotar.
  set (m1 := mkMundo _ _).
  assert (∀ h,
    try_except (operar celda C (OpConnect cadena)) Exception
      (λ e, bind (logger_exc ERROR h e) (λ _, lanzar (Exc e))) m1
    = match C (OpConnect cadena) (servidor (estado m)) with
      | (Some e, s) =>
          (Raise (Exc e),
           mkMundo
             (mkSesion s (bitacora (estado m) ++ [(OpConnect cadena, Some e)]))
             (traza m1 ++ [EvLog ERROR h (Some e)]))
      | (None, s) =>
          (Ok tt,
           mkMundo
             (mkSesion s (bitacora (estado m) ++ [(OpConnect cadena, None)]))
             (traza m1))
      end) as Hcon.
  { intros h. unfold try_except, operar. cbn.
    by destruct (C (OpConnect cadena) (servidor (estado m))) as [[e|] s]. }
  destruct (C (OpConnect cadena) (servidor (estado m))) as [[e|] s].
  { by rewrite (bind_raise _ _ _ _ _ (Hcon _)). }
  rewrite (bind_ok _ _ _ _ _ (Hcon _)).
  set (m2 := mkMundo _ _). unfold try_finally.
  match goal with |- context [match ?p m2 with _ => _ end] =>
    destruct (p m2) as [r m3]
  end.
  rewrite bind_operar.
  destruct (C OpClose (servidor (estado m3))) as [[e|] s'].
  - exists (Some e). cbn. apply last_snoc.
  - unfold logger, anotar. exists None. cbn. apply last_snoc.
Qed.

(** Property X25.  On a server that accepts every operation the load phase
    returns the summary with, for each table, the number of rows of its
    frame (0 for a frame that is missing or empty), and asks the server for
    exactly this: the connection, the two CREATE TABLE statements and their
    commit, the load of the conduct table, then the load of the operative
    states table, and [close]. *)
Theorem ejecutar_carga_aceptada (cadena : string) (d : datos celda)
    (fecha_ayer : string) (m : mundo (sesion celda S)) :
  (∀ op, acepta celda C op) →
  ∃ m',
    ejecutar_carga celda C cadena d fecha_ayer m
    = (Ok (mkResumen (cargadas celda (conducta celda d))
             (cargadas celda (estados_operativos celda d))), m') ∧
    bitacora (estado m')
    = bitacora (estado m)
      ++ map (λ op, (op, None)) (operaciones_de_fase celda cadena d fecha_ayer).
Proof.
  intros Hc. unfold ejecutar_carga, logger. rewrite !bind_anotar.
  set (m1 := mkMundo _ _).
  assert (∀ h,
    try_except (operar celda C (OpConnect cadena)) Exception h m1
    = (Ok tt,
       mkMundo (mkSesion (C (OpConnect cadena) (servidor (estado m1))).2
                  (bitacora (estado m) ++ [(OpConnect cadena, None)]))
         (traza m1))) as Hcon.
  { intros h. unfold try_except, operar.
    pose proof (Hc (OpConnect cadena) (servidor (estado m1))) as H.
    destruct (C (OpConnect cadena) (servidor (estado m1))) as [r s].
    cbn in H. subst r. done. }
  rewrite (bind_ok _ _ _ _ _ (Hcon _)). set (m2 := mkMundo _ _).
  set (cuerpo := bind (anotar _) _).
  assert (∃ m5,
    cuerpo m2
    = (Ok (mkResumen (cargadas celda (conducta celda d))
             (cargadas celda (estados_operativos celda d))), m5) ∧
    bitacora (estado m5)
    = bitacora (estado m2)
      ++ map (λ op, (op, None))
           ([OpCursor; OpExecute DDL_CONDUCTA []; OpExecute DDL_ESTADOS [];
             OpCommit]
            ++ operaciones_de_tabla celda (conducta celda d)
                 "tbl_neotel_conducta" fecha_ayer
            ++ operaciones_de_tabla celda (estados_operativos celda d)
                 "tbl_neotel_estados_operativos" fecha_ayer))
    as (m5 & Hcuerpo & Hb5).
  { unfold cuerpo, crear_tablas_si_no_existen, logger.
    rewrite !bind_anotar. unfold bind at 1. rewrite bind_anotar.
    rewrite !(bind_operar_acepta _ _ _ (Hc _)). unfold anotar at 1.
    cbv beta iota.
    match goal with |- ∃ _, bind _ _ ?w = _ ∧ _ => set (m3 := w) end.
    destruct (cargar_tabla_aceptada (conducta celda d) "tbl_neotel_conducta"
                fecha_ayer m3) as (m4 & H4 & Hb4);
      [apply (bool_decide_unpack _); vm_compute; exact I|done|].
    rewrite (bind_ok _ _ _ _ _ H4).
    destruct (cargar_tabla_aceptada (estados_operativos celda d)
                "tbl_neotel_estados_operativos" fecha_ayer m4)
      as (m5 & H5 & Hb5);
      [apply (bool_decide_unpack _); vm_compute; exact I|done|].
    rewrite (bind_ok _ _ _ _ _ H5). rewrite bind_anotar.
    eexists. split; [reflexivity|]. cbn [estado bitacora].
    rewrite Hb5, Hb4. unfold m3. cbn [estado bitacora].
    rewrite !map_app. cbn [map]. by rewrite <- !app_assoc. }
  unfold try_finally, try_except. rewrite Hcuerpo.
  rewrite (bind_operar_acepta _ _ _ (Hc _)). unfold logger, anotar.
  eexists. split; [reflexivity|]. cbn [estado bitacora].
  rewrite Hb5. unfold m2. cbn [estado bitacora].
  unfold operaciones_de_fase. rewrite !map_app. cbn [map app].
  rewrite <- !app_assoc. f_equal. cbn [app]. do 5 f_equal.
  by rewrite <- app_assoc.
Qed.

End CargaCorrecta.

(** Three rows on the server that rejects every batch and every second
    row: the batch is sent and rejected, the three rows are sent one by
    one, the second is rejected and passed over, and the load returns 2
    after the commit. *)
Lemma cargar_dataframe_pyodbc_tolera_inserciones_ejemplo :
  ((Carga.cargar_dataframe_pyodbc Z Carga.servidor_exigente
      (Some Carga.tres_filas) "tbl_neotel_conducta" "29/02/2024"
      (mkMundo (Carga.mkSesion 0%nat []) [])).1 = Ok 2%nat ∧
   map fst
     (Carga.bitacora
        (estado (Carga.cargar_dataframe_pyodbc Z Carga.servidor_exigente
                   (Some Carga.tres_filas) "tbl_neotel_conducta" "29/02/2024"
                   (mkMundo (Carga.mkSesion 0%nat []) [])).2))
   = [Carga.OpCursor;
      Carga.OpExecute (Carga.delete_query "tbl_neotel_conducta")
        [Carga.PTexto "2024-02-29"];
      Carga.OpExecutemany
        (Carga.insert_query "tbl_neotel_conducta" ["fecha"; "id"]%string)
        [[20240229; 1]; [20240229; 2]; [20240229; 3]];
      Carga.OpExecute
        (Carga.insert_query "tbl_neotel_conducta" ["fecha"; "id"]%string)
        [Carga.PCelda 20240229; Carga.PCelda 1];
      Carga.OpExecute
        (Carga.insert_query "tbl_neotel_conducta" ["fecha"; "id"]%string)
        [Carga.PCelda 20240229; Carga.PCelda 2];
      Carga.OpExecute
        (Carga.insert_query "tbl_neotel_conducta" ["fecha"; "id"]%string)
        [Carga.PCelda 20240229; Carga.PCelda 3];
      Carga.OpCommit]) ∧
  ∃ (rs : list (option excepcion * list (option excepcion))) n m',
    Forall2 (λ b r, r.1 ≠ None → length r.2 = length b)
      (Carga.lotes Carga.batch_size (Carga.records Carga.tres_filas)) rs ∧
    Carga.cargar_dataframe_pyodbc Z Carga.servidor_exigente
      (Some Carga.tres_filas) "tbl_neotel_conducta" "29/02/2024"
      (mkMundo (Carga.mkSesion 0%nat []) [])
    = (Ok n, m') ∧
    n = sum_list (zip_with (λ b r, Carga.insertados_de_lote Z b r.1 r.2)
                    (Carga.lotes Carga.batch_size
                       (Carga.records Carga.tres_filas)) rs) ∧
    (n ≤ length (Carga.records Carga.tres_filas))%nat ∧
    Carga.bitacora (estado m')
    = [] ++ (Carga.OpCursor, None)
         :: map (λ op, (op, None))
              (Carga.borrado_del_dia Z Carga.tres_filas "tbl_neotel_conducta"
                 "29/02/2024")
      ++ concat (zip_with
                   (λ b r, Carga.registro_de_lote Z
                             (Carga.insert_query "tbl_neotel_conducta"
                                (Carga.columns Carga.tres_filas)) b r.1 r.2)
                   (Carga.lotes Carga.batch_size
                      (Carga.records Carga.tres_filas)) rs)
      ++ [(Carga.OpCommit, None)].
Proof.
  split; [split; vm_compute; reflexivity|].
  apply (cargar_dataframe_pyodbc_tolera_inserciones Carga.servidor_exigente
           Carga.tres_filas "tbl_neotel_conducta" "29/02/2024"
           (mkMundo (Carga.mkSesion 0%nat []) [])).
  - reflexivity.
  - apply (bool_decide_unpack _). vm_compute. exact I.
  - intros s. reflexivity.
  - intros s. reflexivity.
  - intros s. reflexivity.
Defined.

(** The same rows on the server that accepts everything. *)
Lemma cargar_dataframe_pyodbc_aceptada_ejemplo :
  ∃ m',
    Carga.cargar_dataframe_pyodbc Z Carga.servidor_dispuesto
      (Some Carga.tres_filas) "tbl_neotel_conducta" "29/02/2024"
      (mkMundo (Carga.mkSesion tt []) [])
    = (Ok 3%nat, m') ∧
    Carga.bitacora (estado m')
    = [] ++ map (λ op, (op, None))
              (Carga.operaciones_de_carga Z Carga.tres_filas
                 "tbl_neotel_conducta" "29/02/2024").
Proof.
  apply (cargar_dataframe_pyodbc_aceptada Carga.servidor_dispuesto
           Carga.tres_filas "tbl_neotel_conducta" "29/02/2024"
           (mkMundo (Carga.mkSesion tt []) [])).
  - reflexivity.
  - apply (bool_decide_unpack _). vm_compute. exact I.
  - intros op s. reflexivity.
Defined.

(** A table that is not on the whitelist. *)
Lemma cargar_dataframe_pyodbc_sin_operaciones_ejemplo :
  estado (Carga.cargar_dataframe_pyodbc Z Carga.servidor_dispuesto
            (Some Carga.tres_filas) "usuarios" "29/02/2024"
            (mkMundo (Carga.mkSesion tt []) [])).2
  = Carga.mkSesion tt [] ∧
  (Carga.cargar_dataframe_pyodbc Z Carga.servidor_dispuesto
     (Some Carga.tres_filas) "usuarios" "29/02/2024"
     (mkMundo (Carga.mkSesion tt []) [])).1
  = Raise (Exc ValueError).
Proof.
  apply (cargar_dataframe_pyodbc_sin_operaciones Carga.servidor_dispuesto
           (Some Carga.tres_filas) "usuarios" "29/02/2024"
           (mkMundo (Carga.mkSesion tt []) [])).
  right. apply (bool_decide_unpack _). vm_compute. exact I.
Defined.

(** Three rows for the conduct table and no frame for the other one, on
    the server that accepts everything. *)
Lemma ejecutar_carga_aceptada_ejemplo :
  ∃ m',
    Carga.ejecutar_carga Z Carga.servidor_dispuesto "Driver={SQL Server};"
      (Carga.mkDatos (Some Carga.tres_filas) None) "29/02/2024"
      (mkMundo (Carga.mkSesion tt []) [])
    = (Ok (Carga.mkResumen 3 0), m') ∧
    Carga.bitacora (estado m')
    = [] ++ map (λ op, (op, None))
              (Carga.operaciones_de_fase Z "Driver={SQL Server};"
                 (Carga.mkDatos (Some Carga.tres_filas) None) "29/02/2024").
Proof.
  apply (ejecutar_carga_aceptada Carga.servidor_dispuesto
           "Driver={SQL Server};"
           (Carga.mkDatos (Some Carga.tres_filas) None) "29/02/2024"
           (mkMundo (Carga.mkSesion tt []) [])).
  intros op s. reflexivity.
Defined.

Section LoginCorrecto.
Import Selenium Reporte Login.
Context {W : Type}.
Variable D : driver W.
Variables url usuario password : string.

Lemma buscar_frame_por_atributos_solo frames :
  solo_Exception (buscar_frame_por_atributos D frames).
Proof.
  induction frames as [|f frames IH]; cbn [buscar_frame_por_atributos]; solo.
Qed.

Lemma buscar_frame_por_atributos_emite frames :
  emite sin_teclas (buscar_frame_por_atributos D frames).
Proof.
  induction frames as [|f frames IH]; cbn [buscar_frame_por_atributos]; emite.
Qed.

Lemma emite_todo {A} (P : evento → Prop) (p : M W A) :
  emite P p → emite (λ _, True) p.
Proof.
  intros Hp m. destruct (Hp m) as (evs & Ht & _). exists evs.
  split; [done|]. by apply Forall_forall.
Qed.

Lemma traza_crece {A} (P : evento → Prop) (p : M W A) m r m' :
  emite P p → p m = (r, m') →
  ∃ evs, traza m' = traza m ++ evs ∧ Forall P evs.
Proof.
  intros Hp H. destruct (Hp m) as (evs & Ht & HP). rewrite H in Ht. eauto.
Qed.

(** The [except] clause of the login never returns. *)
Lemma informe_de_error_lanza e m :
  ∃ q m',
    bind (logger_exc ERROR "Error critico en login" e)
      (λ _, bind (llamar D (CSaveScreenshot "error_login_debug.png"))
              (λ _, @lanzar W unit (Exc e))) m
    = (Raise (tras_informe e q), m') ∧
    traza m' = traza m ++ informe_de_error e q.
Proof.
  unfold logger_exc. rewrite bind_anotar, bind_llamar. cbn [estado traza].
  destruct (D (CSaveScreenshot "error_login_debug.png") (estado m))
    as [[e'|v] w].
  - exists (inl e'). eexists. split; [reflexivity|]. cbn.
    by rewrite <- app_assoc.
  - exists (inr VNone). eexists. split; [reflexivity|]. cbn.
    by rewrite <- app_assoc.
Qed.

Ltac paso_llamada H :=
  rewrite bind_llamar in H;
  match type of H with
  | context [D ?c ?s] => destruct (D c s) as [[?|?] ?]; [done|]
  end.

(** Property X26.  A login attempt that returns has typed the user name
    into the field [txtUsuario] and the password into the field [txtClave],
    each after clearing it, has clicked the submit button, waited 6 seconds
    and gone back to the top document, in this order and as the last thing
    it did.  Nothing comes in between, and nothing is typed before: the
    user name and the password are sent once each, to these two fields. *)
Theorem login_neotel_cuerpo_exito (m m' : mundo W) :
  login_neotel_cuerpo D url usuario password m = (Ok tt, m') →
  ∃ evs input_user input_pass btn_login,
    traza m'
    = traza m ++ evs
      ++ credenciales_y_envio usuario password input_user input_pass btn_login
    ∧ Forall sin_teclas evs.
Proof.
  intros H. unfold login_neotel_cuerpo, logger in H.
  rewrite bind_anotar in H. paso_llamada H.
  match type of H with try_except _ _ _ ?w = _ => set (m1 := w) in H end.
  apply try_except_ok_inv in H as [H|(e & m2 & _ & H)].
  2: { destruct (informe_de_error_lanza e m2) as (q & m3 & Hq & _).
       rewrite Hq in H. done. }
  assert (∃ evs0, traza m1 = traza m ++ evs0 ∧ Forall sin_teclas evs0)
    as (evs0 & H0 & T0).
  { eexists. split; [unfold m1; cbn [traza]; by rewrite <- app_assoc|].
    by repeat constructor. }
  apply bind_ok_inv in H as (? & m2 & H1 & H).
  apply bind_ok_inv in H as (f1 & m3 & H2 & H).
  apply bind_ok_inv in H as (f2 & m4 & H3 & H).
  apply bind_ok_inv in H as (f3 & m5 & H4 & H).
  apply bind_ok_inv in H as (? & m6 & H5 & H).
  apply (traza_crece sin_teclas) in H1 as (evs1 & H1 & T1); [|emite].
  apply (traza_crece sin_teclas) in H2 as (evs2 & H2 & T2);
    [|emite; by apply emite_anotar].
  apply (traza_crece sin_teclas) in H3 as (evs3 & H3 & T3);
    [|emite; by apply emite_anotar].
  apply (traza_crece sin_teclas) in H4 as (evs4 & H4 & T4);
    [|pose proof buscar_frame_por_atributos_emite; emite].
  apply (traza_crece sin_teclas) in H5 as (evs5 & H5 & T5);
    [|emite; by apply emite_anotar].
  paso_llamada H. paso_llamada H. paso_llamada H.
  paso_llamada H. paso_llamada H. paso_llamada H.
  rewrite bind_anotar in H. paso_llamada H. paso_llamada H.
  rewrite bind_anotar in H. unfold sleep in H. rewrite bind_anotar in H.
  paso_llamada H. unfold anotar in H. injection H as <-.
  cbn [traza estado a_valor].
  exists (evs0 ++ evs1 ++ evs2 ++ evs3 ++ evs4 ++ evs5).
  eexists _, _, _. split; [|by repeat apply Forall_app_2].
  rewrite H5, H4, H3, H2, H1, H0.
  unfold credenciales_y_envio. rewrite <- !app_assoc. cbn [app].
  reflexivity.
Qed.

(** Property X27.  A login attempt that raises ends in one of two ways.
    Either the page could not be loaded: the exception of [get] leaves as
    it is, no error is logged and no screenshot is taken.  Or something
    failed after that: the exception is logged as an error and the
    screenshot [error_login_debug.png] is asked for, as the last thing the
    attempt does, and the exception that leaves is the one logged if the
    screenshot was taken, and the one of the screenshot if it was not.  The
    attempt never ends the process. *)
Theorem login_neotel_cuerpo_error (m m' : mundo W) (c : exn) :
  login_neotel_cuerpo D url usuario password m = (Raise c, m') →
  (∃ e, c = Exc e ∧
        traza m'
        = traza m ++ [EvLog INFO "Navegando a" None;
                      EvLlamada (CGet url) (inl e)]) ∨
  (∃ evs e q, c = tras_informe e q ∧
              traza m' = traza m ++ evs ++ informe_de_error e q).
Proof.
  intros H. unfold login_neotel_cuerpo, logger in H.
  rewrite bind_anotar, bind_llamar in H. cbn [estado traza] in H.
  destruct (D (CGet url) (estado m)) as [[e0|v] w].
  { left. injection H as <- <-. exists e0. split; [done|]. cbn.
    by rewrite <- app_assoc. }
  right.
  match type of H with try_except ?p _ _ ?w = _ =>
    set (m1 := w) in H; set (cuerpo := p) in H
  end.
  assert (solo_Exception cuerpo) as Hsolo.
  { unfold cuerpo. pose proof buscar_frame_por_atributos_solo. solo. }
  assert (emite (λ _, True) cuerpo) as Hemite.
  { unfold cuerpo.
    pose proof (λ fr, emite_todo _ _ (buscar_frame_por_atributos_emite fr)).
    emite; by apply emite_anotar. }
  unfold try_except in H. specialize (Hsolo m1).
  destruct (cuerpo m1) as [[a|[e|code]] m2] eqn:Hc.
  - done.
  - cbn [Exception] in H.
    destruct (traza_crece _ _ _ _ _ Hemite Hc) as (evs & Hevs & _).
    destruct (informe_de_error_lanza e m2) as (q & m3 & Hq & Ht).
    rewrite Hq in H. injection H as <- <-.
    exists ([EvLog INFO "Navegando a" None; EvLlamada (CGet url) (inr VNone)]
            ++ evs), e, q.
    split; [done|]. rewrite Ht, Hevs. unfold m1. cbn [traza a_valor].
    by rewrite <- !app_assoc.
  - exfalso. by eapply Hsolo.
Qed.

End LoginCorrecto.

(** The login on the page that answers every call. *)
Lemma login_neotel_cuerpo_exito_ejemplo :
  ∃ evs input_user input_pass btn_login,
    traza (Selenium.login_neotel_cuerpo Selenium.D_pagina_simple
             "https://web.neoteluin.mx/callcenter/default.htm" "agente"
             "secreto" (mkMundo tt [])).2
    = [] ++ evs
      ++ Login.credenciales_y_envio "agente" "secreto"
           input_user input_pass btn_login
    ∧ Forall Login.sin_teclas evs.
Proof.
  apply (login_neotel_cuerpo_exito Selenium.D_pagina_simple
           "https://web.neoteluin.mx/callcenter/default.htm" "agente"
           "secreto" (mkMundo tt [])).
  vm_compute. reflexivity.
Defined.

(** The login on the page whose form never shows: the timeout is logged,
    the screenshot taken, and the timeout raised. *)
Lemma login_neotel_cuerpo_error_ejemplo :
  (∃ e, Exc TimeoutException = Exc e ∧
        traza (Selenium.login_neotel_cuerpo Login.D_sin_formulario
                 "https://web.neoteluin.mx/callcenter/default.htm" "agente"
                 "secreto" (mkMundo tt [])).2
        = [] ++ [EvLog INFO "Navegando a" None;
                 EvLlamada
                   (CGet "https://web.neoteluin.mx/callcenter/default.htm")
                   (inl e)]) ∨
  (∃ evs e q, Exc TimeoutException = Login.tras_informe e q ∧
              traza (Selenium.login_neotel_cuerpo Login.D_sin_formulario
                       "https://web.neoteluin.mx/callcenter/default.htm"
                       "agente" "secreto" (mkMundo tt [])).2
              = [] ++ evs ++ Login.informe_de_error e q).
Proof.
  apply (login_neotel_cuerpo_error Login.D_sin_formulario
           "https://web.neoteluin.mx/callcenter/default.htm" "agente"
           "secreto" (mkMundo tt [])).
  vm_compute. reflexivity.
Defined.

Section DirectorioCorrecto.
Import Selenium Directorio.
Context {S : Type}.
Variable F : disco S.

Lemma pedir_eq p m :
  pedir F p m
  = match F p (sistema (estado m)) with
    | (inl e, s) =>
        (Raise (Exc e),
         mkMundo (mkSesion s (pedidos (estado m) ++ [p])) (traza m))
    | (inr v, s) =>
        (Ok v, mkMundo (mkSesion s (pedidos (estado m) ++ [p])) (traza m))
    end.
Proof.
  unfold pedir. by destruct (F p (sistema (estado m))) as [[e|v] s].
Qed.

Lemma bind_pedir {B} p (k : contesta p → M (sesion S) B) m :
  bind (pedir F p) k m
  = match F p (sistema (estado m)) with
    | (inl e, s) =>
        (Raise (Exc e),
         mkMundo (mkSesion s (pedidos (estado m) ++ [p])) (traza m))
    | (inr v, s) =>
        k v (mkMundo (mkSesion s (pedidos (estado m) ++ [p])) (traza m))
    end.
Proof.
  unfold bind. rewrite pedir_eq.
  by destruct (F p (sistema (estado m))) as [[e|v] s].
Qed.

Ltac cierra l :=
  eexists _, l; split; [reflexivity|]; cbn; rewrite <- ?app_assoc;
  repeat split; repeat constructor.

(** One entry: whatever the file system answers, the body of the loop
    returns, having asked about this entry only, [is_file] first. *)
Lemma limpiar_entrada_recorre (a : string) (m : mundo (sesion S)) :
  ∃ m' nuevos,
    limpiar_entrada F a m = (Ok tt, m') ∧
    pedidos (estado m') = pedidos (estado m) ++ nuevos ∧
    omap consultada nuevos = [a] ∧
    Forall (λ p, entrada p = Some a) nuevos.
Proof.
  unfold limpiar_entrada, try_except, logger_exc, anotar.
  rewrite bind_pedir.
  destruct (F (IsFile a) (sistema (estado m))) as [[e|[|]] s1];
    cbn [Exception].
  - cierra [IsFile a].
  - rewrite pedir_eq. cbn [estado sistema pedidos].
    destruct (F (Unlink a) s1) as [[e|[]] s2]; cierra [IsFile a; Unlink a].
  - rewrite bind_pedir. cbn [estado sistema pedidos].
    destruct (F (IsDir a) s1) as [[e|[|]] s2].
    + cierra [IsFile a; IsDir a].
    + rewrite pedir_eq. cbn [estado sistema pedidos].
      destruct (F (Rmtree a) s2) as [[e|[]] s3];
        cierra [IsFile a; IsDir a; Rmtree a].
    + cierra [IsFile a; IsDir a].
Qed.

Lemma limpiar_entradas_recorre (archivos : list string) :
  ∀ m : mundo (sesion S),
    ∃ m' nuevos,
      limpiar_entradas F archivos m = (Ok tt, m') ∧
      pedidos (estado m') = pedidos (estado m) ++ nuevos ∧
      omap consultada nuevos = archivos ∧
      Forall (λ p, ∃ a, entrada p = Some a ∧ a ∈ archivos) nuevos.
Proof.
  induction archivos as [|a archivos IH]; intros m.
  { exists m, []. cbn. by rewrite app_nil_r. }
  cbn [limpiar_entradas].
  destruct (limpiar_entrada_recorre a m) as (m1 & n1 & H1 & Hp1 & Hc1 & He1).
  rewrite (bind_ok _ _ _ _ _ H1).
  destruct (IH m1) as (m2 & n2 & H2 & Hp2 & Hc2 & He2).
  exists m2, (n1 ++ n2). split; [done|]. split; [|split].
  - by rewrite Hp2, Hp1, <- app_assoc.
  - by rewrite omap_app, Hc1, Hc2.
  - apply Forall_app_2.
    + eapply Forall_impl; [exact He1|]. intros p Hp. exists a.
      split; [done|]. apply elem_of_cons. by left.
    + eapply Forall_impl; [exact He2|]. intros p (b & Hp & Hb). exists b.
      split; [done|]. apply elem_of_cons. by right.
Qed.

(** Property X28.  Once the download directory exists and has been listed,
    cleaning it never raises: an entry that cannot be examined or removed
    is logged as a warning and the loop goes on with the next one.  Every
    listed entry is examined exactly once, in the order of the listing,
    and the file system is asked about nothing but the listed entries:
    nothing is removed that was not listed, and the directory itself is
    neither created nor listed again. *)
Theorem limpiar_directorio_descargas_recorre (m : mundo (sesion S))
    (archivos : list string) (s1 s2 : S) :
  F Exists (sistema (estado m)) = (inr true, s1) →
  F Iterdir s1 = (inr archivos, s2) →
  ∃ m' nuevos,
    limpiar_directorio_descargas F m = (Ok tt, m') ∧
    pedidos (estado m') = pedidos (estado m) ++ Exists :: Iterdir :: nuevos ∧
    omap consultada nuevos = archivos ∧
    Forall (λ p, ∃ a, entrada p = Some a ∧ a ∈ archivos) nuevos.
Proof.
  intros Hex Hit. unfold limpiar_directorio_descargas.
  rewrite bind_pedir, Hex. unfold logger. rewrite bind_anotar, bind_pedir.
  cbn [estado sistema pedidos traza]. rewrite Hit.
  set (m1 := mkMundo _ _).
  destruct (limpiar_entradas_recorre archivos m1)
    as (m2 & nuevos & H2 & Hp2 & Hc2 & He2).
  exists m2, nuevos. split; [done|]. split; [|done].
  rewrite Hp2. unfold m1. cbn [estado pedidos]. by rewrite <- !app_assoc.
Qed.

End DirectorioCorrecto.

(** A report, a folder and a file that cannot be removed: the three are
    examined, and the failure of the last one is passed over. *)
Lemma limpiar_directorio_descargas_recorre_ejemplo :
  ∃ m' nuevos,
    Directorio.limpiar_directorio_descargas Directorio.disco_con_candado
      (mkMundo (Directorio.mkSesion tt []) [])
    = (Ok tt, m') ∧
    Directorio.pedidos (estado m')
    = [] ++ Directorio.Exists :: Directorio.Iterdir :: nuevos ∧
    omap Directorio.consultada nuevos
    = ["reporte.csv"; "cache"; "abierto.xlsx"]%string ∧
    Forall (λ p, ∃ a, Directorio.entrada p = Some a ∧
                      a ∈ ["reporte.csv"; "cache"; "abierto.xlsx"]%string)
      nuevos.
Proof.
  apply (limpiar_directorio_descargas_recorre Directorio.disco_con_candado
           (mkMundo (Directorio.mkSesion tt []) [])
           ["reporte.csv"; "cache"; "abierto.xlsx"]%string tt tt).
  - reflexivity.
  - reflexivity.
Defined.
